(** * Basic Regression Analysis, Example 2: the notebook's analysis pipeline

    The program is one Jupyter notebook, run top to bottom.  Its own code
    is glue: data cleaning with pandas, two decision rules on p-values,
    the lag rule of the Ljung-Box check, the mean of the residuals, and
    the calls that hand data to statsmodels and scikit-learn.

    Part I holds the definitions:
    - [Float64]: Python's [float] (IEEE binary64) as [spec_float];
    - [Py]: exceptions, results, data frames' cell types;
    - [Frame]: the pandas operations the cells use;
    - [Cells]: the monad of a notebook cell (events and exceptions);
    - [Builtins]: [min], [sum], [math.sqrt];
    - [Loader]: cell 5, the cleaning of the spreadsheet;
    - [Notebook]: cell 9 and cells 16 to 35, over the interface of the
      libraries;
    - [LeastSquares]: the fitter's contract in exact arithmetic;
    - [Evaluator]: the metric functions;
    - [Screener]: the variance inflation factor in exact arithmetic;
    - [Demo]: sample data;
    - [Refit]: cells 44 and 45, the second model;
    - [Samples]: more sample data.

    Part II holds the theorems on the decisions, the data flow and the
    fit; Part III holds the theorems on the cleaning of the sheet, the
    choice of columns and rows, and the ways the cells fail. *)

From Stdlib Require Import ZArith String Ascii Bool List Lia.
From Stdlib Require Import Reals Lra Psatz.
From Stdlib Require Import Floats.SpecFloat.
From Stdlib Require Import DecimalString.
From Stdlib Require Import Permutation.
From Stdlib Require OrderedTypeEx.
Import ListNotations.

(* ================================================================= *)
(** * Part I: definitions *)

(* ----------------------------------------------------------------- *)
(** ** Python floats *)

Module Float64.

Definition prec : Z := 53.
Definition emax : Z := 1024.

(** A Python [float] or a numpy [float64]. *)
Definition float : Type := spec_float.

Definition nan : float := S754_nan.
Definition of_Z (z : Z) : float := binary_normalize prec emax z 0 false.

Definition add : float -> float -> float := SFadd prec emax.
Definition sub : float -> float -> float := SFsub prec emax.
Definition mul : float -> float -> float := SFmul prec emax.
Definition div : float -> float -> float := SFdiv prec emax.
Definition sqrt : float -> float := SFsqrt prec emax.
Definition abs : float -> float := SFabs.

(** [a < b], [a > b], [a <= b] and [a == b] of Python: false as soon as
    one side is NaN. *)
Definition ltb (a b : float) : bool := SFltb a b.
Definition gtb (a b : float) : bool := SFltb b a.
Definition leb (a b : float) : bool := SFleb a b.
Definition eqb (a b : float) : bool := SFeqb a b.

Definition is_nan (a : float) : bool :=
  match a with S754_nan => true | _ => false end.

Definition is_finite (a : float) : bool :=
  match a with S754_zero _ | S754_finite _ _ _ => true | _ => false end.

Definition zero : float := S754_zero false.
Definition one : float := of_Z 1.

(** The literal [0.05]: the binary64 number nearest to 1/20,
    [0x1.999999999999ap-5]. *)
Definition lit_0_05 : float := S754_finite false 7205759403792794 (-57).

(** The literal [0.20], [0x1.999999999999ap-3]. *)
Definition lit_0_20 : float := S754_finite false 7205759403792794 (-55).

End Float64.

Import Float64.

(* ----------------------------------------------------------------- *)
(** ** Exceptions and values *)

Module Py.

(** Exceptions: the ones Python and pandas raise in the cells, and the
    error taxonomy of the components behind the pipeline. *)
Inductive exn : Type :=
| ValueError (msg : string)
| KeyError (key : string)
| TypeError
| OverflowError
| ZeroDivisionError
| DataError
| NumericError
| UnderdeterminedError
| ShapeError
| SerializationError.

Inductive result (A : Type) : Type :=
| Ok (a : A)
| Raise (e : exn).
Arguments Ok {A} a.
Arguments Raise {A} e.

Definition vector : Type := list float.

(** A two-dimensional array, as a list of rows. *)
Definition matrix : Type := list (list float).

(** A cell of the spreadsheet as [read_excel] hands it over. *)
Inductive obj : Type :=
| OFloat (f : float)
| OInt (z : Z)
| OStr (s : string).

End Py.

Import Py.

(* ----------------------------------------------------------------- *)
(** ** Data frames *)

Module Frame.

(** A pandas [DataFrame] with cells of type [A]: row labels and named
    columns, every column as long as the index. *)
Record Table (A : Type) : Type := mkTable {
  index : list obj;
  columns : list (string * list A)
}.
Arguments mkTable {A} index columns.
Arguments index {A} t.
Arguments columns {A} t.

(** A frame whose columns have dtype [float64]. *)
Definition DataFrame : Type := Table float.

(** [len(df)] *)
Definition len {A} (df : Table A) : Z := Z.of_nat (length (index df)).

Definition column_names {A} (df : Table A) : list string :=
  map fst (columns df).

Definition mem (s : string) (l : list string) : bool :=
  existsb (String.eqb s) l.

(** [df.drop(labels, axis = 1)]: a label that is no column raises. *)
Definition drop {A} (labels : list string) (df : Table A) : result (Table A) :=
  match find (fun l => negb (mem l (column_names df))) labels with
  | Some l => Raise (KeyError l)
  | None =>
      Ok (mkTable (index df)
            (filter (fun c => negb (mem (fst c) labels)) (columns df)))
  end.

(** The columns named [l], in the order of the frame: a name can stand
    over more than one column. *)
Definition named {A} (l : string) (df : Table A) : list (string * list A) :=
  filter (fun c => String.eqb (fst c) l) (columns df).

(** The first column named [l]: the column named [l] where the names of
    the frame are distinct. *)
Definition lookup {A} (l : string) (df : Table A) : option (list A) :=
  option_map snd (find (fun c => String.eqb (fst c) l) (columns df)).

(** [df[[l1, ..., lk]]]: for each listed label, in the listed order,
    every column of that name; a label that is no column raises. *)
Fixpoint select {A} (labels : list string) (df : Table A)
  : result (list (string * list A)) :=
  match labels with
  | [] => Ok []
  | l :: ls =>
      match named l df with
      | [] => Raise (KeyError l)
      | c :: cs =>
          match select ls df with
          | Ok cs' => Ok ((c :: cs) ++ cs')
          | Raise e => Raise e
          end
      end
  end.

Definition getitem {A} (labels : list string) (df : Table A) : result (Table A) :=
  match select labels df with
  | Ok cs => Ok (mkTable (index df) cs)
  | Raise e => Raise e
  end.

(** [df.values]: row [i] holds entry [i] of every column. *)
Definition row (df : DataFrame) (i : nat) : list float :=
  map (fun c => nth i (snd c) nan) (columns df).

Definition values (df : DataFrame) : matrix :=
  map (row df) (seq 0 (length (index df))).

(** The rows at the given positions, in the given order. *)
Definition take_rows {A} (d : A) (pos : list nat) (l : list A) : list A :=
  map (fun i => nth i l d) pos.

Definition take (pos : list nat) (df : DataFrame) : DataFrame :=
  mkTable (take_rows (OStr EmptyString) pos (index df))
          (map (fun c => (fst c, take_rows nan pos (snd c))) (columns df)).

(** [df.rename(columns = mapping)]: a column named by a key takes the
    key's value as its name, the others keep theirs. *)
Definition rename_one (mapping : list (string * string)) (name : string)
  : string :=
  match find (fun kv => String.eqb (fst kv) name) mapping with
  | Some kv => snd kv
  | None => name
  end.

Definition rename {A} (mapping : list (string * string)) (df : Table A)
  : Table A :=
  mkTable (index df)
          (map (fun c => (rename_one mapping (fst c), snd c)) (columns df)).

(** [pd.Series(data, index = labels)]: as many labels as values. *)
Definition Series (data : list float) (labels : list string)
  : result (list (string * float)) :=
  if Nat.eqb (length data) (length labels) then Ok (combine labels data)
  else Raise (ValueError "Length of values does not match length of index").

(** [df.isnull().any()]: per column, whether it holds a NaN. *)
Definition isnull_any (df : DataFrame) : list (string * bool) :=
  map (fun c => (fst c, existsb is_nan (snd c))) (columns df).

(** [df.head()] *)
Definition head (df : DataFrame) : DataFrame :=
  mkTable (firstn 5 (index df))
          (map (fun c => (fst c, firstn 5 (snd c))) (columns df)).

End Frame.

Import Frame.

(* ----------------------------------------------------------------- *)
(** ** Notebook cells *)

Module Cells.

(** What a cell does that can be seen from outside: what it prints or
    displays and the library calls it makes, with their arguments. *)
Inductive event : Type :=
| EvPrint (line : string)
| EvDisplayStr (s : string)
| EvDisplayFlags (flags : list (string * bool))
| EvDisplayFrame (df : DataFrame)
| EvDisplaySeries (series : list (string * float))
| EvVIF (exog : matrix) (exog_idx : nat)
| EvHetWhite (resid : vector) (exog : matrix)
| EvHetBreuschPagan (resid : vector) (exog : matrix)
| EvLjungBox (resid : vector) (lags : Z)
| EvPlotACF (resid : vector)
| EvQQPlot (resid : vector)
| EvMSE (y_true y_pred : matrix)
| EvMAE (y_true y_pred : matrix)
| EvR2 (y_true y_pred : matrix).

(** A cell: the events so far, and a value or the exception that
    stopped it. *)
Definition Cell (A : Type) : Type := (list event * result A)%type.

Definition ret {A} (a : A) : Cell A := ([], Ok a).
Definition raise {A} (e : exn) : Cell A := ([], Raise e).
Definition emit (e : event) : Cell unit := ([e], Ok tt).
Definition print (line : string) : Cell unit := emit (EvPrint line).
Definition lift {A} (r : result A) : Cell A := ([], r).

Definition bind {A B} (c : Cell A) (k : A -> Cell B) : Cell B :=
  match c with
  | (tr, Ok a) => let '(tr', r) := k a in (tr ++ tr', r)
  | (tr, Raise e) => (tr, Raise e)
  end.

(** A library call: it is recorded, then it returns or raises. *)
Definition call {A} (ev : event) (r : result A) : Cell A :=
  bind (emit ev) (fun _ => lift r).

(** A list comprehension whose body is a cell: the items in order, up
    to the first that raises. *)
Fixpoint for_each {A B} (f : A -> Cell B) (l : list A) : Cell (list B) :=
  match l with
  | [] => ret []
  | a :: l' =>
      bind (f a) (fun b => bind (for_each f l') (fun bs => ret (b :: bs)))
  end.

Definition trace {A} (c : Cell A) : list event := fst c.
Definition outcome {A} (c : Cell A) : result A := snd c.

(** The printed lines of a trace, in order. *)
Fixpoint stdout (tr : list event) : list string :=
  match tr with
  | [] => []
  | EvPrint l :: tr' => l :: stdout tr'
  | _ :: tr' => stdout tr'
  end.

End Cells.

Import Cells.

Declare Scope cell_scope.
Delimit Scope cell_scope with cell.
Notation "x <- c ;; k" := (bind c (fun x => k))
  (at level 61, c at next level, right associativity) : cell_scope.
Notation "' pat <- c ;; k" := (bind c (fun x => match x with pat => k end))
  (at level 61, pat pattern, c at next level, right associativity) : cell_scope.
Notation "c ;; k" := (bind c (fun _ => k))
  (at level 61, right associativity) : cell_scope.

(* ----------------------------------------------------------------- *)
(** ** Python built-ins used by the cells *)

Module Builtins.

(** ['-'*100] *)
Fixpoint str_mul (s : string) (n : nat) : string :=
  match n with
  | O => EmptyString
  | S n' => (s ++ str_mul s n')%string
  end.

Definition dashes : string := str_mul "-" 100.

(** [str(i)] for an [int]. *)
Definition str_int (z : Z) : string := NilZero.string_of_int (Z.to_int z).

(** [min(a, b)] on two [int]s: [b] only if [b < a]. *)
Definition min2 (a b : Z) : Z := if (b <? a)%Z then b else a.

(** The loop of [min(iterable)]: the running minimum is replaced by an
    item only when [item < running minimum] holds. *)
Fixpoint min_from (m : float) (l : list float) : float :=
  match l with
  | [] => m
  | x :: l' => min_from (if ltb x m then x else m) l'
  end.

(** [min(iterable)] *)
Definition py_min (l : list float) : result float :=
  match l with
  | [] => Raise (ValueError "min() arg is an empty sequence")
  | x :: l' => Ok (min_from x l')
  end.

(** [sum(iterable)]: starts from the [int] 0 and adds from the left. *)
Definition py_sum (l : list float) : float := fold_left add l (of_Z 0).

(** [sum(v) / len(v)] as the notebook writes it; the sum of an empty
    sequence is the [int] 0, and [0 / 0] raises. *)
Definition sum_over_len (v : list float) : result float :=
  match v with
  | [] => Raise ZeroDivisionError
  | _ => Ok (div (py_sum v) (of_Z (Z.of_nat (length v))))
  end.

(** [math.sqrt] *)
Definition math_sqrt (x : float) : result float :=
  if ltb x zero then Raise (ValueError "math domain error")
  else Ok (sqrt x).

End Builtins.

Import Builtins.

(* ----------------------------------------------------------------- *)
(** ** Cell 5: load and clean the data *)

Module Loader.

(** The frame [read_excel] returns: named columns of cells, the column
    of years among them. *)
Definition Sheet : Type := list (string * list obj).

(** [df.replace(to_replace, value)] for two strings: a cell equal to
    [to_replace] becomes [value]. *)
Definition replace_cell (to_replace value : string) (c : obj) : obj :=
  match c with
  | OStr s => if String.eqb s to_replace then OStr value else c
  | _ => c
  end.

Definition replace (to_replace value : string) (sh : Sheet) : Sheet :=
  map (fun c => (fst c, map (replace_cell to_replace value) (snd c))) sh.

(** [df.set_index(name)]: the column becomes the index; without such a
    column pandas raises a [KeyError] whose message names the label. *)
Definition set_index (name : string) (sh : Sheet) : result (Table obj) :=
  match find (fun c => String.eqb (fst c) name) sh with
  | None => Raise (KeyError ("None of ['" ++ name ++ "'] are in the columns"))
  | Some c =>
      Ok (mkTable (snd c)
            (filter (fun c => negb (String.eqb (fst c) name)) sh))
  end.

Fixpoint map_result {A B} (f : A -> result B) (l : list A) : result (list B) :=
  match l with
  | [] => Ok []
  | a :: l' =>
      match f a with
      | Raise e => Raise e
      | Ok b =>
          match map_result f l' with
          | Raise e => Raise e
          | Ok bs => Ok (b :: bs)
          end
      end
  end.

(** *** Slicing by label: [df.loc[start:stop]] with two strings *)

Fixpoint monotonic (le : string -> string -> bool) (l : list string) : bool :=
  match l with
  | a :: (b :: _) as l' => le a b && monotonic le l'
  | _ => true
  end.

Definition is_monotonic_increasing (l : list string) : bool :=
  monotonic String.leb l.
Definition is_monotonic_decreasing (l : list string) : bool :=
  monotonic (fun a b => String.leb b a) l.

(** Positions at which [label] stands in the index. *)
Fixpoint occurrences (label : string) (l : list string) (i : nat) : list nat :=
  match l with
  | [] => []
  | a :: l' =>
      if String.eqb a label then i :: occurrences label l' (S i)
      else occurrences label l' (S i)
  end.

Definition count (p : string -> bool) (l : list string) : nat :=
  length (filter p l).

(** A predicate on labels that holds below every label at which it
    holds. *)
Definition downward (P : string -> bool) : Prop :=
  forall x y, String.leb x y = true -> P y = true -> P x = true.

Inductive side : Type := left_side | right_side.

(** [Index.get_slice_bound]: a label that is present bounds the slice
    at its occurrences, which must stand together; an absent label is
    placed by binary search, which needs a monotonic index. *)
Definition get_slice_bound (l : list string) (label : string) (s : side)
  : result nat :=
  match occurrences label l 0 with
  | [] =>
      if is_monotonic_increasing l then
        Ok (count (fun a => String.ltb a label) l)
      else if is_monotonic_decreasing l then
        Ok (count (fun a => String.ltb label a) l)
      else Raise (KeyError label)
  | p :: ps =>
      let q := last ps p in
      if Nat.eqb (S (length ps)) (S q - p) then
        Ok (match s with left_side => p | right_side => S q end)
      else Raise (KeyError label)
  end.

(** *** The index that [set_index] builds

    The dtype of the index follows the cells of the column: [object]
    where a cell is a string, [int64] where every cell is an integer,
    [float64] where every cell is a number and one is a float. *)

Definition str_label (o : obj) : option string :=
  match o with OStr s => Some s | _ => None end.

Definition int_label (o : obj) : option Z :=
  match o with OInt z => Some z | _ => None end.

Definition number_label (o : obj) : option float :=
  match o with
  | OFloat f => Some f
  | OInt z => Some (of_Z z)
  | OStr _ => None
  end.

Fixpoint all_of {A} (f : obj -> option A) (l : list obj) : option (list A) :=
  match l with
  | [] => Some []
  | o :: l' =>
      match f o, all_of f l' with
      | Some a, Some la => Some (a :: la)
      | _, _ => None
      end
  end.

Fixpoint sorted_by {A} (le : A -> A -> bool) (l : list A) : bool :=
  match l with
  | a :: (b :: _) as l' => le a b && sorted_by le l'
  | _ => true
  end.

(** numpy's [searchsorted]: a binary search between [lo] and [hi] for
    the first place whose label does not pass [below]. *)
Fixpoint bisect (fuel : nat) (below : string -> bool) (l : list string)
    (lo hi : nat) : nat :=
  match fuel with
  | O => lo
  | S fuel' =>
      if Nat.ltb lo hi then
        let mid := (lo + (hi - lo) / 2)%nat in
        if below (nth mid l EmptyString)
        then bisect fuel' below l (S mid) hi
        else bisect fuel' below l lo mid
      else lo
  end.

Definition searchsorted (l : list string) (label : string) (s : side) : nat :=
  bisect (length l)
         (fun a => match s with
                   | left_side => String.ltb a label
                   | right_side => String.leb a label
                   end)
         l 0 (length l).

Definition other_side (s : side) : side :=
  match s with left_side => right_side | right_side => left_side end.

(** [get_slice_bound] on an index of numbers: a string is no key of it,
    so the bound is searched for, in an index in increasing or in
    decreasing order; numpy compares the string with the numbers as it
    writes them, [written]. *)
Definition numeric_slice_bound (increasing decreasing : bool)
    (written : list string) (label : string) (s : side) : result nat :=
  if increasing then Ok (searchsorted written label s)
  else if decreasing then
    Ok (length written - searchsorted (rev written) label (other_side s))
  else Raise (KeyError label).

(** Positions at which the string [label] stands among labels of any
    type. *)
Fixpoint occurrences_among (label : string) (l : list obj) (i : nat)
  : list nat :=
  match l with
  | [] => []
  | OStr a :: l' =>
      if String.eqb a label then i :: occurrences_among label l' (S i)
      else occurrences_among label l' (S i)
  | _ :: l' => occurrences_among label l' (S i)
  end.

(** [get_slice_bound] on an index that holds numbers beside strings:
    its labels cannot be compared, so it is not monotonic, and only a
    label that is present bounds a slice. *)
Definition mixed_slice_bound (l : list obj) (label : string) (s : side)
  : result nat :=
  match occurrences_among label l 0 with
  | [] => Raise (KeyError label)
  | p :: ps =>
      let q := last ps p in
      if Nat.eqb (S (length ps)) (S q - p) then
        Ok (match s with left_side => p | right_side => S q end)
      else Raise (KeyError label)
  end.

Section Slice.

(** The string numpy writes for a [float64]. *)
Variable float_label : float -> string.

(** [Index.get_slice_bound] for a label that is a string. *)
Definition slice_bound (index : list obj) (label : string) (s : side)
  : result nat :=
  match all_of str_label index with
  | Some l => get_slice_bound l label s
  | None =>
      match all_of int_label index with
      | Some zs =>
          numeric_slice_bound (sorted_by Z.leb zs) (sorted_by Z.geb zs)
                              (map str_int zs) label s
      | None =>
          match all_of number_label index with
          | Some fs =>
              numeric_slice_bound (sorted_by leb fs)
                                  (sorted_by (fun a b => leb b a) fs)
                                  (map float_label fs) label s
          | None => mixed_slice_bound index label s
          end
      end
  end.

(** The positions [df.loc[start:stop]] keeps; both ends are included. *)
Definition slice_locs (index : list obj) (start stop : string)
  : result (list nat) :=
  match slice_bound index start left_side with
  | Raise e => Raise e
  | Ok i =>
      match slice_bound index stop right_side with
      | Raise e => Raise e
      | Ok j => Ok (seq i (j - i))
      end
  end.

Definition loc_slice (start stop : string) (df : DataFrame) : result DataFrame :=
  match slice_locs (index df) start stop with
  | Raise e => Raise e
  | Ok pos => Ok (take pos df)
  end.

End Slice.

Definition column_names : list (string * string) :=
  [ ("Unemployment, total (% of total labor force) (national estimate)",
     "unemployment");
    ("GDP growth (annual %)", "gdp_growth");
    ("Gross capital formation (% of GDP)", "gross_capital_formation");
    ("Population growth (annual %)", "pop_growth");
    ("Birth rate, crude (per 1,000 people)", "birth_rate");
    ("Broad money growth (annual %)", "broad_money_growth");
    ("Final consumption expenditure (% of GDP)", "final_consum_gdp");
    ("Final consumption expenditure (annual % growth)", "final_consum_growth");
    ("General government final consumption expenditure (annual % growth)",
     "gov_final_consum_growth");
    ("Gross capital formation (annual % growth)", "gross_cap_form_growth");
    ("Households and NPISHs Final consumption expenditure (annual % growth)",
     "hh_consum_growth") ]%string.

Section Cell5.

(** Python's reading of a decimal numeral, for the strings other than
    ["nan"]. *)
Variable parse_float : string -> option float.

(** The string numpy writes for a [float64]. *)
Variable float_label : float -> string.

(** [float(s)] *)
Definition py_float (s : string) : result float :=
  if String.eqb s "nan" then Ok nan
  else match parse_float s with
       | Some f => Ok f
       | None => Raise (ValueError "could not convert string to float")
       end.

(** [float(c)] for a cell. *)
Definition to_float (c : obj) : result float :=
  match c with
  | OFloat f => Ok f
  | OInt z => if is_finite (of_Z z) then Ok (of_Z z) else Raise OverflowError
  | OStr s => py_float s
  end.

(** The float a cell becomes where its conversion ends well. *)
Definition converted (c : obj) : float :=
  match to_float c with
  | Ok f => f
  | Raise _ => nan
  end.

(** [df.astype(float)] *)
Definition astype_float (t : Table obj) : result DataFrame :=
  match
    map_result (fun c => match map_result to_float (snd c) with
                         | Ok v => Ok (fst c, v)
                         | Raise e => Raise e
                         end) (columns t)
  with
  | Ok cs => Ok (mkTable (index t) cs)
  | Raise e => Raise e
  end.

Local Open Scope cell_scope.

(** Cell 5, from the frame that [read_excel] returned. *)
Definition cell_5 (sheet : Sheet) : Cell DataFrame :=
  let econ_df := replace ".." "nan" sheet in
  econ_df <- lift (set_index "Year" econ_df) ;;
  econ_df <- lift (astype_float econ_df) ;;
  econ_df <- lift (loc_slice float_label "1969" "2016" econ_df) ;;
  let econ_df := rename column_names econ_df in
  emit (EvDisplayStr dashes) ;;
  emit (EvDisplayFlags (isnull_any econ_df)) ;;
  emit (EvDisplayStr dashes) ;;
  emit (EvDisplayFrame (head econ_df)) ;;
  ret econ_df.

End Cell5.

End Loader.

(* ----------------------------------------------------------------- *)
(** ** Cells 16 to 35: models, diagnostics, metrics *)

Module Notebook.

(** [sm.OLS(endog, exog)] *)
Record OLSModel : Type := OLS {
  endog : DataFrame;
  exog_frame : DataFrame
}.

(** [model.exog]: the design matrix as an array. *)
Definition exog (m : OLSModel) : matrix := values (exog_frame m).

(** What fitting computes. *)
Record Estimates : Type := mkEstimates {
  params : vector;
  resid : vector;
  bse : vector;
  pvalues : vector
}.

(** The results object: it keeps the model it was fitted from. *)
Record OLSResults : Type := mkResults {
  model : OLSModel;
  cov_type : string;
  estimates : Estimates
}.

(** A fitted [LinearRegression]. *)
Record LinearModel : Type := mkLinearModel {
  coef_ : matrix;
  intercept_ : vector
}.

(** The functions of numpy, scikit-learn and statsmodels that the cells
    call.  Their code is not the notebook's: the cells are defined over
    this interface. *)
Class Libraries : Type := {
  (** [str(x)] and [format(x, spec)] on floats *)
  str_float : float -> string;
  format_float : string -> float -> string;
  (** numpy's generators: seeding, and the train and test positions
      that scikit-learn's shuffle draws from a generator for [n] rows,
      with the generator after the draw *)
  rng : Type;
  RandomState : Z -> rng;
  shuffle_split : rng -> float -> nat -> result (list nat * list nat) * rng;
  (** scikit-learn's estimator *)
  LinearRegression_fit : DataFrame -> DataFrame -> result LinearModel;
  LinearRegression_predict : LinearModel -> DataFrame -> result matrix;
  (** statsmodels *)
  add_constant : DataFrame -> DataFrame;
  variance_inflation_factor : matrix -> nat -> result float;
  estimate : OLSModel -> string -> result Estimates;
  summary : OLSResults -> string;
  het_white : vector -> matrix -> result (float * float * float * float);
  het_breuschpagan : vector -> matrix -> result (float * float * float * float);
  acorr_ljungbox : vector -> Z -> result (vector * vector);
  (** scikit-learn's metrics *)
  mean_squared_error : matrix -> matrix -> result float;
  mean_absolute_error : matrix -> matrix -> result float;
  r2_score : matrix -> matrix -> result float
}.

Definition white_title : string := "For the White's Test".
Definition white_no : string :=
  "We fail to reject the null hypthoesis, so there is no heteroscedasticity. "
  ++ String "010" EmptyString.
Definition white_yes : string :=
  "We reject the null hypthoesis, so there is heteroscedasticity. "
  ++ String "010" EmptyString.
Definition bp_title : string := "For the Breusch-Pagan's Test".
Definition bp_no : string :=
  "We fail to reject the null hypthoesis, so there is no heteroscedasticity.".
Definition bp_yes : string :=
  "We reject the null hypthoesis, so there is heteroscedasticity.".
Definition lb_no : string :=
  "We fail to reject the null hypthoesis, so there is no autocorrelation.".
Definition lb_yes : string :=
  "We reject the null hypthoesis, so there is autocorrelation.".

Local Open Scope cell_scope.
Local Open Scope string_scope.

(** [model.fit(cov_type = ...)]; the default is ["nonrobust"]. *)
Definition fit `{Libraries} (m : OLSModel) (cov : string) : result OLSResults :=
  match estimate m cov with
  | Ok e => Ok (mkResults m cov e)
  | Raise e => Raise e
  end.

(** [check_random_state]: an [int] seeds a fresh generator, [None] is
    numpy's global one. *)
Definition check_random_state `{Libraries} (random_state : option Z)
    (np_random : rng) : rng :=
  match random_state with
  | Some seed => RandomState seed
  | None => np_random
  end.

(** [train_test_split(X, Y, test_size, random_state)], with numpy's
    global generator before the call and, in the result, after it. *)
Definition train_test_split `{Libraries} (X Y : DataFrame) (test_size : float)
    (random_state : option Z) (np_random : rng)
  : result (DataFrame * DataFrame * DataFrame * DataFrame * rng) :=
  let '(parts, used) :=
    shuffle_split (check_random_state random_state np_random) test_size
                  (length (index X)) in
  match parts with
  | Ok (train, test) =>
      Ok (take train X, take test X, take train Y, take test Y,
          match random_state with
          | Some _ => np_random
          | None => used
          end)
  | Raise e => Raise e
  end.

(** *** Cell 9: variance inflation factors *)

(** [pd.Series([variance_inflation_factor(X.values, i)
               for i in range(X.shape[1])], index = X.columns)] *)
Definition vif_series `{Libraries} (X : DataFrame)
  : Cell (list (string * float)) :=
  vifs <- for_each
            (fun i => call (EvVIF (values X) i)
                           (variance_inflation_factor (values X) i))
            (seq 0 (length (columns X))) ;;
  lift (Series vifs (column_names X)).

Definition cell_9 `{Libraries} (econ_df : DataFrame)
  : Cell (list (string * float) * list (string * float)) :=
  let econ_df_before := econ_df in
  econ_df_after <- lift (drop ["gdp_growth"; "birth_rate";
                                "final_consum_growth";
                                "gross_capital_formation"] econ_df) ;;
  let X1 := add_constant econ_df_before in
  let X2 := add_constant econ_df_after in
  series_before <- vif_series X1 ;;
  series_after <- vif_series X2 ;;
  print "DATA BEFORE" ;;
  print dashes ;;
  emit (EvDisplaySeries series_before) ;;
  print "DATA AFTER" ;;
  print dashes ;;
  emit (EvDisplaySeries series_after) ;;
  ret (series_before, series_after).

(** What cell 16 binds. *)
Record Split : Type := mkSplit {
  X : DataFrame;
  Y : DataFrame;
  X_train : DataFrame;
  X_test : DataFrame;
  y_train : DataFrame;
  y_test : DataFrame;
  regression_model : LinearModel
}.

(** *** Cell 16: build the model *)
Definition cell_16 `{Libraries} (econ_df : DataFrame) (np_random : rng)
  : Cell (Split * rng) :=
  econ_df_after <- lift (drop ["birth_rate"; "final_consum_growth";
                                "gross_capital_formation"] econ_df) ;;
  X <- lift (drop ["gdp_growth"] econ_df_after) ;;
  Y <- lift (getitem ["gdp_growth"] econ_df_after) ;;
  '(X_train, X_test, y_train, y_test, np_random) <-
    lift (train_test_split X Y lit_0_20 (Some 1%Z) np_random) ;;
  regression_model <- lift (LinearRegression_fit X_train y_train) ;;
  ret (mkSplit X Y X_train X_test y_train y_test regression_model, np_random).

(** *** Cell 20: predictions on the held-out rows *)
Definition cell_20 `{Libraries} (regression_model : LinearModel)
    (X_test : DataFrame) : Cell matrix :=
  lift (LinearRegression_predict regression_model X_test).

(** *** Cell 23: the statsmodels fit *)
Definition cell_23 `{Libraries} (X Y : DataFrame)
  : Cell (DataFrame * OLSResults) :=
  let X2 := add_constant X in
  let model := OLS Y X2 in
  est <- lift (fit model "nonrobust") ;;
  print (summary est) ;;
  ret (X2, est).

(** *** Cell 25: heteroscedasticity *)
Definition white_block `{Libraries} (est : OLSResults) : Cell unit :=
  '(_, pval, _, f_pval) <-
    call (EvHetWhite (resid (estimates est)) (exog (model est)))
         (het_white (resid (estimates est)) (exog (model est))) ;;
  print (str_float pval ++ " " ++ str_float f_pval) ;;
  print dashes ;;
  if gtb pval lit_0_05 then
    print white_title ;;
    print ("The p-value was " ++ format_float ".4" pval) ;;
    print white_no
  else
    print white_title ;;
    print ("The p-value was " ++ format_float ".4" pval) ;;
    print white_yes.

Definition breuschpagan_block `{Libraries} (est : OLSResults) : Cell unit :=
  '(_, pval, _, f_pval) <-
    call (EvHetBreuschPagan (resid (estimates est)) (exog (model est)))
         (het_breuschpagan (resid (estimates est)) (exog (model est))) ;;
  print (str_float pval ++ " " ++ str_float f_pval) ;;
  print dashes ;;
  if gtb pval lit_0_05 then
    print bp_title ;;
    print ("The p-value was " ++ format_float ".4" pval) ;;
    print bp_no
  else
    print bp_title ;;
    print ("The p-value was " ++ format_float ".4" pval) ;;
    print bp_yes.

Definition cell_25 `{Libraries} (est : OLSResults) : Cell unit :=
  white_block est ;; breuschpagan_block est.

(** *** Cell 27: robust standard errors *)
Definition cell_27 `{Libraries} (Y X2 : DataFrame) : Cell OLSResults :=
  let model := OLS Y X2 in
  robust_ols <- lift (fit model "HC1") ;;
  print (summary robust_ols) ;;
  ret robust_ols.

(** *** Cell 29: autocorrelation *)
Definition cell_29 `{Libraries} (X : DataFrame) (est : OLSResults) : Cell unit :=
  let lag := min2 10 (len X / 5) in
  print ("The number of lags will be " ++ str_int lag) ;;
  print dashes ;;
  test_results <-
    call (EvLjungBox (resid (estimates est)) lag)
         (acorr_ljungbox (resid (estimates est)) lag) ;;
  let '(ibvalue, p_val) := test_results in
  lowest <- lift (py_min p_val) ;;
  (if gtb lowest lit_0_05 then
     print ("The lowest p-value found was " ++ format_float ".4" lowest) ;;
     print lb_no ;;
     print dashes
   else
     print ("The lowest p-value found was " ++ format_float ".4" lowest) ;;
     print lb_yes ;;
     print dashes) ;;
  emit (EvPlotACF (resid (estimates est))).

(** *** Cell 31: normality and the mean of the residuals *)
Definition cell_31 `{Libraries} (est : OLSResults) : Cell float :=
  emit (EvQQPlot (resid (estimates est))) ;;
  mean_residuals <- lift (sum_over_len (resid (estimates est))) ;;
  print ("The mean of the residuals is " ++ format_float ".4" mean_residuals) ;;
  ret mean_residuals.

(** *** Cell 33: measures of error *)
Definition cell_33 `{Libraries} (y_test : DataFrame) (y_predict : matrix)
  : Cell (float * float * float) :=
  model_mse <- call (EvMSE (values y_test) y_predict)
                    (mean_squared_error (values y_test) y_predict) ;;
  model_mae <- call (EvMAE (values y_test) y_predict)
                    (mean_absolute_error (values y_test) y_predict) ;;
  model_rmse <- lift (math_sqrt model_mse) ;;
  print ("MSE " ++ format_float ".3" model_mse) ;;
  print ("MAE " ++ format_float ".3" model_mae) ;;
  print ("RMSE " ++ format_float ".3" model_rmse) ;;
  ret (model_mse, model_mae, model_rmse).

(** *** Cell 35: R-squared *)
Definition cell_35 `{Libraries} (y_test : DataFrame) (y_predict : matrix)
  : Cell float :=
  model_r2 <- call (EvR2 (values y_test) y_predict)
                   (r2_score (values y_test) y_predict) ;;
  print ("R2: " ++ format_float ".2" model_r2) ;;
  ret model_r2.

(** What a run of cells 16 to 35 leaves bound. *)
Record Run : Type := mkRun {
  split : Split;
  y_predict : matrix;
  X2 : DataFrame;
  est : OLSResults;
  robust_ols : OLSResults;
  mean_residuals : float;
  model_mse : float;
  model_mae : float;
  model_rmse : float;
  model_r2 : float
}.

(** The cells in the order of the notebook, from the cleaned frame and
    numpy's global generator.  The cells that only display (7, 10, 12,
    14, 18, 37, 39, 42) bind nothing that a later cell reads and are
    left out. *)
Definition run_cells `{Libraries} (econ_df : DataFrame) (np_random : rng)
  : Cell (Run * rng) :=
  '(s, np_random) <- cell_16 econ_df np_random ;;
  y_predict <- cell_20 (regression_model s) (X_test s) ;;
  '(X2, est) <- cell_23 (X s) (Y s) ;;
  cell_25 est ;;
  robust_ols <- cell_27 (Y s) X2 ;;
  cell_29 (X s) est ;;
  mean_residuals <- cell_31 est ;;
  '(model_mse, model_mae, model_rmse) <- cell_33 (y_test s) y_predict ;;
  model_r2 <- cell_35 (y_test s) y_predict ;;
  ret (mkRun s y_predict X2 est robust_ols mean_residuals
             model_mse model_mae model_rmse model_r2, np_random).

(** The residual vectors handed to the diagnostics of a trace, and the
    pairs of targets and predictions handed to the metrics, in order. *)
Definition diag_resid (e : event) : option vector :=
  match e with
  | EvHetWhite r _ | EvHetBreuschPagan r _ | EvLjungBox r _
  | EvPlotACF r | EvQQPlot r => Some r
  | _ => None
  end.

Definition metric_args (e : event) : option (matrix * matrix) :=
  match e with
  | EvMSE a b | EvMAE a b | EvR2 a b => Some (a, b)
  | _ => None
  end.

Fixpoint pick {A B} (f : A -> option B) (l : list A) : list B :=
  match l with
  | [] => []
  | a :: l' =>
      match f a with
      | Some b => b :: pick f l'
      | None => pick f l'
      end
  end.

Definition diag_inputs (tr : list event) : list vector := pick diag_resid tr.
Definition metric_inputs (tr : list event) : list (matrix * matrix) :=
  pick metric_args tr.

End Notebook.

(* ----------------------------------------------------------------- *)
(** ** The fitter in exact arithmetic *)

Module LeastSquares.

Local Open Scope R_scope.

(** One row of the design matrix times the coefficients. *)
Fixpoint dot (u v : list R) : R :=
  match u, v with
  | x :: u', y :: v' => x * y + dot u' v'
  | _, _ => 0
  end.

(** The fitted values, one per row. *)
Definition fitted (X : list (list R)) (b : list R) : list R :=
  map (fun row => dot row b) X.

Fixpoint vsub (u v : list R) : list R :=
  match u, v with
  | x :: u', y :: v' => (x - y) :: vsub u' v'
  | _, _ => []
  end.

(** The residuals [y - X b]. *)
Definition residuals (X : list (list R)) (y b : list R) : list R :=
  vsub y (fitted X b).

Definition sum (l : list R) : R := fold_right Rplus 0 l.
Definition sum_sq (l : list R) : R := sum (map (fun r => r * r) l).

(** The sum of squared residuals. *)
Definition ssr (X : list (list R)) (y b : list R) : R :=
  sum_sq (residuals X y b).

(** [sm.add_constant(X)]: a first column of ones. *)
Definition add_constant (X : list (list R)) : list (list R) :=
  map (cons 1) X.

(** Modelled from the spec: the code of the fitter ([OLS.fit] of
    statsmodels, [LinearRegression.fit] of scikit-learn) is not in the
    notebook.  Section 4.3: the fitter returns, for [k] columns,
    coefficients minimizing the sum of squared residuals. *)
Definition least_squares (k : nat) (X : list (list R)) (y b : list R) : Prop :=
  length b = k /\
  forall b', length b' = k -> ssr X y b <= ssr X y b'.

(** Modelled from the spec: as [least_squares]; where the minimiser is
    not unique, the fitter (a pseudo-inverse) returns the one of least
    Euclidean norm. *)
Definition ols_fit (k : nat) (X : list (list R)) (y b : list R) : Prop :=
  least_squares k X y b /\
  forall b', least_squares k X y b' -> sum_sq b <= sum_sq b'.

(** What a fit exposes.  The covariance type is recorded; the standard
    errors and p-values computed from it are left open. *)
Record FitResult : Type := mkFitResult {
  cov_type : string;
  params : list R;
  resid : list R;
  fittedvalues : list R;
  bse : list R;
  pvalues : list R
}.

(** Modelled from the spec: [model.fit(cov_type = cov)] on [k] columns.
    Section 4.3 gives both variants the same contract for the point
    estimates; the covariance estimator enters the standard errors and
    p-values only. *)
Definition fit_result (cov : string) (k : nat) (X : list (list R))
    (y : list R) (r : FitResult) : Prop :=
  cov_type r = cov /\
  ols_fit k X y (params r) /\
  resid r = residuals X y (params r) /\
  fittedvalues r = fitted X (params r).

(** [results.predict(X')] *)
Definition predict (r : FitResult) (X' : list (list R)) : list R :=
  fitted X' (params r).

(** [sum(est.resid) / len(est.resid)] of cell 31. *)
Definition mean_residuals (resid : list R) : R :=
  sum resid / INR (length resid).

(** Coefficient [j] moved by [t]. *)
Fixpoint bump (j : nat) (t : R) (b : list R) : list R :=
  match b, j with
  | [], _ => []
  | x :: b', O => (x + t) :: b'
  | x :: b', S j' => x :: bump j' t b'
  end.

(** The midpoint of two coefficient vectors. *)
Fixpoint mid (u v : list R) : list R :=
  match u, v with
  | x :: u', y :: v' => ((x + y) / 2) :: mid u' v'
  | _, _ => []
  end.

End LeastSquares.

(* ----------------------------------------------------------------- *)
(** ** The metric functions *)

Module Evaluator.

(** Modelled from the spec: the code of the metrics
    ([sklearn.metrics]) is not in the notebook.  Section 4.5: given
    true and predicted target vectors of equal length, compute MAE,
    MSE, RMSE and R2; fail with a ShapeError if the two vectors differ
    in length. *)
Definition check_consistent_length {A} (y_true y_pred : vector) (v : A)
  : result A :=
  if Nat.eqb (length y_true) (length y_pred) then Ok v else Raise ShapeError.

Definition mean (v : vector) : float :=
  div (fold_left add v zero) (of_Z (Z.of_nat (length v))).

Fixpoint errors (y_true y_pred : vector) : vector :=
  match y_true, y_pred with
  | y :: ys, p :: ps => sub y p :: errors ys ps
  | _, _ => []
  end.

(** MAE = mean(|y - p|) *)
Definition mean_absolute_error (y_true y_pred : vector) : result float :=
  check_consistent_length y_true y_pred
    (mean (map abs (errors y_true y_pred))).

(** MSE = mean((y - p)^2) *)
Definition mean_squared_error (y_true y_pred : vector) : result float :=
  check_consistent_length y_true y_pred
    (mean (map (fun e => mul e e) (errors y_true y_pred))).

(** RMSE = sqrt(MSE) *)
Definition root_mean_squared_error (y_true y_pred : vector) : result float :=
  match mean_squared_error y_true y_pred with
  | Ok mse => Ok (sqrt mse)
  | Raise e => Raise e
  end.

(** R2 = 1 - SS_res / SS_tot *)
Definition r2_score (y_true y_pred : vector) : result float :=
  let ss_res :=
    fold_left add (map (fun e => mul e e) (errors y_true y_pred)) zero in
  let m := mean y_true in
  let ss_tot :=
    fold_left add (map (fun y => mul (sub y m) (sub y m)) y_true) zero in
  check_consistent_length y_true y_pred (sub one (div ss_res ss_tot)).

(** The single column of an [n x 1] array. *)
Definition ravel (a : matrix) : vector := map (fun row => hd nan row) a.

(** The libraries, with these metrics in the place of scikit-learn's. *)
Definition with_metrics (L : Notebook.Libraries) : Notebook.Libraries :=
  {| Notebook.str_float := Notebook.str_float;
     Notebook.format_float := Notebook.format_float;
     Notebook.rng := Notebook.rng;
     Notebook.RandomState := Notebook.RandomState;
     Notebook.shuffle_split := Notebook.shuffle_split;
     Notebook.LinearRegression_fit := Notebook.LinearRegression_fit;
     Notebook.LinearRegression_predict := Notebook.LinearRegression_predict;
     Notebook.add_constant := Notebook.add_constant;
     Notebook.variance_inflation_factor := Notebook.variance_inflation_factor;
     Notebook.estimate := Notebook.estimate;
     Notebook.summary := Notebook.summary;
     Notebook.het_white := Notebook.het_white;
     Notebook.het_breuschpagan := Notebook.het_breuschpagan;
     Notebook.acorr_ljungbox := Notebook.acorr_ljungbox;
     Notebook.mean_squared_error :=
       fun a b => mean_squared_error (ravel a) (ravel b);
     Notebook.mean_absolute_error :=
       fun a b => mean_absolute_error (ravel a) (ravel b);
     Notebook.r2_score := fun a b => r2_score (ravel a) (ravel b) |}.

End Evaluator.

(* ----------------------------------------------------------------- *)
(** ** The screener's factor in exact arithmetic *)

Module Screener.

Import LeastSquares.
Local Open Scope R_scope.

(** Column [i] of a design matrix. *)
Definition column (X : list (list R)) (i : nat) : list R :=
  map (fun row => nth i row 0) X.

(** A row without its entry [i], and the matrix of the other columns. *)
Fixpoint without {A} (i : nat) (row : list A) : list A :=
  match row, i with
  | [], _ => []
  | _ :: row', O => row'
  | a :: row', S i' => a :: without i' row'
  end.

Definition others (X : list (list R)) (i : nat) : list (list R) :=
  map (without i) X.


Definition mean (y : list R) : R := sum y / INR (length y).

(** The total sum of squares, about the mean. *)
Definition tss (y : list R) : R := sum_sq (map (fun v => v - mean y) y).

(** Modelled from the spec: the code of [variance_inflation_factor]
    (statsmodels) is not in the notebook.  Section 4.2: R2_i is the
    coefficient of determination from regressing column [i] on all
    other columns; [b] holds the coefficients of that regression. *)
Definition r_squared (X : list (list R)) (i : nat) (b : list R) : R :=
  1 - ssr (others X i) (column X i) b / tss (column X i).

(** Modelled from the spec: the code of [variance_inflation_factor]
    (statsmodels) is not in the notebook.  Section 4.2: the VIF for
    column [i] is 1 / (1 - R2_i); where the regression is singular the
    VIF is undefined, and the computation fails with a NumericError.
    The quotients have no value where a denominator is zero. *)
Definition vif (X : list (list R)) (i : nat) (b : list R) : result R :=
  if Req_dec_T (tss (column X i)) 0 then Raise NumericError
  else if Req_dec_T (1 - r_squared X i b) 0 then Raise NumericError
  else Ok (1 / (1 - r_squared X i b)).

(** Modelled from the spec: section 4.2, a VIF value per column, as
    cell 9 asks for them: column by column, the first failure ending
    the computation.  [fits i] holds the coefficients of the regression
    of column [i]. *)
Definition vif_series (X : list (list R)) (ncols : nat)
    (fits : nat -> list R) : result (list R) :=
  Loader.map_result (fun i => vif X i (fits i)) (seq 0 ncols).

End Screener.

(* ----------------------------------------------------------------- *)
(** ** A small instance of the libraries, to run the cells on examples *)

Module Demo.

Import Notebook.

Definition f (z : Z) : float := of_Z z.

(** Five rows, the target and one feature. *)
Definition econ_df : DataFrame :=
  mkTable [OStr "1969"; OStr "1970"; OStr "1971"; OStr "1972"; OStr "1973"]
    [ ("gdp_growth", [f 2; f 4; f 6; f 8; f 10]);
      ("birth_rate", [f 1; f 1; f 1; f 1; f 1]);
      ("final_consum_growth", [f 1; f 1; f 1; f 1; f 1]);
      ("gross_capital_formation", [f 1; f 1; f 1; f 1; f 1]);
      ("pop_growth", [f 1; f 2; f 3; f 4; f 5]) ]%string.

(** Every library function answers with a constant; the shuffle keeps
    the last row out for testing. *)
Definition libraries : Libraries :=
  {| str_float := fun _ => "x"%string;
     format_float := fun _ _ => "x"%string;
     rng := unit;
     RandomState := fun _ => tt;
     shuffle_split := fun _ _ n => (Ok (seq 0 (n - 1), [(n - 1)%nat]), tt);
     LinearRegression_fit := fun _ _ => Ok (mkLinearModel [[f 2]] [f 0]);
     LinearRegression_predict := fun _ X => Ok (map (fun _ => [f 10]) (index X));
     add_constant := fun X =>
       mkTable (index X)
         (("const"%string, map (fun _ => f 1) (index X)) :: columns X);
     variance_inflation_factor := fun _ _ => Ok (f 1);
     estimate := fun m _ =>
       Ok (mkEstimates [f 0; f 2] (map (fun _ => f 0) (index (endog m))) [] []);
     summary := fun _ => "summary"%string;
     het_white := fun _ _ => Ok (f 0, f 1, f 0, f 1);
     het_breuschpagan := fun _ _ => Ok (f 0, lit_0_05, f 0, f 1);
     acorr_ljungbox := fun _ lags => Ok ([f 0], [f 1]);
     mean_squared_error := fun _ _ => Ok (f 0);
     mean_absolute_error := fun _ _ => Ok (f 0);
     r2_score := fun _ _ => Ok (f 1) |}.

(** The same libraries with a generator of two states; the shuffle
    holds out the first or the second row, by the state it is given. *)
Definition coin_libraries : Libraries :=
  {| str_float := str_float (Libraries := libraries);
     format_float := format_float (Libraries := libraries);
     rng := bool;
     RandomState := fun _ => true;
     shuffle_split := fun (g : bool) _ _ =>
       (Ok (if g then ([1%nat], [0%nat]) else ([0%nat], [1%nat])), negb g);
     LinearRegression_fit := LinearRegression_fit (Libraries := libraries);
     LinearRegression_predict :=
       LinearRegression_predict (Libraries := libraries);
     add_constant := add_constant (Libraries := libraries);
     variance_inflation_factor :=
       variance_inflation_factor (Libraries := libraries);
     estimate := estimate (Libraries := libraries);
     summary := summary (Libraries := libraries);
     het_white := het_white (Libraries := libraries);
     het_breuschpagan := het_breuschpagan (Libraries := libraries);
     acorr_ljungbox := acorr_ljungbox (Libraries := libraries);
     mean_squared_error := mean_squared_error (Libraries := libraries);
     mean_absolute_error := mean_absolute_error (Libraries := libraries);
     r2_score := r2_score (Libraries := libraries) |}.

Definition est : OLSResults :=
  mkResults (OLS econ_df econ_df) "nonrobust"
            (mkEstimates [f 0; f 2] [f 0; f 0; f 0; f 0; f 0] [] []).

(** A sheet with no gap in the years kept, and one with the sentinel in
    the row of 1970. *)
Definition sheet : Loader.Sheet :=
  [ ("Year", [OStr "1968"; OStr "1969"; OStr "1970"; OStr "2017"]);
    ("GDP growth (annual %)", [OStr ".."; OFloat (f 3); OFloat (f 4); OStr ".."]) ]%string.

Definition sheet_with_gap : Loader.Sheet :=
  [ ("Year", [OStr "1969"; OStr "1970"]);
    ("GDP growth (annual %)", [OFloat (f 3); OStr ".."]) ]%string.

(** A reader of numerals that reads none. *)
Definition no_numeral (s : string) : option float := None.

(** A writer of floats, for sheets whose years are no floats. *)
Definition no_float_label (f : float) : string := "nan".

(** Five targets and four predictions. *)
Definition y_true5 : DataFrame :=
  mkTable [OStr "1"; OStr "2"; OStr "3"; OStr "4"; OStr "5"]
    [("gdp_growth"%string, [f 2; f 4; f 6; f 8; f 10])].
Definition y_pred4 : matrix := [[f 2]; [f 4]; [f 6]; [f 8]].

(** Three observations of one feature, in exact arithmetic; the least
    squares line is [1 + 3/2 x], with residuals [1/2, -1, 1/2]. *)
Definition features : list (list R) := [[-1]; [0]; [1]]%R.
Definition target : list R := [0; 0; 3]%R.
Definition coefficients : list R := [1; 3 / 2]%R.

Definition nonrobust_fit : LeastSquares.FitResult :=
  LeastSquares.mkFitResult "nonrobust" coefficients
    [1 / 2; -1; 1 / 2]%R [-1 / 2; 1; 5 / 2]%R [1; 1]%R [1 / 2; 1 / 2]%R.

Definition robust_fit : LeastSquares.FitResult :=
  LeastSquares.mkFitResult "HC1" coefficients
    [1 / 2; -1; 1 / 2]%R [-1 / 2; 1; 5 / 2]%R [2; 2]%R [1 / 4; 1 / 4]%R.

End Demo.

(* ----------------------------------------------------------------- *)
(** ** Cells 44 and 45: the model without the insignificant variables *)

Module Refit.

Import Notebook.

Local Open Scope cell_scope.
Local Open Scope string_scope.

(** *** Cell 44: the split and the fit, on fewer features *)
Definition cell_44 `{Libraries} (econ_df : DataFrame) (np_random : rng)
  : Cell (Split * rng) :=
  econ_df_after <- lift (drop ["birth_rate"; "final_consum_growth";
                                "gross_capital_formation";
                                "broad_money_growth"; "unemployment"]
                              econ_df) ;;
  X <- lift (drop ["gdp_growth"] econ_df_after) ;;
  Y <- lift (getitem ["gdp_growth"] econ_df_after) ;;
  '(X_train, X_test, y_train, y_test, np_random) <-
    lift (train_test_split X Y lit_0_20 (Some 1%Z) np_random) ;;
  regression_model <- lift (LinearRegression_fit X_train y_train) ;;
  ret (mkSplit X Y X_train X_test y_train y_test regression_model, np_random).

(** *** Cell 45: the statsmodels fit, on fewer features *)
Definition cell_45 `{Libraries} (X Y : DataFrame)
  : Cell (DataFrame * OLSResults) :=
  let X2 := add_constant X in
  let model := OLS Y X2 in
  est <- lift (fit model "nonrobust") ;;
  print (summary est) ;;
  ret (X2, est).

End Refit.

(* ----------------------------------------------------------------- *)
(** ** More sample data *)

Module Samples.

Import Notebook.

Definition f (z : Z) : float := of_Z z.

(** A cleaned frame that lacks the target column. *)
Definition no_target : DataFrame :=
  mkTable [OStr "1969"; OStr "1970"]
    [ ("birth_rate", [f 1; f 1]);
      ("final_consum_growth", [f 1; f 1]);
      ("gross_capital_formation", [f 1; f 1]);
      ("pop_growth", [f 1; f 2]) ]%string.

(** A sheet whose header for the growth of GDP is not the one cell 5
    expects. *)
Definition other_header : Loader.Sheet :=
  [ ("Year", [OInt 1969; OInt 1970]);
    ("GDP growth (%)", [OFloat (f 3); OFloat (f 4)]);
    ("Birth rate, crude (per 1,000 people)", [OFloat (f 1); OFloat (f 1)]) ]%string.

(** A sheet with a note in a row that the slice would not keep. *)
Definition with_note : Loader.Sheet :=
  [ ("Year", [OStr "1969"; OStr "1970"; OStr "2017"]);
    ("GDP growth (annual %)", [OFloat (f 3); OFloat (f 4); OStr "n/a"]) ]%string.

(** A sheet as the workbook has it: the years are integers, and cells
    are floats, integers and the sentinel. *)
Definition workbook : Loader.Sheet :=
  [ ("Year", [OInt 1968; OInt 1969; OInt 1970; OInt 1971; OInt 2017]);
    ("GDP growth (annual %)",
     [OStr ".."; OFloat (f 3); OInt 4; OFloat (f 5); OStr ".."]);
    ("Birth rate, crude (per 1,000 people)",
     [OInt 30; OInt 29; OFloat (f 28); OInt 27; OInt 10]) ]%string.

(** A sheet with the newest year first. *)
Definition newest_first : Loader.Sheet :=
  [ ("Year", [OStr "1971"; OStr "1970"; OStr "1969"]);
    ("GDP growth (annual %)", [OFloat (f 5); OFloat (f 4); OFloat (f 3)]) ]%string.

(** Ten rows with every column the cells name. *)
Definition years : list obj :=
  [OStr "1969"; OStr "1970"; OStr "1971"; OStr "1972"; OStr "1973";
   OStr "1974"; OStr "1975"; OStr "1976"; OStr "1977"; OStr "1978"]%string.
Definition ramp : vector := [f 1; f 2; f 3; f 4; f 5; f 6; f 7; f 8; f 9; f 10].

Definition full : DataFrame :=
  mkTable years
    [ ("unemployment", ramp); ("gdp_growth", ramp);
      ("gross_capital_formation", ramp); ("pop_growth", ramp);
      ("birth_rate", ramp); ("broad_money_growth", ramp);
      ("final_consum_gdp", ramp); ("final_consum_growth", ramp);
      ("gov_final_consum_growth", ramp); ("gross_cap_form_growth", ramp);
      ("hh_consum_growth", ramp) ]%string.

(** Libraries whose shuffle holds out the last two rows of ten, and
    whose Ljung-Box test answers with the p-values it is built with. *)
Definition libraries (p_val : vector) : Libraries :=
  {| str_float := fun _ => "x"%string;
     format_float := fun _ _ => "x"%string;
     rng := unit;
     RandomState := fun _ => tt;
     shuffle_split := fun _ _ n => (Ok (seq 0 (n - 2), seq (n - 2) 2), tt);
     LinearRegression_fit := fun _ _ => Ok (mkLinearModel [[f 2]] [f 0]);
     LinearRegression_predict := fun _ X => Ok (map (fun _ => [f 10]) (index X));
     add_constant := fun X =>
       mkTable (index X)
         (("const"%string, map (fun _ => f 1) (index X)) :: columns X);
     variance_inflation_factor := fun _ _ => Ok (f 1);
     estimate := fun m _ =>
       Ok (mkEstimates [f 0; f 2] (map (fun _ => f 0) (index (endog m))) [] []);
     summary := fun _ => "summary"%string;
     het_white := fun _ _ => Raise NumericError;
     het_breuschpagan := fun _ _ => Ok (f 0, f 1, f 0, f 1);
     acorr_ljungbox := fun _ lags => Ok ([], p_val);
     mean_squared_error := fun _ _ => Ok (f 0);
     mean_absolute_error := fun _ _ => Ok (f 0);
     r2_score := fun _ _ => Ok (f 1) |}.


(** Fifteen rows, the years as integers, and a fit with fifteen
    residuals. *)
Definition fifteen : DataFrame :=
  mkTable (map (fun i => OInt (1969 + Z.of_nat i)) (seq 0 15))
    [ ("gdp_growth", map (fun i => f (Z.of_nat i)) (seq 0 15));
      ("pop_growth", map (fun i => f (2 * Z.of_nat i)) (seq 0 15)) ]%string.

Definition est15 : OLSResults :=
  mkResults (OLS fifteen fifteen) "nonrobust"
            (mkEstimates [f 0; f 2] (map (fun _ => f 0) (seq 0 15)) [] []).

(** The p-values 0.9, 0.03 and 0.5 of three lags, with their
    statistics. *)
Definition three_lags : vector * vector :=
  ([f 1; f 7; f 8], [div (f 9) (f 10); div (f 3) (f 100); div (f 1) (f 2)]).

(** Libraries whose Ljung-Box test answers with [three_lags]. *)
Definition ljung_box_libraries : Libraries :=
  {| str_float := str_float (Libraries := libraries []);
     format_float := format_float (Libraries := libraries []);
     rng := unit;
     RandomState := RandomState (Libraries := libraries []);
     shuffle_split := shuffle_split (Libraries := libraries []);
     LinearRegression_fit := LinearRegression_fit (Libraries := libraries []);
     LinearRegression_predict :=
       LinearRegression_predict (Libraries := libraries []);
     add_constant := add_constant (Libraries := libraries []);
     variance_inflation_factor :=
       variance_inflation_factor (Libraries := libraries []);
     estimate := estimate (Libraries := libraries []);
     summary := summary (Libraries := libraries []);
     het_white := het_white (Libraries := libraries []);
     het_breuschpagan := het_breuschpagan (Libraries := libraries []);
     acorr_ljungbox := fun _ _ => Ok three_lags;
     mean_squared_error := mean_squared_error (Libraries := libraries []);
     mean_absolute_error := mean_absolute_error (Libraries := libraries []);
     r2_score := r2_score (Libraries := libraries []) |}.

End Samples.

(* ================================================================= *)
(** * Part II: theorems *)

Import Notebook.


(* ----------------------------------------------------------------- *)
(** ** Order on floats *)

Ltac cmp_cases :=
  repeat match goal with
  | |- context [Z.compare ?a ?b] => destruct (Z.compare_spec a b); subst
  | H : context [Z.compare ?a ?b] |- _ => destruct (Z.compare_spec a b); subst
  | |- context [Pos.compare_cont Eq ?a ?b] =>
      change (Pos.compare_cont Eq a b) with (Pos.compare a b);
      destruct (Pos.compare_spec a b); subst
  | H : context [Pos.compare_cont Eq ?a ?b] |- _ =>
      change (Pos.compare_cont Eq a b) with (Pos.compare a b) in H;
      destruct (Pos.compare_spec a b); subst
  end.

Lemma ltb_trans (a b c : float) :
  ltb a b = true -> ltb b c = true -> ltb a c = true.
Proof.
  unfold ltb, SFltb, SFcompare.
  destruct a as [sa|sa| |sa ma ea], b as [sb|sb| |sb mb eb],
           c as [sc|sc| |sc mc ec];
    try destruct sa; try destruct sb; try destruct sc; simpl;
    try discriminate; try reflexivity; intros H1 H2;
    cmp_cases; simpl in *; try discriminate; try reflexivity; try lia.
Qed.

Lemma ltb_irrefl (a : float) : ltb a a = false.
Proof.
  unfold ltb, SFltb, SFcompare.
  destruct a as [sa|sa| |sa ma ea]; try destruct sa; simpl; try reflexivity;
    rewrite Z.compare_refl;
    change (Pos.compare_cont Eq ma ma) with (Pos.compare ma ma);
    rewrite Pos.compare_refl; reflexivity.
Qed.

Lemma ltb_asym (a b : float) : ltb a b = true -> ltb b a = false.
Proof.
  intros H. destruct (ltb b a) eqn:E; [| reflexivity].
  pose proof (ltb_trans _ _ _ H E) as T. rewrite ltb_irrefl in T. discriminate.
Qed.

(** Among numbers, [not (a < b)] is [b <= a]. *)
Lemma ltb_false_leb (a b : float) :
  is_nan a = false -> is_nan b = false -> ltb a b = false -> leb b a = true.
Proof.
  unfold ltb, leb, SFltb, SFleb, SFcompare, is_nan.
  destruct a as [sa|sa| |sa ma ea], b as [sb|sb| |sb mb eb];
    try destruct sa; try destruct sb; simpl;
    try discriminate; try reflexivity; intros _ _ H1;
    cmp_cases; simpl in *; try discriminate; try reflexivity; try lia.
Qed.

(** The literal [0.05] is the quotient [1 / 20] rounded to nearest. *)
Lemma lit_0_05_is_one_twentieth : div (of_Z 1) (of_Z 20) = lit_0_05.
Proof. vm_compute. reflexivity. Qed.

Lemma lit_0_20_is_one_fifth : div (of_Z 1) (of_Z 5) = lit_0_20.
Proof. vm_compute. reflexivity. Qed.

(** [0.05 > 0.05] is false. *)
Lemma gtb_lit_0_05_itself : gtb lit_0_05 lit_0_05 = false.
Proof. apply ltb_irrefl. Qed.

(* ----------------------------------------------------------------- *)
(** ** Python's [min] *)

Lemma min2_spec (a b : Z) : min2 a b = Z.min a b.
Proof. unfold min2. destruct (Z.ltb_spec b a); lia. Qed.

Lemma min_from_In (l : list float) : forall m, In (min_from m l) (m :: l).
Proof.
  induction l as [| x l IH]; intros m; simpl.
  - left. reflexivity.
  - destruct (IH (if ltb x m then x else m)) as [E | I].
    + rewrite <- E. destruct (ltb x m); auto.
    + right. right. exact I.
Qed.

(** The result is the start or strictly below it. *)
Lemma min_from_below (l : list float) :
  forall m, min_from m l = m \/ ltb (min_from m l) m = true.
Proof.
  induction l as [| x l IH]; intros m; simpl.
  - left. reflexivity.
  - destruct (ltb x m) eqn:E.
    + right. destruct (IH x) as [-> | L]; [exact E |].
      exact (ltb_trans _ _ _ L E).
    + apply IH.
Qed.

Lemma not_below_min_from (l : list float) (m y : float) :
  ltb y m = false -> ltb y (min_from m l) = false.
Proof.
  intros H. destruct (min_from_below l m) as [-> | L]; [exact H |].
  destruct (ltb y (min_from m l)) eqn:E; [| reflexivity].
  rewrite (ltb_trans _ _ _ E L) in H. discriminate.
Qed.

(** No item is strictly below the result. *)
Lemma min_from_minimal (l : list float) :
  forall m y, In y (m :: l) -> ltb y (min_from m l) = false.
Proof.
  induction l as [| x l IH]; intros m y Hy.
  - destruct Hy as [<- | []]. apply ltb_irrefl.
  - simpl. destruct Hy as [<- | [<- | Hy]].
    + apply not_below_min_from. destruct (ltb x m) eqn:E.
      * apply ltb_asym. exact E.
      * apply ltb_irrefl.
    + apply not_below_min_from. destruct (ltb x m) eqn:E.
      * apply ltb_irrefl.
      * exact E.
    + apply IH. right. exact Hy.
Qed.

(* ----------------------------------------------------------------- *)
(** ** Cell 25: the decision on heteroscedasticity *)

Lemma white_block_run `{Libraries} (est : OLSResults) s p fs fp :
  het_white (resid (estimates est)) (exog (model est)) = Ok (s, p, fs, fp) ->
  white_block est =
    ([EvHetWhite (resid (estimates est)) (exog (model est));
      EvPrint (str_float p ++ " " ++ str_float fp);
      EvPrint dashes;
      EvPrint white_title;
      EvPrint ("The p-value was " ++ format_float ".4" p);
      EvPrint (if gtb p lit_0_05 then white_no else white_yes)], Ok tt).
Proof.
  intros E. unfold white_block, call, lift, emit, print, bind. rewrite E.
  destruct (gtb p lit_0_05); reflexivity.
Qed.

Lemma breuschpagan_block_run `{Libraries} (est : OLSResults) s p fs fp :
  het_breuschpagan (resid (estimates est)) (exog (model est))
    = Ok (s, p, fs, fp) ->
  breuschpagan_block est =
    ([EvHetBreuschPagan (resid (estimates est)) (exog (model est));
      EvPrint (str_float p ++ " " ++ str_float fp);
      EvPrint dashes;
      EvPrint bp_title;
      EvPrint ("The p-value was " ++ format_float ".4" p);
      EvPrint (if gtb p lit_0_05 then bp_no else bp_yes)], Ok tt).
Proof.
  intros E. unfold breuschpagan_block, call, lift, emit, print, bind. rewrite E.
  destruct (gtb p lit_0_05); reflexivity.
Qed.

(** C2.  Whatever the residuals and the design matrix, once the White
    test and the Breusch-Pagan test have returned their p-values, the
    verdict line each test prints (the fifth and the tenth line of the
    cell) is "no heteroscedasticity" exactly when its p-value is
    strictly greater than 0.05, and "heteroscedasticity" otherwise; a
    p-value equal to 0.05 gives "heteroscedasticity" in both tests. *)
Theorem C2_heteroscedasticity_decision `{Libraries} :
  forall (est : OLSResults) sw pw fw fpw sb pb fb fpb,
    het_white (resid (estimates est)) (exog (model est))
      = Ok (sw, pw, fw, fpw) ->
    het_breuschpagan (resid (estimates est)) (exog (model est))
      = Ok (sb, pb, fb, fpb) ->
    let out := stdout (trace (cell_25 est)) in
    outcome (cell_25 est) = Ok tt /\
    (nth 4 out EmptyString = white_no <-> gtb pw lit_0_05 = true) /\
    (nth 4 out EmptyString = white_yes <-> gtb pw lit_0_05 = false) /\
    (nth 9 out EmptyString = bp_no <-> gtb pb lit_0_05 = true) /\
    (nth 9 out EmptyString = bp_yes <-> gtb pb lit_0_05 = false) /\
    (pw = lit_0_05 -> nth 4 out EmptyString = white_yes) /\
    (pb = lit_0_05 -> nth 9 out EmptyString = bp_yes).
Proof.
  intros est sw pw fw fpw sb pb fb fpb Ew Eb out. subst out.
  unfold cell_25.
  rewrite (white_block_run est _ _ _ _ Ew).
  rewrite (breuschpagan_block_run est _ _ _ _ Eb).
  cbn [bind trace outcome fst snd app stdout nth].
  split; [reflexivity |].
  assert (Dw : white_no <> white_yes) by (unfold white_no, white_yes; discriminate).
  assert (Db : bp_no <> bp_yes) by (unfold bp_no, bp_yes; discriminate).
  repeat split; intros G;
    try (subst; rewrite gtb_lit_0_05_itself; reflexivity);
    try (rewrite G; reflexivity);
    try (destruct (gtb pw lit_0_05); congruence);
    try (destruct (gtb pb lit_0_05); congruence).
Qed.

Lemma C2_witness :
  let out := stdout (trace (cell_25 (H := Demo.libraries) Demo.est)) in
  outcome (cell_25 (H := Demo.libraries) Demo.est) = Ok tt /\
  (nth 4 out EmptyString = white_no <-> gtb (of_Z 1) lit_0_05 = true) /\
  (nth 4 out EmptyString = white_yes <-> gtb (of_Z 1) lit_0_05 = false) /\
  (nth 9 out EmptyString = bp_no <-> gtb lit_0_05 lit_0_05 = true) /\
  (nth 9 out EmptyString = bp_yes <-> gtb lit_0_05 lit_0_05 = false) /\
  (of_Z 1 = lit_0_05 -> nth 4 out EmptyString = white_yes) /\
  (lit_0_05 = lit_0_05 -> nth 9 out EmptyString = bp_yes).
Proof.
  apply (C2_heteroscedasticity_decision (H := Demo.libraries) Demo.est
           (of_Z 0) (of_Z 1) (of_Z 0) (of_Z 1)
           (of_Z 0) lit_0_05 (of_Z 0) (of_Z 1)); reflexivity.
Defined.

(* ----------------------------------------------------------------- *)
(** ** Cell 29: the Ljung-Box check *)

Lemma cell_29_run `{Libraries} (X : DataFrame) (est : OLSResults)
    stat (p : float) (ps : vector) :
  let lag := Z.min 10 (len X / 5) in
  let lowest := min_from p ps in
  acorr_ljungbox (resid (estimates est)) lag = Ok (stat, p :: ps) ->
  cell_29 X est =
    ([EvPrint ("The number of lags will be " ++ str_int lag);
      EvPrint dashes;
      EvLjungBox (resid (estimates est)) lag;
      EvPrint ("The lowest p-value found was " ++ format_float ".4" lowest);
      EvPrint (if gtb lowest lit_0_05 then lb_no else lb_yes);
      EvPrint dashes;
      EvPlotACF (resid (estimates est))], Ok tt).
Proof.
  intros lag lowest E. unfold cell_29. rewrite min2_spec. fold lag.
  unfold call, lift, emit, print, bind. rewrite E.
  cbn [py_min]. fold lowest.
  destruct (gtb lowest lit_0_05); reflexivity.
Qed.

(** C3.  For residuals of [n] observations, the cell calls the
    Ljung-Box test once, with lag count [min(10, n // 5)].  Once the
    test has returned its p-values (at least one), the value the
    decision is taken from is Python's [min] of them: one of the
    p-values, with no p-value strictly below it, and below or equal to
    every p-value when none of them is NaN.  The verdict line (the
    fourth line printed) is "no autocorrelation" exactly when that
    value is strictly greater than 0.05, and "autocorrelation"
    otherwise. *)
Theorem C3_ljung_box_decision `{Libraries} :
  forall (X : DataFrame) (est : OLSResults) (n : nat) stat (p_val : vector),
    length (index X) = n ->
    length (resid (estimates est)) = n ->
    acorr_ljungbox (resid (estimates est)) (Z.min 10 (Z.of_nat n / 5))
      = Ok (stat, p_val) ->
    p_val <> [] ->
    let tr := trace (cell_29 X est) in
    exists lowest,
      py_min p_val = Ok lowest /\
      (forall r lags, In (EvLjungBox r lags) tr <->
         r = resid (estimates est) /\ lags = Z.min 10 (Z.of_nat n / 5)) /\
      In lowest p_val /\
      (forall p, In p p_val -> ltb p lowest = false) /\
      (forallb (fun p => negb (is_nan p)) p_val = true ->
         forall p, In p p_val -> leb lowest p = true) /\
      (nth 3 (stdout tr) EmptyString = lb_no <-> gtb lowest lit_0_05 = true) /\
      (nth 3 (stdout tr) EmptyString = lb_yes <-> gtb lowest lit_0_05 = false) /\
      outcome (cell_29 X est) = Ok tt.
Proof.
  intros X est n stat p_val Hn _ E Hne tr.
  destruct p_val as [| p ps]; [congruence |].
  assert (Hlen : len X = Z.of_nat n) by (unfold len; rewrite Hn; reflexivity).
  rewrite <- Hlen in E. subst tr.
  rewrite (cell_29_run X est stat p ps E). rewrite <- Hlen.
  cbn [trace outcome fst snd stdout nth py_min].
  exists (min_from p ps).
  assert (D : lb_no <> lb_yes) by (unfold lb_no, lb_yes; discriminate).
  split; [reflexivity |].
  split.
  { intros r lags. split.
    - intros I. simpl in I.
      repeat (destruct I as [I | I]; try discriminate; try contradiction).
      inversion I. split; reflexivity.
    - intros [-> ->]. simpl. right. right. left. reflexivity. }
  split; [apply min_from_In |].
  split; [apply min_from_minimal |].
  split.
  { intros Hnan q Hq.
    rewrite forallb_forall in Hnan.
    apply ltb_false_leb.
    - pose proof (Hnan q Hq) as Q. destruct (is_nan q); [discriminate | reflexivity].
    - pose proof (Hnan _ (min_from_In ps p)) as Q.
      destruct (is_nan (min_from p ps)); [discriminate | reflexivity].
    - apply min_from_minimal. exact Hq. }
  repeat split; intros G;
    try (rewrite G; reflexivity);
    try (destruct (gtb (min_from p ps) lit_0_05); congruence).
Qed.

Lemma C3_witness :
  let tr :=
    trace (cell_29 (H := Samples.ljung_box_libraries) Samples.fifteen
                   Samples.est15) in
  let p_val := snd Samples.three_lags in
  exists lowest,
    py_min p_val = Ok lowest /\
    lowest = nth 1 p_val nan /\
    gtb (nth 0 p_val nan) lit_0_05 = true /\
    gtb lowest lit_0_05 = false /\
    (forall r lags, In (EvLjungBox r lags) tr <->
       r = resid (estimates Samples.est15) /\ lags = 3%Z) /\
    In lowest p_val /\
    (forall p, In p p_val -> ltb p lowest = false) /\
    (forall p, In p p_val -> leb lowest p = true) /\
    nth 3 (stdout tr) EmptyString = lb_yes /\
    outcome (cell_29 (H := Samples.ljung_box_libraries) Samples.fifteen
                     Samples.est15) = Ok tt.
Proof.
  intros tr p_val.
  destruct (C3_ljung_box_decision (H := Samples.ljung_box_libraries)
              Samples.fifteen Samples.est15 15
              (fst Samples.three_lags) (snd Samples.three_lags))
    as (lowest & Hmin & Hcall & Hin & Hbelow & Hleast & _ & Hyes & Hout);
    [reflexivity | reflexivity | reflexivity | discriminate |].
  assert (E : lowest = nth 1 p_val nan).
  { vm_compute in Hmin. inversion Hmin. vm_compute. reflexivity. }
  assert (G : gtb lowest lit_0_05 = false)
    by (rewrite E; vm_compute; reflexivity).
  exists lowest.
  split; [exact Hmin |]. split; [exact E |].
  split; [vm_compute; reflexivity |]. split; [exact G |].
  split; [exact Hcall |]. split; [exact Hin |]. split; [exact Hbelow |].
  split; [apply Hleast; vm_compute; reflexivity |].
  split; [apply Hyes; exact G | exact Hout].
Defined.

(* ----------------------------------------------------------------- *)
(** ** The run of cells 16 to 35 *)

(** A cell that ended well: what each of its steps returned. *)
Lemma bind_inv {A B} (c : Cell A) (k : A -> Cell B) tr b :
  bind c k = (tr, Ok b) ->
  exists tr1 a tr2, c = (tr1, Ok a) /\ k a = (tr2, Ok b) /\ tr = tr1 ++ tr2.
Proof.
  unfold bind. destruct c as [tr1 [a | e]]; [| discriminate].
  destruct (k a) as [tr2 r] eqn:K. intros E. inversion E; subst.
  exists tr1, a, tr2. repeat split. exact K.
Qed.

Lemma lift_inv {A} (r : result A) tr a :
  lift r = (tr, Ok a) -> tr = [] /\ r = Ok a.
Proof. unfold lift. intros E. inversion E. split; reflexivity. Qed.

Lemma emit_inv (ev : event) tr u : emit ev = (tr, Ok u) -> tr = [ev].
Proof. unfold emit. intros E. inversion E. reflexivity. Qed.

Lemma call_inv {A} (ev : event) (r : result A) tr a :
  call ev r = (tr, Ok a) -> tr = [ev] /\ r = Ok a.
Proof.
  unfold call, bind, emit, lift. destruct r; [| discriminate].
  intros E. inversion E. split; reflexivity.
Qed.

Lemma ret_inv {A} (a b : A) tr : ret a = (tr, Ok b) -> tr = [] /\ a = b.
Proof. unfold ret. intros E. inversion E. split; reflexivity. Qed.

Ltac cell_step :=
  match goal with
  | H : bind _ _ = (_, Ok _) |- _ =>
      apply bind_inv in H; destruct H as (? & ? & ? & ? & H & ?)
  | H : lift _ = (_, Ok _) |- _ => apply lift_inv in H; destruct H as [? H]
  | H : call _ _ = (_, Ok _) |- _ => apply call_inv in H; destruct H as [? H]
  | H : emit _ = (_, Ok _) |- _ => apply emit_inv in H
  | H : print _ = (_, Ok _) |- _ => apply emit_inv in H
  | H : ret _ = (_, Ok _) |- _ => apply ret_inv in H; destruct H as [? H]
  | H : (match ?p with (_, _) => _ end) = (_, Ok _) |- _ => destruct p
  | H : (if ?b then _ else _) = (_, Ok _) |- _ => destruct b
  end.

Ltac cell_steps := repeat (cell_step; cbv beta zeta in *; subst).

Lemma drop_index {A} (labels : list string) (df df' : Table A) :
  drop labels df = Ok df' -> index df' = index df.
Proof.
  unfold drop. destruct (find _ labels); [discriminate |].
  intros E. inversion E. reflexivity.
Qed.

Lemma getitem_index {A} (labels : list string) (df df' : Table A) :
  getitem labels df = Ok df' -> index df' = index df.
Proof.
  unfold getitem. destruct (select labels df); [| discriminate].
  intros E. inversion E. reflexivity.
Qed.

Lemma take_rows_count (pos : list nat) (df : DataFrame) :
  length (index (take pos df)) = length pos.
Proof. unfold take, take_rows. simpl. apply length_map. Qed.

(** Distinct positions below [n] are at most [n]. *)
Lemma positions_bound (n : nat) (pos : list nat) :
  NoDup pos -> (forall i, In i pos -> (i < n)%nat) -> (length pos <= n)%nat.
Proof.
  intros ND B. rewrite <- (length_seq n 0).
  apply NoDup_incl_length; [exact ND |].
  intros i I. apply in_seq. specialize (B i I). lia.
Qed.

Lemma cell_16_inv `{Libraries} econ_df g tr s g' :
  cell_16 econ_df g = (tr, Ok (s, g')) ->
  tr = [] /\ g' = g /\
  index (X s) = index econ_df /\ index (Y s) = index econ_df /\
  (exists train test used,
     shuffle_split (RandomState 1) lit_0_20 (length (index (X s)))
       = (Ok (train, test), used) /\
     X_train s = take train (X s) /\ X_test s = take test (X s) /\
     y_train s = take train (Y s) /\ y_test s = take test (Y s)) /\
  LinearRegression_fit (X_train s) (y_train s) = Ok (regression_model s).
Proof.
  intros E. unfold cell_16 in E. cell_steps.
  inversion E; subst; clear E.
  cbn [X Y X_train X_test y_train y_test regression_model].
  unfold train_test_split, check_random_state in *.
  destruct (shuffle_split (RandomState 1) lit_0_20 (length (index x3)))
    as [[[train test] | e] used] eqn:S; [| discriminate].
  match goal with E : Ok _ = Ok _ |- _ => inversion E; subst; clear E end.
  split; [reflexivity |]. split; [reflexivity |].
  split; [rewrite (drop_index _ _ _ H1); exact (drop_index _ _ _ H0) |].
  split; [rewrite (getitem_index _ _ _ H2); exact (drop_index _ _ _ H0) |].
  split; [| assumption].
  exists train, test, used. repeat split.
Qed.

Lemma cell_23_inv `{Libraries} X Y tr X2 est :
  cell_23 X Y = (tr, Ok (X2, est)) ->
  X2 = add_constant X /\
  model est = OLS Y (add_constant X) /\
  estimate (OLS Y (add_constant X)) "nonrobust" = Ok (estimates est) /\
  diag_inputs tr = [] /\ metric_inputs tr = [].
Proof.
  intros E. unfold cell_23 in E. cell_steps.
  inversion E; subst; clear E.
  unfold fit in *.
  destruct (estimate (OLS Y (add_constant X)) "nonrobust") eqn:F;
    [| discriminate].
  match goal with E : Ok _ = Ok _ |- _ => inversion E; subst; clear E end.
  repeat split.
Qed.

Lemma cell_25_inv `{Libraries} est tr u :
  cell_25 est = (tr, Ok u) ->
  diag_inputs tr = [resid (estimates est); resid (estimates est)] /\
  metric_inputs tr = [].
Proof.
  intros E. unfold cell_25, white_block, breuschpagan_block in E.
  cell_steps; split; reflexivity.
Qed.

Lemma cell_27_inv `{Libraries} Y X2 tr r :
  cell_27 Y X2 = (tr, Ok r) ->
  diag_inputs tr = [] /\ metric_inputs tr = [].
Proof.
  intros E. unfold cell_27 in E. cell_steps; split; reflexivity.
Qed.

Lemma cell_29_inv `{Libraries} X est tr u :
  cell_29 X est = (tr, Ok u) ->
  diag_inputs tr = [resid (estimates est); resid (estimates est)] /\
  metric_inputs tr = [].
Proof.
  intros E. unfold cell_29 in E. cell_steps; split; reflexivity.
Qed.

Lemma cell_31_inv `{Libraries} est tr m :
  cell_31 est = (tr, Ok m) ->
  diag_inputs tr = [resid (estimates est)] /\ metric_inputs tr = [].
Proof.
  intros E. unfold cell_31 in E. cell_steps; split; reflexivity.
Qed.

Lemma cell_33_inv `{Libraries} y_test y_predict tr m :
  cell_33 y_test y_predict = (tr, Ok m) ->
  diag_inputs tr = [] /\
  metric_inputs tr = [(values y_test, y_predict); (values y_test, y_predict)].
Proof.
  intros E. unfold cell_33 in E. cell_steps; split; reflexivity.
Qed.

Lemma cell_35_inv `{Libraries} y_test y_predict tr m :
  cell_35 y_test y_predict = (tr, Ok m) ->
  diag_inputs tr = [] /\ metric_inputs tr = [(values y_test, y_predict)].
Proof.
  intros E. unfold cell_35 in E. cell_steps; split; reflexivity.
Qed.

Lemma pick_app {A B} (f : A -> option B) (l1 l2 : list A) :
  pick f (l1 ++ l2) = pick f l1 ++ pick f l2.
Proof.
  induction l1 as [| a l1 IH]; simpl; [reflexivity |].
  destruct (f a); simpl; rewrite IH; reflexivity.
Qed.

(** C10.  In a run of cells 16 to 35 that ends well: the residuals
    handed to every diagnostic (White, Breusch-Pagan, Ljung-Box, the
    autocorrelation plot, the QQ plot) are those of the statsmodels
    model fitted on [Y] and [add_constant(X)], which hold all the rows
    of the cleaned frame; the metrics are handed the held-out targets
    and the predictions, on the held-out rows, of the scikit-learn
    model fitted on the training rows [X_train], [y_train] of the split
    with [test_size = 0.20] and seed 1; and when the split is a
    partition with a test part that is not empty, the training rows are
    strictly fewer than the rows the diagnosed model was fitted on. *)
Theorem C10_two_models_two_data_sets `{Libraries} :
  forall (econ_df : DataFrame) (g : rng) tr (run : Run) (g' : rng)
         (train test : list nat) (used : rng),
    let n := length (index econ_df) in
    run_cells econ_df g = (tr, Ok (run, g')) ->
    shuffle_split (RandomState 1) lit_0_20 n = (Ok (train, test), used) ->
    NoDup (train ++ test) ->
    (forall i, In i (train ++ test) -> (i < n)%nat) ->
    test <> [] ->
    let s := split run in
    let r := resid (estimates (est run)) in
    index (X s) = index econ_df /\
    index (Y s) = index econ_df /\
    model (est run) = OLS (Y s) (add_constant (X s)) /\
    estimate (OLS (Y s) (add_constant (X s))) "nonrobust"
      = Ok (estimates (est run)) /\
    diag_inputs tr = [r; r; r; r; r] /\
    X_train s = take train (X s) /\ y_train s = take train (Y s) /\
    X_test s = take test (X s) /\ y_test s = take test (Y s) /\
    LinearRegression_fit (X_train s) (y_train s) = Ok (regression_model s) /\
    LinearRegression_predict (regression_model s) (X_test s)
      = Ok (y_predict run) /\
    metric_inputs tr =
      [(values (y_test s), y_predict run);
       (values (y_test s), y_predict run);
       (values (y_test s), y_predict run)] /\
    (length (index (X_train s)) < length (index (X s)))%nat.
Proof.
  intros econ_df g tr run g' train test used n E S0 ND B T s r.
  unfold run_cells in E. cell_steps.
  inversion E; subst; clear E.
  cbn [split est y_predict] in *. subst s r.
  repeat match goal with
         | E : cell_16 _ _ = _ |- _ =>
             apply cell_16_inv in E;
             destruct E as (-> & -> & IX & IY & (train' & test' & used' & S) & F)
         | E : cell_20 _ _ = _ |- _ =>
             unfold cell_20 in E; apply lift_inv in E; destruct E as [-> P]
         | E : cell_23 _ _ = _ |- _ =>
             apply cell_23_inv in E; destruct E as (-> & M & ES & D23 & M23)
         | E : cell_25 _ = _ |- _ =>
             apply cell_25_inv in E; destruct E as (D25 & M25)
         | E : cell_27 _ _ = _ |- _ =>
             apply cell_27_inv in E; destruct E as (D27 & M27)
         | E : cell_29 _ _ = _ |- _ =>
             apply cell_29_inv in E; destruct E as (D29 & M29)
         | E : cell_31 _ = _ |- _ =>
             apply cell_31_inv in E; destruct E as (D31 & M31)
         | E : cell_33 _ _ = _ |- _ =>
             apply cell_33_inv in E; destruct E as (D33 & M33)
         | E : cell_35 _ _ = _ |- _ =>
             apply cell_35_inv in E; destruct E as (D35 & M35)
         end.
  destruct S as (S & XT & XS & YT & YS).
  rewrite IX in S. fold n in S. rewrite S0 in S.
  inversion S; subst train' test' used'; clear S.
  unfold diag_inputs, metric_inputs in *.
  rewrite !pick_app.
  rewrite D23, D25, D27, D29, D31, D33, D35, M23, M25, M27, M29, M31, M33, M35.
  repeat (split; [assumption || reflexivity |]).
  rewrite XT, take_rows_count, IX. fold n.
  pose proof (positions_bound _ _ ND B) as L. rewrite length_app in L.
  destruct test; [congruence | simpl in L; lia].
Qed.

Lemma C10_witness :
  exists tr run g',
    run_cells (H := Demo.libraries) Demo.econ_df tt = (tr, Ok (run, g')) /\
    let s := split run in
    let r := resid (estimates (est run)) in
    index (X s) = index Demo.econ_df /\
    index (Y s) = index Demo.econ_df /\
    model (est run) = OLS (Y s) (add_constant (Libraries := Demo.libraries) (X s)) /\
    estimate (Libraries := Demo.libraries)
      (OLS (Y s) (add_constant (Libraries := Demo.libraries) (X s))) "nonrobust"
      = Ok (estimates (est run)) /\
    diag_inputs tr = [r; r; r; r; r] /\
    X_train s = take [0; 1; 2; 3]%nat (X s) /\
    y_train s = take [0; 1; 2; 3]%nat (Y s) /\
    X_test s = take [4%nat] (X s) /\ y_test s = take [4%nat] (Y s) /\
    LinearRegression_fit (Libraries := Demo.libraries) (X_train s) (y_train s)
      = Ok (regression_model s) /\
    LinearRegression_predict (Libraries := Demo.libraries)
      (regression_model s) (X_test s) = Ok (y_predict run) /\
    metric_inputs tr =
      [(values (y_test s), y_predict run);
       (values (y_test s), y_predict run);
       (values (y_test s), y_predict run)] /\
    (length (index (X_train s)) < length (index (X s)))%nat.
Proof.
  destruct (run_cells (H := Demo.libraries) Demo.econ_df tt)
    as [tr [[run g'] | e]] eqn:E.
  - exists tr, run, g'. split; [reflexivity |].
    apply (C10_two_models_two_data_sets (H := Demo.libraries)
             Demo.econ_df tt tr run g' [0; 1; 2; 3]%nat [4%nat] tt E).
    + reflexivity.
    + repeat constructor; simpl; intuition discriminate.
    + simpl. intros i I. intuition lia.
    + discriminate.
  - vm_compute in E. discriminate E.
Defined.

(* ----------------------------------------------------------------- *)
(** ** Reproducibility of the run *)

(** Cell 16 seeds its own generator: numpy's global generator changes
    neither the split nor the fitted model, and is left as it was. *)
Lemma cell_16_generator `{Libraries} (econ_df : DataFrame) (g1 g2 : rng) :
  cell_16 econ_df g2 =
    (trace (cell_16 econ_df g1),
     match outcome (cell_16 econ_df g1) with
     | Ok (s, _) => Ok (s, g2)
     | Raise e => Raise e
     end).
Proof.
  unfold cell_16, train_test_split, check_random_state, trace, outcome.
  unfold bind, lift, ret.
  destruct (drop _ econ_df) as [after | e]; [| reflexivity].
  destruct (drop _ after) as [X | e]; [| reflexivity].
  destruct (getitem _ after) as [Y | e]; [| reflexivity].
  destruct (shuffle_split _ _ _) as [[[train test] | e] used]; [| reflexivity].
  destruct (LinearRegression_fit _ _) as [m | e]; reflexivity.
Qed.

Lemma cell_16_generator_kept `{Libraries} (econ_df : DataFrame) (g g' : rng)
    tr s :
  cell_16 econ_df g = (tr, Ok (s, g')) -> g' = g.
Proof. intros E. apply cell_16_inv in E. tauto. Qed.

(** Without a seed the split follows numpy's global generator, and
    moves it; with the seed of cell 16 it does neither. *)
Lemma split_without_seed_follows_generator :
  let split := train_test_split (H := Demo.coin_libraries)
                 Demo.econ_df Demo.econ_df lit_0_20 in
  (exists a b c d e f g h,
     split None true = Ok (a, b, c, d, false) /\
     split None false = Ok (e, f, g, h, true) /\
     index a <> index e) /\
  (exists a b c d,
     split (Some 1%Z) true = Ok (a, b, c, d, true) /\
     split (Some 1%Z) false = Ok (a, b, c, d, false)).
Proof.
  split.
  - do 8 eexists. split; [reflexivity |]. split; [reflexivity |].
    simpl. discriminate.
  - do 4 eexists. split; reflexivity.
Qed.

Ltac same_run :=
  cbn [trace outcome fst snd];
  split; [reflexivity |];
  split; [intros ? ? E; inversion E; split; reflexivity
        | intros ? E; first [exact E | discriminate E]].

(** C6.  Two runs of cells 16 to 35 on the same cleaned frame do the
    same, whatever the state of numpy's global generator at their
    start: they print the same lines and make the same library calls
    with the same arguments, and either both stop on the same exception
    or both bind the same values: the same partition into training and
    test rows, the same fitted coefficients, the same predictions and
    metrics.  The split draws from a generator seeded with 1, and the
    global generator is left as it was. *)
Theorem C6_reproducible_run `{Libraries} :
  forall (econ_df : DataFrame) (g1 g2 : rng),
    trace (run_cells econ_df g1) = trace (run_cells econ_df g2) /\
    (forall run g1',
       outcome (run_cells econ_df g1) = Ok (run, g1') ->
       g1' = g1 /\ outcome (run_cells econ_df g2) = Ok (run, g2)) /\
    (forall e,
       outcome (run_cells econ_df g1) = Raise e ->
       outcome (run_cells econ_df g2) = Raise e).
Proof.
  intros econ_df g1 g2. unfold run_cells.
  rewrite (cell_16_generator econ_df g1 g2).
  destruct (cell_16 econ_df g1) as [t16 [[s g] | e]] eqn:E16;
    cbn [trace outcome fst snd bind]; [| same_run].
  apply cell_16_generator_kept in E16. subst g.
  destruct (cell_20 (regression_model s) (X_test s)) as [t20 [yp | e]];
    cbn [bind]; [| same_run].
  destruct (cell_23 (X s) (Y s)) as [t23 [[X2 est] | e]];
    cbn [bind]; [| same_run].
  destruct (cell_25 est) as [t25 [u | e]]; cbn [bind]; [| same_run].
  destruct (cell_27 (Y s) X2) as [t27 [rob | e]]; cbn [bind]; [| same_run].
  destruct (cell_29 (X s) est) as [t29 [u' | e]]; cbn [bind]; [| same_run].
  destruct (cell_31 est) as [t31 [mr | e]]; cbn [bind]; [| same_run].
  destruct (cell_33 (y_test s) yp) as [t33 [[[mse mae] rmse] | e]];
    cbn [bind]; [| same_run].
  destruct (cell_35 (y_test s) yp) as [t35 [r2 | e]];
    cbn [bind ret]; same_run.
Qed.

(* ----------------------------------------------------------------- *)
(** ** Cell 5: what the cleaning leaves in the frame *)

Lemma map_result_ok {A B} (f : A -> result B) (g : A -> B) (l : list A) :
  (forall a, In a l -> f a = Ok (g a)) -> Loader.map_result f l = Ok (map g l).
Proof.
  induction l as [| a l IH]; intros Hl; simpl; [reflexivity |].
  rewrite (Hl a (or_introl eq_refl)).
  rewrite IH; [reflexivity |]. intros b Hb. apply Hl. right. exact Hb.
Qed.

Lemma in_take_rows {A} (d : A) (pos : list nat) (l : list A) (v : A) :
  In v (take_rows d pos l) -> exists i, In i pos /\ v = nth i l d.
Proof.
  unfold take_rows. rewrite in_map_iff. intros (i & E & I).
  exists i. split; [exact I | symmetry; exact E].
Qed.

Lemma nth_map_some {A B} (g : A -> B) (l : list A) (i : nat) (a : A) (d : B) :
  nth_error l i = Some a -> nth i (map g l) d = g a.
Proof.
  revert i. induction l as [| x l IH]; intros [| i] E; simpl in *;
    try discriminate.
  - inversion E. reflexivity.
  - apply IH. exact E.
Qed.

(** C7 (amended).  Take the frame indexed by year, after the sentinel
    has been replaced.  If [float] reads each of its cells (a float, an
    integer that fits, the string ["nan"], a numeral) and the slice from
    "1969" to "2016" is found, then cell 5 ends well and displays the
    null check of the frame it returns.  When every cell in a row that
    the slice keeps is a finite number, as a float, an integer or a
    numeral, every value of the returned frame is a finite float and
    the null check is negative for every column.  A cell of a kept row
    that held the sentinel is a NaN of the returned frame, and the null
    check of its column is positive. *)
Theorem C7_cleaned_frame_finite :
  forall (parse_float : string -> option float)
         (float_label : float -> string) (sheet : Loader.Sheet)
         (t : Table obj) (pos : list nat),
    Loader.set_index "Year" (Loader.replace ".." "nan" sheet) = Ok t ->
    (forall c x, In c (columns t) -> In x (snd c) ->
       exists f, Loader.to_float parse_float x = Ok f) ->
    Loader.slice_locs float_label (index t) "1969" "2016" = Ok pos ->
    exists econ_df,
      outcome (Loader.cell_5 parse_float float_label sheet) = Ok econ_df /\
      In (EvDisplayFlags (isnull_any econ_df))
         (trace (Loader.cell_5 parse_float float_label sheet)) /\
      ((forall c i, In c (columns t) -> In i pos ->
          exists x f, nth_error (snd c) i = Some x /\
                      Loader.to_float parse_float x = Ok f /\
                      is_finite f = true) ->
       (forall c v, In c (columns econ_df) -> In v (snd c) ->
          is_finite v = true /\ is_nan v = false) /\
       (forall name flag, In (name, flag) (isnull_any econ_df) ->
          flag = false)) /\
      (forall c i, In c (columns t) -> In i pos ->
         nth_error (snd c) i = Some (OStr "nan") ->
         let name := rename_one Loader.column_names (fst c) in
         exists col,
           In (name, col) (columns econ_df) /\ In nan col /\
           In (name, true) (isnull_any econ_df)).
Proof.
  intros parse fl sheet t pos Ht Hcells Hpos.
  set (conv := Loader.converted parse).
  assert (Hastype : Loader.astype_float parse t =
            Ok (mkTable (index t)
                  (map (fun c => (fst c, map conv (snd c))) (columns t)))).
  { unfold Loader.astype_float.
    rewrite (map_result_ok _ (fun c => (fst c, map conv (snd c)))).
    - reflexivity.
    - intros c Hc.
      rewrite (map_result_ok _ conv); [reflexivity |].
      intros x Hx. unfold conv, Loader.converted.
      destruct (Hcells c x Hc Hx) as [f ->]. reflexivity. }
  set (econ_df :=
         rename Loader.column_names
           (take pos (mkTable (index t)
              (map (fun c => (fst c, map conv (snd c))) (columns t))))).
  assert (Hrun : Loader.cell_5 parse fl sheet =
            ([EvDisplayStr dashes; EvDisplayFlags (isnull_any econ_df);
              EvDisplayStr dashes; EvDisplayFrame (head econ_df)], Ok econ_df)).
  { unfold Loader.cell_5. rewrite Ht. cbn [lift bind].
    rewrite Hastype. cbn [bind].
    unfold Loader.loc_slice. cbn [index]. rewrite Hpos. reflexivity. }
  assert (Hcols : columns econ_df =
            map (fun c => (rename_one Loader.column_names (fst c),
                           take_rows nan pos (map conv (snd c)))) (columns t)).
  { unfold econ_df, rename, take. cbn [columns]. rewrite !map_map. reflexivity. }
  exists econ_df. rewrite Hrun. cbn [outcome trace fst snd].
  split; [reflexivity |]. split; [right; left; reflexivity |]. split.
  - intros Hkept.
    assert (Hfin : forall c v, In c (columns econ_df) -> In v (snd c) ->
                     is_finite v = true /\ is_nan v = false).
    { intros c v Hc Hv. rewrite Hcols in Hc. apply in_map_iff in Hc.
      destruct Hc as (c0 & <- & Hc0). cbn [fst snd] in Hv.
      apply in_take_rows in Hv. destruct Hv as (i & Hi & ->).
      destruct (Hkept c0 i Hc0 Hi) as (x & f & Hn & Hx & Hf).
      rewrite (nth_map_some conv _ _ _ nan Hn).
      unfold conv, Loader.converted. rewrite Hx.
      split; [exact Hf |]. destruct f; try discriminate; reflexivity. }
    split; [exact Hfin |].
    intros name flag Hin. unfold isnull_any in Hin. apply in_map_iff in Hin.
    destruct Hin as (c & E & Hc). inversion E; subst; clear E.
    destruct (existsb is_nan (snd c)) eqn:Ex; [| reflexivity].
    apply existsb_exists in Ex. destruct Ex as (v & Hv & Hnan).
    destruct (Hfin c v Hc Hv) as [_ N]. congruence.
  - intros c i Hc Hi Hn.
    set (name := rename_one Loader.column_names (fst c)).
    set (col := take_rows nan pos (map conv (snd c))).
    assert (Hnan : In nan col).
    { unfold col, take_rows. apply in_map_iff. exists i. split; [| exact Hi].
      rewrite (nth_map_some conv _ _ _ nan Hn). reflexivity. }
    assert (Hcol : In (name, col) (columns econ_df)).
    { rewrite Hcols. apply in_map_iff. exists c. split; [reflexivity | exact Hc]. }
    exists col. split; [exact Hcol |]. split; [exact Hnan |].
    unfold isnull_any. apply in_map_iff. exists (name, col).
    split; [| exact Hcol]. cbn [fst snd]. f_equal.
    apply existsb_exists. exists nan. split; [exact Hnan | reflexivity].
Qed.

Lemma C7_witness :
  exists econ_df,
    outcome (Loader.cell_5 Demo.no_numeral Demo.no_float_label
               Samples.workbook) = Ok econ_df /\
    index econ_df = [OInt 1969; OInt 1970; OInt 1971] /\
    (forall c v, In c (columns econ_df) -> In v (snd c) ->
       is_finite v = true /\ is_nan v = false) /\
    (forall name flag, In (name, flag) (isnull_any econ_df) -> flag = false).
Proof.
  destruct (C7_cleaned_frame_finite Demo.no_numeral Demo.no_float_label
              Samples.workbook
              (mkTable [OInt 1968; OInt 1969; OInt 1970; OInt 1971; OInt 2017]
                 [("GDP growth (annual %)"%string,
                   [OStr "nan"; OFloat (Samples.f 3); OInt 4; OFloat (Samples.f 5);
                    OStr "nan"]);
                  ("Birth rate, crude (per 1,000 people)"%string,
                   [OInt 30; OInt 29; OFloat (Samples.f 28); OInt 27;
                    OInt 10])])
              [1; 2; 3]%nat) as (econ_df & Hrun & _ & Hfinite & _).
  - reflexivity.
  - intros c x [<- | [<- | []]] Hx; cbn [snd In] in Hx;
      repeat (destruct Hx as [<- | Hx]; [eexists; vm_compute; reflexivity |]);
      destruct Hx.
  - vm_compute. reflexivity.
  - exists econ_df. split; [exact Hrun |].
    split; [vm_compute in Hrun; inversion Hrun; reflexivity |].
    apply Hfinite.
    intros c i [<- | [<- | []]] [<- | [<- | [<- | []]]];
      eexists _, _; (split; [reflexivity |]); split; vm_compute; reflexivity.
Defined.

(** C7, as stated, fails: whatever reads the numerals, a sentinel in the
    row of 1970 comes out of cell 5 as a NaN in [gdp_growth], and the
    null check of the cell displays it. *)
Lemma C7_counterexample :
  ~ (exists (parse_float : string -> option float)
            (float_label : float -> string),
       forall (sheet : Loader.Sheet) (econ_df : DataFrame),
         outcome (Loader.cell_5 parse_float float_label sheet) = Ok econ_df ->
         forall c v, In c (columns econ_df) -> In v (snd c) ->
           is_finite v = true /\ is_nan v = false).
Proof.
  intros (parse & fl & Hclaim).
  assert (Hrun : outcome (Loader.cell_5 parse fl Demo.sheet_with_gap) =
            Ok (mkTable [OStr "1969"; OStr "1970"]
                  [("gdp_growth"%string, [Demo.f 3; nan])])) by reflexivity.
  destruct (Hclaim _ _ Hrun ("gdp_growth"%string, [Demo.f 3; nan]) nan) as [F _].
  - left. reflexivity.
  - right. left. reflexivity.
  - discriminate F.
Qed.

(* ----------------------------------------------------------------- *)
(** ** Least squares in exact arithmetic *)

Module LeastSquaresFacts.

Import LeastSquares.
Local Open Scope R_scope.

Lemma length_bump (j : nat) (t : R) (b : list R) :
  length (bump j t b) = length b.
Proof.
  revert j. induction b as [| x b IH]; intros [| j]; simpl; try reflexivity.
  rewrite IH. reflexivity.
Qed.

Lemma dot_bump (b : list R) :
  forall (j : nat) (row : list R) (t : R),
    (j < length b)%nat ->
    dot row (bump j t b) = dot row b + t * nth j row 0.
Proof.
  induction b as [| x b IH]; intros j row t Hj; simpl in Hj; [lia |].
  destruct row as [| a row]; destruct j as [| j]; simpl; try ring.
  rewrite IH by lia. ring.
Qed.

Lemma residuals_bump (X : list (list R)) :
  forall (y b : list R) (j : nat) (t c : R),
    (j < length b)%nat ->
    (forall row, In row X -> nth j row 0 = c) ->
    residuals X y (bump j t b) =
      map (fun r => r - t * c) (residuals X y b).
Proof.
  unfold residuals, fitted.
  induction X as [| row X IH]; intros y b j t c Hj Hc; destruct y as [| y0 y];
    simpl; try reflexivity.
  rewrite (IH y b j t c Hj) by (intros r Hr; apply Hc; right; exact Hr).
  rewrite dot_bump by exact Hj.
  rewrite (Hc row) by (left; reflexivity).
  f_equal. ring.
Qed.

Lemma sum_sq_shift (l : list R) (d : R) :
  sum_sq (map (fun r => r - d) l) =
    sum_sq l - 2 * d * sum l + INR (length l) * (d * d).
Proof.
  unfold sum_sq, sum.
  induction l as [| r l IH]; [simpl; ring |].
  change (length (r :: l)) with (S (length l)). rewrite S_INR.
  cbn [map fold_right]. rewrite IH. ring.
Qed.

Lemma sum_sq_nonneg (l : list R) : 0 <= sum_sq l.
Proof.
  unfold sum_sq, sum. induction l as [| r l IH]; simpl; [lra | nra].
Qed.

(** With a column that is a constant other than zero among the [k]
    columns, the residuals of a least-squares fit add up to zero. *)
Lemma residuals_sum_zero (k : nat) (X : list (list R)) (y b : list R)
    (j : nat) (c : R) :
  least_squares k X y b ->
  (j < k)%nat -> c <> 0 ->
  (forall row, In row X -> nth j row 0 = c) ->
  sum (residuals X y b) = 0.
Proof.
  intros [Hlen Hmin] Hj Hc Hcol.
  set (res := residuals X y b).
  destruct res as [| r0 res'] eqn:Eres; [reflexivity |].
  rewrite <- Eres.
  set (n := INR (length res)).
  assert (Hn : 0 < n).
  { unfold n. rewrite Eres. apply lt_0_INR. simpl. lia. }
  set (S := sum res).
  set (d := S / n).
  pose proof (Hmin (bump j (d / c) b)) as M.
  rewrite length_bump in M. specialize (M Hlen).
  unfold ssr in M.
  rewrite (residuals_bump X y b j (d / c) c) in M by (try lia; assumption).
  replace (d / c * c) with d in M by (field; exact Hc).
  rewrite sum_sq_shift in M. fold res in M. fold S in M. fold n in M.
  assert (Hd : n * d = S) by (unfold d; field; lra).
  assert (Hs : S * S <= 0).
  { assert (E1 : n * (d * d) = d * S) by (rewrite <- Hd; ring).
    assert (E2 : d * S * n = S * S) by (rewrite <- Hd; ring).
    nra. }
  nra.
Qed.

Lemma length_mid (u v : list R) :
  length u = length v -> length (mid u v) = length u.
Proof.
  revert v. induction u as [| x u IH]; intros [| y v] E; simpl in *;
    try reflexivity; try discriminate.
  rewrite IH by lia. reflexivity.
Qed.

Lemma dot_mid (u : list R) :
  forall (v row : list R),
    length u = length v ->
    dot row (mid u v) = (dot row u + dot row v) / 2.
Proof.
  induction u as [| x u IH]; intros [| y v] row E; simpl in E;
    try discriminate.
  - destruct row; simpl; lra.
  - destruct row as [| a row]; simpl; [lra |].
    rewrite IH by lia. lra.
Qed.

Lemma residuals_mid (X : list (list R)) :
  forall (y b1 b2 : list R),
    length b1 = length b2 ->
    residuals X y (mid b1 b2) = mid (residuals X y b1) (residuals X y b2).
Proof.
  unfold residuals, fitted.
  induction X as [| row X IH]; intros y b1 b2 E; destruct y as [| y0 y];
    simpl; try reflexivity.
  rewrite IH by exact E. rewrite dot_mid by exact E. f_equal. lra.
Qed.

Lemma length_residuals (X : list (list R)) :
  forall (y b : list R),
    length (residuals X y b) = Nat.min (length y) (length X).
Proof.
  unfold residuals, fitted.
  induction X as [| row X IH]; intros [| y0 y] b; simpl; try reflexivity.
  rewrite IH. reflexivity.
Qed.

Lemma sum_sq_mid (u : list R) :
  forall v, length u = length v ->
    sum_sq (mid u v) = (sum_sq u + sum_sq v) / 2 - sum_sq (vsub u v) / 4.
Proof.
  unfold sum_sq, sum.
  induction u as [| x u IH]; intros [| y v] E; simpl in E; try discriminate.
  - simpl. lra.
  - cbn [mid vsub map fold_right]. rewrite IH by lia. lra.
Qed.

Lemma vsub_zero (u : list R) :
  forall v, length u = length v -> sum_sq (vsub u v) <= 0 -> u = v.
Proof.
  induction u as [| x u IH]; intros [| y v] E Hs; simpl in E;
    try discriminate; [reflexivity |].
  unfold sum_sq, sum in Hs. cbn [vsub map fold_right] in Hs.
  pose proof (sum_sq_nonneg (vsub u v)) as P. unfold sum_sq, sum in P.
  assert (Hx : x = y) by nra.
  assert (Hr : sum_sq (vsub u v) <= 0) by (unfold sum_sq, sum; nra).
  rewrite Hx, (IH v) by (lia || exact Hr). reflexivity.
Qed.

(** Two least-squares fits of the same data leave the same residuals,
    and their midpoint is a least-squares fit too. *)
Lemma least_squares_residuals (k : nat) (X : list (list R)) (y b1 b2 : list R) :
  least_squares k X y b1 -> least_squares k X y b2 ->
  residuals X y b1 = residuals X y b2 /\ least_squares k X y (mid b1 b2).
Proof.
  intros [L1 M1] [L2 M2].
  assert (EL : length b1 = length b2) by congruence.
  assert (LR : length (residuals X y b1) = length (residuals X y b2))
    by (rewrite !length_residuals; reflexivity).
  assert (Lm : length (mid b1 b2) = k) by (rewrite length_mid; assumption).
  pose proof (M1 b2 L2) as A. pose proof (M2 b1 L1) as B.
  pose proof (M1 _ Lm) as C. unfold ssr in A, B, C.
  rewrite residuals_mid in C by exact EL.
  rewrite sum_sq_mid in C by exact LR.
  assert (Z : sum_sq (vsub (residuals X y b1) (residuals X y b2)) <= 0) by lra.
  pose proof (vsub_zero _ _ LR Z) as ER.
  split; [exact ER |]. split; [exact Lm |].
  intros b' Lb'. unfold ssr. rewrite residuals_mid by exact EL.
  rewrite sum_sq_mid by exact LR. rewrite <- ER.
  pose proof (M1 b' Lb') as D. unfold ssr in D.
  pose proof (sum_sq_nonneg (vsub (residuals X y b1) (residuals X y b1))) as P.
  assert (Q : sum_sq (vsub (residuals X y b1) (residuals X y b1)) <= 0)
    by (rewrite ER at 2; exact Z).
  lra.
Qed.

(** The fit the contract describes is unique. *)
Lemma ols_fit_unique (k : nat) (X : list (list R)) (y b1 b2 : list R) :
  ols_fit k X y b1 -> ols_fit k X y b2 -> b1 = b2.
Proof.
  intros [F1 N1] [F2 N2].
  destruct (least_squares_residuals k X y b1 b2 F1 F2) as [_ Fm].
  assert (EL : length b1 = length b2)
    by (destruct F1, F2; congruence).
  pose proof (N1 b2 F2) as A. pose proof (N2 b1 F1) as B.
  pose proof (N1 _ Fm) as C. rewrite sum_sq_mid in C by exact EL.
  apply vsub_zero; [exact EL | lra].
Qed.

End LeastSquaresFacts.

(* ----------------------------------------------------------------- *)
(** ** The mean of the residuals, and the robust fit *)

Lemma add_constant_column (X : list (list R)) (row : list R) :
  In row (LeastSquares.add_constant X) -> nth 0 row 0%R = 1%R.
Proof.
  unfold LeastSquares.add_constant. rewrite in_map_iff.
  intros (r & <- & _). reflexivity.
Qed.

(** C4.  For [n] observations and a design matrix of [k] columns with
    [n > k], one of which is a constant other than zero (the intercept
    column that [add_constant] supplies): if the coefficients minimise
    the sum of squared residuals, then in exact arithmetic the
    residuals add up to zero, and so [sum(resid) / len(resid)] of
    cell 31 is zero. *)
Theorem C4_mean_residuals_zero :
  forall (k : nat) (D : list (list R)) (y b : list R) (j : nat) (c : R),
    length y = length D ->
    (k < length D)%nat ->
    LeastSquares.least_squares k D y b ->
    (j < k)%nat -> c <> 0%R ->
    (forall row, In row D -> nth j row 0%R = c) ->
    let resid := LeastSquares.residuals D y b in
    LeastSquares.sum resid = 0%R /\ LeastSquares.mean_residuals resid = 0%R.
Proof.
  intros k D y b j c _ _ Hfit Hj Hc Hcol resid.
  assert (Hs : LeastSquares.sum resid = 0%R)
    by exact (LeastSquaresFacts.residuals_sum_zero k D y b j c Hfit Hj Hc Hcol).
  split; [exact Hs |].
  unfold LeastSquares.mean_residuals. rewrite Hs. unfold Rdiv. ring.
Qed.

(** The line [1 + 3/2 x] is the least-squares fit of the example. *)
Lemma demo_least_squares :
  LeastSquares.least_squares 2 (LeastSquares.add_constant Demo.features)
    Demo.target Demo.coefficients.
Proof.
  split; [reflexivity |].
  intros b' Hb'.
  destruct b' as [| b0 [| b1 [| ? ?]]]; try discriminate.
  unfold LeastSquares.ssr, LeastSquares.sum_sq, LeastSquares.sum,
    LeastSquares.residuals, LeastSquares.fitted, LeastSquares.add_constant,
    Demo.features, Demo.target, Demo.coefficients.
  simpl.
  pose proof (Rle_0_sqr (b0 - 1)) as P0.
  pose proof (Rle_0_sqr (b1 - 3 / 2)) as P1. unfold Rsqr in *.
  lra.
Qed.

Lemma demo_ols_fit :
  LeastSquares.ols_fit 2 (LeastSquares.add_constant Demo.features)
    Demo.target Demo.coefficients.
Proof.
  split; [exact demo_least_squares |].
  intros b' [Hb' Hmin].
  destruct b' as [| b0 [| b1 [| ? ?]]]; try discriminate.
  specialize (Hmin Demo.coefficients eq_refl).
  unfold LeastSquares.ssr, LeastSquares.sum_sq, LeastSquares.sum,
    LeastSquares.residuals, LeastSquares.fitted, LeastSquares.add_constant,
    Demo.features, Demo.target, Demo.coefficients in *.
  simpl in *.
  pose proof (Rle_0_sqr (b0 - 1)) as P0.
  pose proof (Rle_0_sqr (b1 - 3 / 2)) as P1. unfold Rsqr in *.
  assert (Z0 : ((b0 - 1) * (b0 - 1) = 0)%R) by lra.
  assert (Z1 : ((b1 - 3 / 2) * (b1 - 3 / 2) = 0)%R) by lra.
  assert (E0 : b0 = 1%R)
    by (apply Rmult_integral in Z0; destruct Z0; lra).
  assert (E1 : b1 = (3 / 2)%R)
    by (apply Rmult_integral in Z1; destruct Z1; lra).
  subst. lra.
Qed.

Lemma C4_witness :
  let resid :=
    LeastSquares.residuals (LeastSquares.add_constant Demo.features)
      Demo.target Demo.coefficients in
  LeastSquares.sum resid = 0%R /\ LeastSquares.mean_residuals resid = 0%R.
Proof.
  apply (C4_mean_residuals_zero 2 (LeastSquares.add_constant Demo.features)
           Demo.target Demo.coefficients 0%nat 1%R).
  - reflexivity.
  - simpl. lia.
  - exact demo_least_squares.
  - lia.
  - lra.
  - apply add_constant_column.
Defined.

(** C5.  Let two results be fits of the same data on the same [k]
    columns, one with the non-robust covariance and one with HC1.
    Their coefficients are the same, and so are their residuals, their
    fitted values and their predictions on any rows; only the standard
    errors and p-values are free to differ. *)
Theorem C5_robust_fit_same_estimates :
  forall (k : nat) (X : list (list R)) (y : list R)
         (est robust_ols : LeastSquares.FitResult),
    LeastSquares.fit_result "nonrobust" k X y est ->
    LeastSquares.fit_result "HC1" k X y robust_ols ->
    LeastSquares.params robust_ols = LeastSquares.params est /\
    LeastSquares.resid robust_ols = LeastSquares.resid est /\
    LeastSquares.fittedvalues robust_ols = LeastSquares.fittedvalues est /\
    forall X', LeastSquares.predict robust_ols X' = LeastSquares.predict est X'.
Proof.
  intros k X y est robust_ols (_ & F1 & R1 & V1) (_ & F2 & R2 & V2).
  assert (E : LeastSquares.params robust_ols = LeastSquares.params est)
    by exact (LeastSquaresFacts.ols_fit_unique k X y _ _ F2 F1).
  unfold LeastSquares.predict. rewrite R1, R2, V1, V2, E.
  repeat split.
Qed.

Lemma C5_witness :
  LeastSquares.params Demo.robust_fit = LeastSquares.params Demo.nonrobust_fit /\
  LeastSquares.resid Demo.robust_fit = LeastSquares.resid Demo.nonrobust_fit /\
  LeastSquares.fittedvalues Demo.robust_fit
    = LeastSquares.fittedvalues Demo.nonrobust_fit /\
  forall X', LeastSquares.predict Demo.robust_fit X'
             = LeastSquares.predict Demo.nonrobust_fit X'.
Proof.
  assert (R : LeastSquares.residuals (LeastSquares.add_constant Demo.features)
                Demo.target Demo.coefficients = [1 / 2; -1; 1 / 2]%R).
  { unfold LeastSquares.residuals, LeastSquares.fitted,
      LeastSquares.add_constant, Demo.features, Demo.target, Demo.coefficients.
    simpl. f_equal; [lra | f_equal; [lra | f_equal; lra]]. }
  assert (V : LeastSquares.fitted (LeastSquares.add_constant Demo.features)
                Demo.coefficients = [-1 / 2; 1; 5 / 2]%R).
  { unfold LeastSquares.fitted, LeastSquares.add_constant, Demo.features,
      Demo.coefficients.
    simpl. f_equal; [lra | f_equal; [lra | f_equal; lra]]. }
  apply (C5_robust_fit_same_estimates 2
           (LeastSquares.add_constant Demo.features) Demo.target
           Demo.nonrobust_fit Demo.robust_fit).
  - split; [reflexivity |]. split; [exact demo_ols_fit |].
    split; [symmetry; exact R | symmetry; exact V].
  - split; [reflexivity |]. split; [exact demo_ols_fit |].
    split; [symmetry; exact R | symmetry; exact V].
Defined.

(* ----------------------------------------------------------------- *)
(** ** The factor of a collinear column *)

Module ScreenerFacts.

Import LeastSquares Screener.
Local Open Scope R_scope.







End ScreenerFacts.



(* ----------------------------------------------------------------- *)
(** ** The metrics on vectors of unequal length *)

Lemma check_consistent_length_differs {A} (y_true y_pred : vector) (v : A) :
  length y_true <> length y_pred ->
  Evaluator.check_consistent_length y_true y_pred v = Raise ShapeError.
Proof.
  intros N. unfold Evaluator.check_consistent_length.
  destruct (Nat.eqb_spec (length y_true) (length y_pred)); [contradiction |].
  reflexivity.
Qed.

(** The scenario of an exact fit: all errors are zero and R2 is one. *)
Example evaluator_exact_fit :
  let y := [of_Z 2; of_Z 4; of_Z 6; of_Z 8] in
  Evaluator.mean_absolute_error y y = Ok zero /\
  Evaluator.mean_squared_error y y = Ok zero /\
  Evaluator.root_mean_squared_error y y = Ok zero /\
  Evaluator.r2_score y y = Ok one.
Proof. vm_compute. repeat split. Qed.

(** C9.  For true and predicted targets of unequal length, each of
    MAE, MSE, RMSE and R2 fails with a ShapeError; cells 33 and 35,
    run on such targets, stop on that error at their first metric and
    print no metric value. *)
Theorem C9_unequal_lengths_shape_error :
  forall (L : Libraries) (y_test : DataFrame) (y_predict : matrix)
         (y_true y_pred : vector),
    y_true = Evaluator.ravel (values y_test) ->
    y_pred = Evaluator.ravel y_predict ->
    length y_true <> length y_pred ->
    Evaluator.mean_absolute_error y_true y_pred = Raise ShapeError /\
    Evaluator.mean_squared_error y_true y_pred = Raise ShapeError /\
    Evaluator.root_mean_squared_error y_true y_pred = Raise ShapeError /\
    Evaluator.r2_score y_true y_pred = Raise ShapeError /\
    outcome (cell_33 (H := Evaluator.with_metrics L) y_test y_predict)
      = Raise ShapeError /\
    stdout (trace (cell_33 (H := Evaluator.with_metrics L) y_test y_predict))
      = [] /\
    outcome (cell_35 (H := Evaluator.with_metrics L) y_test y_predict)
      = Raise ShapeError /\
    stdout (trace (cell_35 (H := Evaluator.with_metrics L) y_test y_predict))
      = [].
Proof.
  intros L y_test y_predict y_true y_pred -> -> N.
  assert (A : Evaluator.mean_absolute_error (Evaluator.ravel (values y_test))
                (Evaluator.ravel y_predict) = Raise ShapeError)
    by (apply check_consistent_length_differs; exact N).
  assert (S : Evaluator.mean_squared_error (Evaluator.ravel (values y_test))
                (Evaluator.ravel y_predict) = Raise ShapeError)
    by (apply check_consistent_length_differs; exact N).
  assert (R : Evaluator.r2_score (Evaluator.ravel (values y_test))
                (Evaluator.ravel y_predict) = Raise ShapeError)
    by (apply check_consistent_length_differs; exact N).
  split; [exact A |]. split; [exact S |].
  split; [unfold Evaluator.root_mean_squared_error; rewrite S; reflexivity |].
  split; [exact R |].
  unfold cell_33, cell_35, call, bind, emit, lift.
  cbn [mean_squared_error r2_score Evaluator.with_metrics].
  rewrite S, R. repeat split.
Qed.

Lemma C9_witness :
  let y_true := Evaluator.ravel (values Demo.y_true5) in
  let y_pred := Evaluator.ravel Demo.y_pred4 in
  Evaluator.mean_absolute_error y_true y_pred = Raise ShapeError /\
  Evaluator.mean_squared_error y_true y_pred = Raise ShapeError /\
  Evaluator.root_mean_squared_error y_true y_pred = Raise ShapeError /\
  Evaluator.r2_score y_true y_pred = Raise ShapeError /\
  outcome (cell_33 (H := Evaluator.with_metrics Demo.libraries)
             Demo.y_true5 Demo.y_pred4) = Raise ShapeError /\
  stdout (trace (cell_33 (H := Evaluator.with_metrics Demo.libraries)
                   Demo.y_true5 Demo.y_pred4)) = [] /\
  outcome (cell_35 (H := Evaluator.with_metrics Demo.libraries)
             Demo.y_true5 Demo.y_pred4) = Raise ShapeError /\
  stdout (trace (cell_35 (H := Evaluator.with_metrics Demo.libraries)
                   Demo.y_true5 Demo.y_pred4)) = [].
Proof.
  apply (C9_unequal_lengths_shape_error Demo.libraries Demo.y_true5
           Demo.y_pred4); [reflexivity | reflexivity | simpl; lia].
Defined.

(* ----------------------------------------------------------------- *)
(** ** Slicing a sorted index *)

Lemma str_compare_refl (a : string) : String.compare a a = Eq.
Proof. apply (proj2 (OrderedTypeEx.String_as_OT.cmp_eq a a)). reflexivity. Qed.

Lemma str_compare_eq (a b : string) : String.compare a b = Eq -> a = b.
Proof. apply (proj1 (OrderedTypeEx.String_as_OT.cmp_eq a b)). Qed.

Lemma str_compare_trans (a b c : string) :
  String.compare a b = Lt -> String.compare b c = Lt -> String.compare a c = Lt.
Proof.
  intros H1 H2.
  apply OrderedTypeEx.String_as_OT.cmp_lt.
  apply OrderedTypeEx.String_as_OT.lt_trans with b;
    apply OrderedTypeEx.String_as_OT.cmp_lt; assumption.
Qed.

(** The three outcomes of comparing two labels. *)
Lemma str_cases (a b : string) :
  (String.compare a b = Lt /\ String.ltb a b = true /\ String.leb a b = true
     /\ String.eqb a b = false /\ String.ltb b a = false) \/
  (a = b /\ String.ltb a b = false /\ String.leb a b = true
     /\ String.eqb a b = true /\ String.ltb b a = false) \/
  (String.compare b a = Lt /\ String.ltb a b = false /\ String.leb a b = false
     /\ String.eqb a b = false /\ String.ltb b a = true).
Proof.
  unfold String.ltb, String.leb.
  pose proof (OrderedTypeEx.String_as_OT.cmp_antisym b a) as AS.
  unfold OrderedTypeEx.String_as_OT.cmp in AS. rewrite AS. clear AS.
  destruct (String.compare a b) eqn:E; simpl.
  - right. left. apply str_compare_eq in E. subst.
    rewrite String.eqb_refl. repeat split.
  - left. repeat split.
    apply String.eqb_neq. intros ->. rewrite str_compare_refl in E. discriminate.
  - right. right. repeat split.
    apply String.eqb_neq. intros ->. rewrite str_compare_refl in E. discriminate.
Qed.

Lemma str_leb_trans (a b c : string) :
  String.leb a b = true -> String.leb b c = true -> String.leb a c = true.
Proof.
  intros H1 H2.
  destruct (str_cases a b) as [(L1 & _) | [(-> & _) | (_ & _ & F & _)]];
    [| exact H2 | congruence].
  destruct (str_cases b c) as [(L2 & _) | [(-> & _) | (_ & _ & F & _)]];
    [| exact H1 | congruence].
  pose proof (str_compare_trans _ _ _ L1 L2) as L.
  unfold String.leb. rewrite L. reflexivity.
Qed.

Lemma str_leb_ltb_trans (a b c : string) :
  String.leb a b = true -> String.ltb b c = true -> String.ltb a c = true.
Proof.
  intros H1 H2.
  destruct (str_cases a b) as [(L1 & _) | [(-> & _) | (_ & _ & F & _)]];
    [| exact H2 | congruence].
  destruct (str_cases b c) as [(L2 & _) | [(_ & F & _) | (_ & F & _)]];
    [| congruence | congruence].
  pose proof (str_compare_trans _ _ _ L1 L2) as L.
  unfold String.ltb. rewrite L. reflexivity.
Qed.

Lemma monotonic_tail (le : string -> string -> bool) (x : string) (l : list string) :
  Loader.monotonic le (x :: l) = true -> Loader.monotonic le l = true.
Proof.
  destruct l as [| y l]; [reflexivity |].
  cbn [Loader.monotonic]. intros H. apply andb_prop in H. tauto.
Qed.

Lemma sorted_head (x : string) (l : list string) :
  Loader.is_monotonic_increasing (x :: l) = true ->
  forall y, In y l -> String.leb x y = true.
Proof.
  unfold Loader.is_monotonic_increasing.
  revert x. induction l as [| z l IH]; intros x H y Hy; [contradiction |].
  cbn [Loader.monotonic] in H. apply andb_prop in H. destruct H as [Hxz Hs].
  destruct Hy as [<- | Hy]; [exact Hxz |].
  apply str_leb_trans with z; [exact Hxz | exact (IH z Hs y Hy)].
Qed.

Lemma count_none (P : string -> bool) (l : list string) :
  (forall y, In y l -> P y = false) -> Loader.count P l = 0%nat.
Proof.
  unfold Loader.count. induction l as [| y l IH]; intros H; [reflexivity |].
  simpl. rewrite (H y (or_introl eq_refl)). apply IH.
  intros z Hz. apply H. right. exact Hz.
Qed.

Lemma sorted_above (P : string -> bool) (x : string) (l : list string) :
  Loader.downward P -> Loader.is_monotonic_increasing (x :: l) = true ->
  P x = false -> forall y, In y l -> P y = false.
Proof.
  intros D Hs Hx y Hy. destruct (P y) eqn:E; [| reflexivity].
  rewrite (D x y (sorted_head x l Hs y Hy) E) in Hx. discriminate.
Qed.

(** In a sorted index, a Loader.downward predicate holds on a prefix. *)
Lemma sorted_prefix (P : string -> bool) (l : list string) :
  Loader.downward P -> Loader.is_monotonic_increasing l = true ->
  forall k y, nth_error l k = Some y ->
    (P y = true <-> (k < Loader.count P l)%nat).
Proof.
  intros D. induction l as [| x l IH]; intros Hs k y E.
  - destruct k; discriminate.
  - unfold Loader.count in *. cbn [filter].
    destruct (P x) eqn:Px.
    + destruct k as [| k]; simpl in E.
      * inversion E; subst. simpl. split; [lia | intros _; exact Px].
      * simpl. rewrite (IH (monotonic_tail _ _ _ Hs) k y E). lia.
    + pose proof (sorted_above P x l D Hs Px) as A.
      fold (Loader.count P l). rewrite (count_none P l A).
      destruct k as [| k]; simpl in E.
      * inversion E; subst. split; [congruence | lia].
      * apply nth_error_In in E. rewrite (A y E). split; [congruence | lia].
Qed.

Lemma downward_ltb (a : string) : Loader.downward (fun x => String.ltb x a).
Proof. intros x y L H. exact (str_leb_ltb_trans _ _ _ L H). Qed.

Lemma downward_leb (b : string) : Loader.downward (fun x => String.leb x b).
Proof. intros x y L H. exact (str_leb_trans _ _ _ L H). Qed.

Lemma count_le_length (P : string -> bool) (l : list string) :
  (Loader.count P l <= length l)%nat.
Proof. unfold Loader.count. apply filter_length_le. Qed.

Lemma last_seq (m : nat) : forall i d, last (seq i (S m)) d = (i + m)%nat.
Proof.
  induction m as [| m IH]; intros i d; [simpl; lia |].
  change (seq i (S (S m))) with (i :: seq (S i) (S m)).
  change (last (i :: seq (S i) (S m)) d) with (last (seq (S i) (S m)) d).
  rewrite IH. lia.
Qed.

(** In a sorted index the occurrences of a label stand together, after
    the labels below it. *)
Lemma occurrences_sorted (a : string) (l : list string) :
  Loader.is_monotonic_increasing l = true ->
  forall k,
    Loader.occurrences a l k =
      seq (k + Loader.count (fun x => String.ltb x a) l)
          (Loader.count (fun x => String.eqb x a) l).
Proof.
  induction l as [| x l IH]; intros Hs k.
  - simpl. reflexivity.
  - specialize (IH (monotonic_tail _ _ _ Hs)).
    unfold Loader.count in *. cbn [Loader.occurrences filter].
    destruct (str_cases x a)
      as [(_ & L & _ & E & _) | [(-> & L & _ & E & _) | (G & L & _ & E & G')]];
      rewrite L, E.
    + rewrite IH. cbn [length]. f_equal. lia.
    + assert (A : forall y, In y l -> String.ltb y a = false)
        by (apply (sorted_above _ a l (downward_ltb a) Hs); exact L).
      pose proof (count_none _ l A) as C. unfold Loader.count in C.
      rewrite IH, C. cbn [length seq]. rewrite !Nat.add_0_r. reflexivity.
    + assert (A : forall y, In y l -> String.leb y a = false).
      { apply (sorted_above _ x l (downward_leb a) Hs).
        destruct (str_cases x a)
          as [(_ & F & _) | [(_ & _ & _ & F & _) | (_ & _ & F & _)]];
          congruence. }
      assert (A1 : forall y, In y l -> String.ltb y a = false).
      { intros y Hy. specialize (A y Hy).
        destruct (str_cases y a)
          as [(_ & _ & F & _) | [(_ & _ & F & _) | (_ & F & _)]]; congruence. }
      assert (A2 : forall y, In y l -> String.eqb y a = false).
      { intros y Hy. specialize (A y Hy).
        destruct (str_cases y a)
          as [(_ & _ & F & _) | [(_ & _ & F & _) | (_ & _ & _ & F & _)]];
          congruence. }
      pose proof (count_none _ l A1) as C1. pose proof (count_none _ l A2) as C2.
      unfold Loader.count in C1, C2. rewrite IH, C1, C2. reflexivity.
Qed.

Lemma count_leb_split (b : string) (l : list string) :
  Loader.count (fun x => String.leb x b) l =
    (Loader.count (fun x => String.ltb x b) l
     + Loader.count (fun x => String.eqb x b) l)%nat.
Proof.
  unfold Loader.count. induction l as [| x l IH]; [reflexivity |].
  cbn [filter].
  destruct (str_cases x b)
    as [(_ & L & LE & E & _) | [(_ & L & LE & E & _) | (_ & L & LE & E & _)]];
    rewrite L, LE, E; cbn [length]; rewrite IH; lia.
Qed.

Lemma get_slice_bound_sorted (l : list string) (label : string) (s : Loader.side) :
  Loader.is_monotonic_increasing l = true ->
  Loader.get_slice_bound l label s =
    Ok (match s with
        | Loader.left_side => Loader.count (fun x => String.ltb x label) l
        | Loader.right_side => Loader.count (fun x => String.leb x label) l
        end).
Proof.
  intros Hs. unfold Loader.get_slice_bound.
  rewrite (occurrences_sorted label l Hs 0). rewrite count_leb_split.
  cbn [Nat.add].
  set (i := Loader.count (fun x => String.ltb x label) l).
  set (m := Loader.count (fun x => String.eqb x label) l).
  destruct m as [| m].
  - cbn [seq]. rewrite Hs. destruct s; f_equal; lia.
  - cbn [seq].
    assert (Q : last (seq (S i) m) i = (i + m)%nat).
    { destruct m as [| m']; [simpl; lia |]. rewrite last_seq. lia. }
    rewrite Q, length_seq.
    replace (S (i + m) - i)%nat with (S m) by lia.
    rewrite Nat.eqb_refl. destruct s; f_equal; lia.
Qed.

Lemma all_of_str_label (l : list string) :
  Loader.all_of Loader.str_label (map OStr l) = Some l.
Proof.
  induction l as [| x l IH]; [reflexivity |].
  cbn [map Loader.all_of Loader.str_label]. rewrite IH. reflexivity.
Qed.

(** On an index of strings the bound is that of [get_slice_bound]. *)
Lemma slice_bound_strings (float_label : float -> string) (l : list string)
    (label : string) (s : Loader.side) :
  Loader.slice_bound float_label (map OStr l) label s
  = Loader.get_slice_bound l label s.
Proof. unfold Loader.slice_bound. rewrite all_of_str_label. reflexivity. Qed.

(** For a sorted index of strings, [df.loc[start:stop]] keeps the rows
    whose label lies between the two bounds, both included, and no
    other. *)
Theorem loc_slice_sorted_index :
  forall (float_label : float -> string) (l : list string)
         (start stop : string),
    Loader.is_monotonic_increasing l = true ->
    exists pos,
      Loader.slice_locs float_label (map OStr l) start stop = Ok pos /\
      forall k,
        In k pos <->
        exists y, nth_error l k = Some y /\
                  String.leb start y = true /\ String.leb y stop = true.
Proof.
  intros float_label l start stop Hs. unfold Loader.slice_locs.
  rewrite !slice_bound_strings.
  rewrite !(get_slice_bound_sorted l _ _ Hs).
  set (i := Loader.count (fun x => String.ltb x start) l).
  set (j := Loader.count (fun x => String.leb x stop) l).
  exists (seq i (j - i)). split; [reflexivity |].
  intros k. rewrite in_seq. split.
  - intros [Hi Hj].
    assert (Hk : (k < length l)%nat).
    { pose proof (count_le_length (fun x => String.leb x stop) l). fold j in H.
      lia. }
    destruct (nth_error l k) as [y |] eqn:E;
      [| apply nth_error_None in E; lia].
    exists y. split; [reflexivity |].
    pose proof (sorted_prefix _ l (downward_ltb start) Hs k y E) as P1.
    pose proof (sorted_prefix _ l (downward_leb stop) Hs k y E) as P2.
    fold i in P1. fold j in P2. split.
    + destruct (str_cases y start)
        as [(_ & F & _) | [(-> & _ & F & _) | (_ & _ & _ & _ & F)]].
      * apply P1 in F. lia.
      * exact F.
      * destruct (str_cases start y)
          as [(_ & _ & G & _) | [(_ & _ & G & _) | (_ & F' & _)]];
          [exact G | exact G | congruence].
    + apply P2. lia.
  - intros (y & E & L1 & L2).
    pose proof (sorted_prefix _ l (downward_ltb start) Hs k y E) as P1.
    pose proof (sorted_prefix _ l (downward_leb stop) Hs k y E) as P2.
    fold i in P1. fold j in P2.
    apply P2 in L2.
    assert (N : ~ (k < i)%nat).
    { intros C. apply P1 in C.
      destruct (str_cases start y)
        as [(_ & _ & _ & _ & F) | [(-> & F & _) | (_ & _ & F & _)]];
        congruence. }
    lia.
Qed.

Lemma loc_slice_sorted_index_witness :
  exists pos,
    Loader.slice_locs Demo.no_float_label
      (map OStr ["1968"; "1969"; "1970"; "2017"]%string) "1969" "2016"
      = Ok pos /\
    forall k,
      In k pos <->
      exists y, nth_error ["1968"; "1969"; "1970"; "2017"]%string k = Some y /\
                String.leb "1969" y = true /\ String.leb y "2016" = true.
Proof.
  apply (loc_slice_sorted_index Demo.no_float_label
           ["1968"; "1969"; "1970"; "2017"]%string "1969" "2016").
  reflexivity.
Defined.

(* ----------------------------------------------------------------- *)
(** ** Cell 9: one factor per column *)

Lemma for_each_inv {A B} (f : A -> Cell B) (l : list A) :
  forall tr bs,
    for_each f l = (tr, Ok bs) ->
    Forall2 (fun a b => exists t, f a = (t, Ok b)) l bs.
Proof.
  induction l as [| a l IH]; intros tr bs E; simpl in E.
  - apply ret_inv in E. destruct E as [_ <-]. constructor.
  - cell_steps. constructor; [eexists; eassumption |].
    eapply IH. eassumption.
Qed.

Lemma for_each_raises {A B} (f : A -> Cell B) (l : list A) (a : A) t e :
  In a l -> f a = (t, Raise e) ->
  exists e', outcome (for_each f l) = Raise e'.
Proof.
  induction l as [| x l IH]; intros I E; [contradiction |].
  simpl. destruct (f x) as [tx [b | ex]] eqn:Fx.
  - destruct I as [-> | I]; [rewrite E in Fx; discriminate |].
    destruct (IH I E) as (e' & O). unfold outcome in O.
    destruct (for_each f l) as [tl [bs | el]]; simpl in O; [discriminate |].
    exists el. reflexivity.
  - exists ex. reflexivity.
Qed.

Lemma Forall2_nth_error {A B} (P : A -> B -> Prop) (l : list A) (l' : list B) :
  Forall2 P l l' ->
  forall i a, nth_error l i = Some a ->
    exists b, nth_error l' i = Some b /\ P a b.
Proof.
  induction 1 as [| x y l l' Pxy _ IH]; intros [| i] a E; simpl in E;
    try discriminate.
  - inversion E; subst. exists y. split; [reflexivity | exact Pxy].
  - apply IH. exact E.
Qed.

Lemma nth_error_combine {A B} (l : list A) (l' : list B) i a b :
  nth_error l i = Some a -> nth_error l' i = Some b ->
  nth_error (combine l l') i = Some (a, b).
Proof.
  revert l' i. induction l as [| x l IH]; intros [| y l'] [| i] Ea Eb;
    simpl in *; try discriminate.
  - inversion Ea; inversion Eb; reflexivity.
  - apply IH; assumption.
Qed.

Lemma map_fst_combine {A B} (l : list A) (l' : list B) :
  length l = length l' -> map fst (combine l l') = l.
Proof.
  revert l'. induction l as [| x l IH]; intros [| y l'] E; simpl in *;
    try discriminate; [reflexivity |].
  rewrite IH by lia. reflexivity.
Qed.

Lemma vif_series_inv `{Libraries} (X : DataFrame) tr series :
  vif_series X = (tr, Ok series) ->
  map fst series = column_names X /\
  forall i name,
    nth_error (column_names X) i = Some name ->
    exists v,
      variance_inflation_factor (values X) i = Ok v /\
      nth_error series i = Some (name, v).
Proof.
  intros E. unfold vif_series in E. cell_steps.
  rename E into S0.
  match goal with F : for_each _ _ = _ |- _ => apply for_each_inv in F;
                                                 rename F into F0 end.
  unfold Series in S0.
  destruct (Nat.eqb_spec (length x0) (length (column_names X)));
    [| discriminate].
  inversion S0; subst; clear S0.
  split; [apply map_fst_combine; congruence |].
  intros i name En.
  assert (Hi : (i < length (columns X))%nat).
  { unfold column_names in En.
    rewrite <- (length_map fst). apply nth_error_Some. congruence. }
  assert (Es : nth_error (seq 0 (length (columns X))) i = Some i).
  { rewrite nth_error_nth' with (d := 0%nat) by (rewrite length_seq; exact Hi).
    rewrite seq_nth by exact Hi. reflexivity. }
  destruct (Forall2_nth_error _ _ _ F0 i i Es) as (v & Ev & t & Ec).
  apply call_inv in Ec. destruct Ec as [_ Ec].
  exists v. split; [exact Ec |].
  apply nth_error_combine; assumption.
Qed.

Lemma vif_series_raises `{Libraries} (X : DataFrame) (i : nat) e :
  (i < length (columns X))%nat ->
  variance_inflation_factor (values X) i = Raise e ->
  exists e', outcome (vif_series X) = Raise e'.
Proof.
  intros Hi E. unfold vif_series.
  destruct (for_each_raises
              (fun i => call (EvVIF (values X) i)
                             (variance_inflation_factor (values X) i))
              (seq 0 (length (columns X))) i [EvVIF (values X) i] e)
    as (e' & O).
  - apply in_seq. lia.
  - unfold call, bind, emit, lift. rewrite E. reflexivity.
  - unfold outcome in *.
    destruct (for_each _ _) as [t [bs | el]]; simpl in O; [discriminate |].
    exists el. reflexivity.
Qed.

(** Cell 9 computes a factor for every column of each of its two design
    matrices, the constant included, and keeps each factor under the
    name of its column; if the library raises on a column, the cell
    raises: no column is left out of a series. *)
Theorem vif_series_covers_every_column `{Libraries} :
  forall (econ_df : DataFrame),
    let covers (X : DataFrame) (series : list (string * float)) :=
      map fst series = column_names X /\
      forall i name,
        nth_error (column_names X) i = Some name ->
        exists v,
          variance_inflation_factor (values X) i = Ok v /\
          nth_error series i = Some (name, v) in
    (forall tr before after,
       cell_9 econ_df = (tr, Ok (before, after)) ->
       covers (add_constant econ_df) before /\
       exists econ_df_after,
         drop ["gdp_growth"; "birth_rate"; "final_consum_growth";
               "gross_capital_formation"]%string econ_df = Ok econ_df_after /\
         covers (add_constant econ_df_after) after) /\
    (forall i e,
       (i < length (columns (add_constant econ_df)))%nat ->
       variance_inflation_factor (values (add_constant econ_df)) i = Raise e ->
       exists e', outcome (cell_9 econ_df) = Raise e').
Proof.
  intros econ_df covers. split.
  - intros tr before after E. unfold cell_9 in E. cell_steps.
    inversion E; subst; clear E.
    repeat match goal with
           | V : vif_series _ = _ |- _ => apply vif_series_inv in V
           end.
    split; [assumption |]. eexists. split; [eassumption | assumption].
  - intros i e Hi E. unfold cell_9.
    destruct (drop _ econ_df) as [after | e0]; cbn [lift bind];
      [| exists e0; reflexivity].
    destruct (vif_series_raises _ i e Hi E) as (e' & O).
    unfold outcome in O.
    destruct (vif_series (add_constant econ_df)) as [t [s | el]];
      simpl in O; [discriminate |].
    exists el. reflexivity.
Qed.

(* ================================================================= *)
(** * Part III: more of the notebook *)

(* ----------------------------------------------------------------- *)
(** ** Dropping and selecting columns *)

Lemma mem_In (s : string) (l : list string) : mem s l = true <-> In s l.
Proof.
  unfold mem. rewrite existsb_exists. split.
  - intros (x & I & E). apply String.eqb_eq in E. subst. exact I.
  - intros I. exists s. split; [exact I | apply String.eqb_refl].
Qed.

Lemma mem_false (s : string) (l : list string) : mem s l = false <-> ~ In s l.
Proof.
  rewrite <- mem_In. destruct (mem s l); split; congruence.
Qed.

Lemma mem_app (s : string) (l1 l2 : list string) :
  mem s (l1 ++ l2) = mem s l1 || mem s l2.
Proof. unfold mem. apply existsb_app. Qed.

(** [drop] ends well exactly when every label names a column, and then
    keeps the other columns, in their order, with the index. *)
Lemma drop_spec {A} (labels : list string) (df : Table A) :
  (forall l, In l labels -> In l (column_names df)) ->
  drop labels df =
    Ok (mkTable (index df)
          (filter (fun c => negb (mem (fst c) labels)) (columns df))).
Proof.
  intros H. unfold drop.
  destruct (find _ labels) as [l |] eqn:F; [| reflexivity].
  apply find_some in F. destruct F as [I N].
  apply negb_true_iff, mem_false in N. elim N. apply H. exact I.
Qed.

Lemma drop_inv {A} (labels : list string) (df d : Table A) :
  drop labels df = Ok d ->
  (forall l, In l labels -> In l (column_names df)) /\
  d = mkTable (index df)
        (filter (fun c => negb (mem (fst c) labels)) (columns df)).
Proof.
  unfold drop. destruct (find _ labels) as [l |] eqn:F; [discriminate |].
  intros E. inversion E; subst; clear E. split; [| reflexivity].
  intros l I. pose proof (find_none _ _ F l I) as N. cbv beta in N.
  apply negb_false_iff, mem_In in N. exact N.
Qed.

Lemma drop_missing {A} (labels : list string) (df : Table A) (l : string) :
  In l labels -> ~ In l (column_names df) ->
  exists key, drop labels df = Raise (KeyError key).
Proof.
  intros I N. unfold drop.
  destruct (find _ labels) as [k |] eqn:F; [exists k; reflexivity |].
  pose proof (find_none _ _ F l I) as M. cbv beta in M.
  apply negb_false_iff, mem_In in M. contradiction.
Qed.

Lemma column_names_filter {A} (p : string -> bool)
    (cols : list (string * list A)) :
  map fst (filter (fun c => p (fst c)) cols) = filter p (map fst cols).
Proof.
  induction cols as [| c cols IH]; [reflexivity |].
  simpl. destruct (p (fst c)); simpl; rewrite IH; reflexivity.
Qed.

Lemma column_names_drop {A} (labels : list string) (df d : Table A) :
  drop labels df = Ok d ->
  column_names d = filter (fun n => negb (mem n labels)) (column_names df).
Proof.
  intros E. apply drop_inv in E. destruct E as [_ ->].
  unfold column_names. cbn [columns].
  apply (column_names_filter (fun n => negb (mem n labels))).
Qed.

Lemma filter_twice {A} (p q : A -> bool) (l : list A) :
  filter q (filter p l) = filter (fun a => p a && q a) l.
Proof.
  induction l as [| a l IH]; [reflexivity |].
  simpl. destruct (p a); simpl; [destruct (q a) |]; rewrite IH; reflexivity.
Qed.

(** Two drops in a row are one drop of all the labels. *)
Lemma drop_drop {A} (l1 l2 : list string) (df d1 d2 : Table A) :
  drop l1 df = Ok d1 -> drop l2 d1 = Ok d2 -> drop (l2 ++ l1) df = Ok d2.
Proof.
  intros E1 E2.
  pose proof (column_names_drop _ _ _ E1) as N1.
  apply drop_inv in E1. destruct E1 as [H1 ->].
  apply drop_inv in E2. destruct E2 as [H2 ->]. cbn [index columns] in *.
  rewrite drop_spec.
  - f_equal. f_equal. rewrite filter_twice. apply filter_ext.
    intros c. rewrite mem_app, negb_orb. apply andb_comm.
  - intros l I. apply in_app_or in I. destruct I as [I | I]; [| exact (H1 l I)].
    specialize (H2 l I). rewrite N1 in H2. apply filter_In in H2. tauto.
Qed.

(** A column that is not dropped is found as before. *)
(* ----------------------------------------------------------------- *)
(** ** Cell 16 on a frame that lacks a column *)

Lemma cell_16_first_drop_raises `{Libraries} (econ_df : DataFrame) (g : rng) e :
  drop ["birth_rate"; "final_consum_growth"; "gross_capital_formation"]%string
       econ_df = Raise e ->
  cell_16 econ_df g = ([], Raise e).
Proof. intros D. unfold cell_16. rewrite D. reflexivity. Qed.

Lemma cell_16_second_drop_raises `{Libraries} (econ_df after : DataFrame)
    (g : rng) e :
  drop ["birth_rate"; "final_consum_growth"; "gross_capital_formation"]%string
       econ_df = Ok after ->
  drop ["gdp_growth"%string] after = Raise e ->
  cell_16 econ_df g = ([], Raise e).
Proof.
  intros D1 D2. unfold cell_16. rewrite D1. cbn [lift bind].
  rewrite D2. reflexivity.
Qed.

Lemma missing_column_key_error (econ_df : DataFrame) (name : string) :
  In name ["birth_rate"; "final_consum_growth"; "gross_capital_formation";
           "gdp_growth"]%string ->
  ~ In name (column_names econ_df) ->
  (exists key,
     drop ["birth_rate"; "final_consum_growth"; "gross_capital_formation"]%string
          econ_df = Raise (KeyError key)) \/
  (exists after key,
     drop ["birth_rate"; "final_consum_growth"; "gross_capital_formation"]%string
          econ_df = Ok after /\
     drop ["gdp_growth"%string] after = Raise (KeyError key)).
Proof.
  intros I N.
  destruct (drop ["birth_rate"; "final_consum_growth";
                  "gross_capital_formation"]%string econ_df)
    as [after | e] eqn:D.
  - right.
    assert (G : name = "gdp_growth"%string).
    { apply drop_inv in D. destruct D as [P _].
      simpl in I. destruct I as [<- | [<- | [<- | [<- | []]]]];
        try reflexivity; elim N; apply P; simpl; auto. }
    subst name.
    assert (Na : ~ In "gdp_growth"%string (column_names after)).
    { rewrite (column_names_drop _ _ _ D). intros F.
      apply filter_In in F. tauto. }
    destruct (drop_missing ["gdp_growth"%string] after "gdp_growth"%string)
      as (key & K); [left; reflexivity | exact Na |].
    exists after, key. split; [reflexivity | exact K].
  - left. unfold drop in D. destruct (find _ _) as [k |]; [| discriminate].
    inversion D. exists k. reflexivity.
Qed.

(** If the cleaned frame lacks one of the four columns that cell 16
    names, the cell raises a [KeyError], whatever the libraries would
    answer. *)
Theorem cell_16_missing_column `{Libraries} :
  forall (econ_df : DataFrame) (g : rng) (name : string),
    In name ["birth_rate"; "final_consum_growth"; "gross_capital_formation";
             "gdp_growth"]%string ->
    ~ In name (column_names econ_df) ->
    exists key, cell_16 econ_df g = ([], Raise (KeyError key)).
Proof.
  intros econ_df g name I N.
  destruct (missing_column_key_error econ_df name I N)
    as [(key & D) | (after & key & D1 & D2)]; exists key.
  - exact (cell_16_first_drop_raises econ_df g _ D).
  - exact (cell_16_second_drop_raises econ_df after g _ D1 D2).
Qed.

Lemma cell_16_missing_column_witness :
  exists key,
    cell_16 (H := Demo.libraries) Samples.no_target tt
      = ([], Raise (KeyError key)).
Proof.
  apply (cell_16_missing_column (H := Demo.libraries) Samples.no_target tt
           "gdp_growth"%string).
  - simpl. tauto.
  - simpl. intros [E | [E | [E | [E | []]]]]; discriminate E.
Defined.

(* ----------------------------------------------------------------- *)
(** ** From cell 5 to cell 16: headers that the mapping does not name *)

Lemma map_result_inv {A B} (f : A -> result B) (l : list A) :
  forall l', Loader.map_result f l = Ok l' ->
    Forall2 (fun a b => f a = Ok b) l l'.
Proof.
  induction l as [| a l IH]; intros l' E; simpl in E.
  - inversion E. constructor.
  - destruct (f a) as [b | e] eqn:F; [| discriminate].
    destruct (Loader.map_result f l) as [bs | e]; [| discriminate].
    inversion E; subst. constructor; [exact F | apply IH; reflexivity].
Qed.

Lemma astype_float_names (parse_float : string -> option float)
    (t : Table obj) (d : DataFrame) :
  Loader.astype_float parse_float t = Ok d ->
  index d = index t /\ column_names d = column_names t.
Proof.
  unfold Loader.astype_float.
  destruct (Loader.map_result _ (columns t)) as [cs |] eqn:M; [| discriminate].
  intros E. inversion E; subst; clear E. split; [reflexivity |].
  apply map_result_inv in M. unfold column_names. cbn [columns].
  induction M as [| c c' l l' Hc _ IH]; [reflexivity |].
  simpl. rewrite IH. f_equal.
  destruct (Loader.map_result _ (snd c)); [| discriminate].
  inversion Hc. reflexivity.
Qed.

(** What cell 5 did, when it ended well. *)
Lemma cell_5_inv (parse_float : string -> option float)
    (float_label : float -> string)
    (sheet : Loader.Sheet) tr (econ_df : DataFrame) :
  Loader.cell_5 parse_float float_label sheet = (tr, Ok econ_df) ->
  exists t d pos,
    Loader.set_index "Year" (Loader.replace ".." "nan" sheet) = Ok t /\
    Loader.astype_float parse_float t = Ok d /\
    Loader.slice_locs float_label (index d) "1969" "2016" = Ok pos /\
    econ_df = rename Loader.column_names (take pos d) /\
    tr = [EvDisplayStr dashes; EvDisplayFlags (isnull_any econ_df);
          EvDisplayStr dashes; EvDisplayFrame (head econ_df)].
Proof.
  intros E. unfold Loader.cell_5 in E. cell_steps.
  unfold Loader.loc_slice in *.
  match goal with
  | S : match Loader.slice_locs _ ?i _ _ with _ => _ end = Ok _ |- _ =>
      destruct (Loader.slice_locs float_label i "1969" "2016") as [pos |] eqn:P;
      [| discriminate]; inversion S; subst; clear S
  end.
  eexists _, _, pos. repeat (split; [eassumption || reflexivity |]).
  reflexivity.
Qed.

Lemma replace_names (a b : string) (sheet : Loader.Sheet) :
  map fst (Loader.replace a b sheet) = map fst sheet.
Proof. unfold Loader.replace. rewrite map_map. reflexivity. Qed.

Lemma set_index_names (name : string) (sheet : Loader.Sheet) (t : Table obj) :
  Loader.set_index name sheet = Ok t ->
  column_names t =
    filter (fun n => negb (String.eqb n name)) (map fst sheet).
Proof.
  unfold Loader.set_index. destruct (find _ sheet); [| discriminate].
  intros E. inversion E; subst; clear E. unfold column_names. cbn [columns].
  apply (column_names_filter (fun n => negb (String.eqb n name))).
Qed.

(** The headers of the frame that cell 5 returns: those of the sheet
    other than ["Year"], in their order, each renamed if the mapping
    names it and kept if not. *)
Lemma cell_5_column_names (parse_float : string -> option float)
    (float_label : float -> string)
    (sheet : Loader.Sheet) tr (econ_df : DataFrame) :
  Loader.cell_5 parse_float float_label sheet = (tr, Ok econ_df) ->
  column_names econ_df =
    map (rename_one Loader.column_names)
        (filter (fun n => negb (String.eqb n "Year")) (map fst sheet)).
Proof.
  intros E. apply cell_5_inv in E.
  destruct E as (t & d & pos & Et & Ed & _ & -> & _).
  apply astype_float_names in Ed. destruct Ed as [_ Nd].
  apply set_index_names in Et. rewrite replace_names in Et.
  rewrite <- Et, <- Nd.
  unfold column_names, rename, take. cbn [columns]. rewrite !map_map.
  reflexivity.
Qed.

(** A header becomes one of the names cell 16 uses only if it is the
    header the mapping gives for that name, or already that name. *)
Lemma rename_one_target (k v n : string) :
  In (k, v)
     [ ("GDP growth (annual %)", "gdp_growth");
       ("Birth rate, crude (per 1,000 people)", "birth_rate");
       ("Final consumption expenditure (annual % growth)",
        "final_consum_growth");
       ("Gross capital formation (% of GDP)", "gross_capital_formation")
     ]%string ->
  rename_one Loader.column_names n = v -> n = k \/ n = v.
Proof.
  intros I. unfold rename_one, Loader.column_names. cbn [find fst snd].
  repeat match goal with
         | |- context [String.eqb ?a n] =>
             destruct (String.eqb_spec a n) as [<- | ?]
         end;
    simpl in I;
    destruct I as [I | [I | [I | [I | []]]]]; inversion I; subst;
    intros E; try discriminate E; auto.
Qed.

(** [rename] passes over a header that the mapping does not list: the
    column keeps the header of the sheet.  If the sheet has neither the
    header the mapping gives for one of the four columns cell 16 names,
    nor that name, then whenever cell 5 ends well on the sheet, cell 16
    raises a [KeyError] on the frame that cell 5 bound. *)
Theorem unmapped_header_fails_in_cell_16 `{Libraries} :
  forall (parse_float : string -> option float)
         (float_label : float -> string) (sheet : Loader.Sheet)
         (econ_df : DataFrame) (g : rng) (header name : string),
    In (header, name)
       [ ("GDP growth (annual %)", "gdp_growth");
         ("Birth rate, crude (per 1,000 people)", "birth_rate");
         ("Final consumption expenditure (annual % growth)",
          "final_consum_growth");
         ("Gross capital formation (% of GDP)", "gross_capital_formation")
       ]%string ->
    outcome (Loader.cell_5 parse_float float_label sheet) = Ok econ_df ->
    (forall c, In c sheet -> fst c <> header /\ fst c <> name) ->
    exists key, cell_16 econ_df g = ([], Raise (KeyError key)).
Proof.
  intros parse fl sheet econ_df g header name I O Hs.
  destruct (Loader.cell_5 parse fl sheet) as [tr r] eqn:E.
  cbn [outcome snd] in O. subst r.
  assert (N : ~ In name (column_names econ_df)).
  { rewrite (cell_5_column_names _ _ _ _ _ E). intros F.
    apply in_map_iff in F. destruct F as (n & R & Fn).
    apply filter_In in Fn. destruct Fn as [Fn _].
    apply in_map_iff in Fn. destruct Fn as (c & <- & Ic).
    destruct (Hs c Ic) as [N1 N2].
    destruct (rename_one_target header name (fst c) I R); contradiction. }
  assert (Q : In name ["birth_rate"; "final_consum_growth";
                       "gross_capital_formation"; "gdp_growth"]%string).
  { simpl in I. destruct I as [I | [I | [I | [I | []]]]]; inversion I;
      simpl; auto. }
  destruct (missing_column_key_error econ_df name Q N)
    as [(key & D) | (after & key & D1 & D2)]; exists key.
  - exact (cell_16_first_drop_raises econ_df g _ D).
  - exact (cell_16_second_drop_raises econ_df after g _ D1 D2).
Qed.

Lemma unmapped_header_fails_in_cell_16_witness :
  (exists econ_df,
     outcome (Loader.cell_5 Demo.no_numeral Demo.no_float_label Samples.other_header)
       = Ok econ_df) /\
  forall econ_df,
    outcome (Loader.cell_5 Demo.no_numeral Demo.no_float_label Samples.other_header) = Ok econ_df ->
    exists key,
      cell_16 (H := Demo.libraries) econ_df tt = ([], Raise (KeyError key)).
Proof.
  split.
  - eexists. reflexivity.
  - intros econ_df O.
    apply (unmapped_header_fails_in_cell_16 (H := Demo.libraries)
             Demo.no_numeral Demo.no_float_label Samples.other_header econ_df tt
             "GDP growth (annual %)"%string "gdp_growth"%string).
    + left. reflexivity.
    + exact O.
    + intros c [<- | [<- | [<- | []]]]; split; discriminate.
Defined.

(* ----------------------------------------------------------------- *)
(** ** Cell 16: features, target and the two parts of the split *)


(** What cell 16 computed, step by step, when it ended well. *)
Lemma cell_16_frames `{Libraries} (econ_df : DataFrame) (g g' : rng) tr s :
  cell_16 econ_df g = (tr, Ok (s, g')) ->
  exists after train test used,
    drop ["birth_rate"; "final_consum_growth"; "gross_capital_formation"]%string
         econ_df = Ok after /\
    drop ["gdp_growth"%string] after = Ok (X s) /\
    getitem ["gdp_growth"%string] after = Ok (Y s) /\
    shuffle_split (RandomState 1) lit_0_20 (length (index (X s)))
      = (Ok (train, test), used) /\
    X_train s = take train (X s) /\ X_test s = take test (X s) /\
    y_train s = take train (Y s) /\ y_test s = take test (Y s).
Proof.
  intros E. unfold cell_16 in E. cell_steps.
  inversion E; subst; clear E.
  cbn [X Y X_train X_test y_train y_test].
  unfold train_test_split, check_random_state in *.
  match goal with
  | S : context [shuffle_split ?r ?t ?n] |- _ =>
      destruct (shuffle_split r t n) as [[[train test] | e] used] eqn:P;
      [| discriminate]; inversion S; subst; clear S
  end.
  eexists _, train, test, used.
  repeat (split; [eassumption || reflexivity |]). reflexivity.
Qed.

Lemma take_column_names (pos : list nat) (df : DataFrame) :
  column_names (take pos df) = column_names df.
Proof. unfold column_names, take. cbn [columns]. rewrite map_map. reflexivity. Qed.

Lemma getitem_one {A} (l : string) (df d : Table A) :
  getitem [l] df = Ok d ->
  named l df <> [] /\ d = mkTable (index df) (named l df).
Proof.
  unfold getitem. cbn [select].
  destruct (named l df) as [| c cs]; [discriminate |].
  intros E. inversion E. rewrite app_nil_r. split; [discriminate | reflexivity].
Qed.

Lemma named_drop {A} (labels : list string) (df d : Table A) (l : string) :
  drop labels df = Ok d -> ~ In l labels -> named l d = named l df.
Proof.
  intros E N. apply drop_inv in E. destruct E as [_ ->].
  unfold named. cbn [columns]. rewrite filter_twice.
  apply filter_ext. intros c.
  destruct (String.eqb_spec (fst c) l) as [-> | _].
  - replace (negb (mem l labels)) with true; [reflexivity |].
    symmetry. apply negb_true_iff, mem_false. exact N.
  - destruct (negb (mem (fst c) labels)); reflexivity.
Qed.

(** Where the names are distinct, a name stands over one column. *)
Lemma named_lookup {A} (l : string) (df : Table A) :
  NoDup (column_names df) -> named l df <> [] ->
  exists v, lookup l df = Some v /\ named l df = [(l, v)].
Proof.
  unfold named, lookup, column_names.
  induction (columns df) as [| c cs IH]; intros ND NE;
    [exfalso; apply NE; reflexivity |].
  cbn [map] in ND. inversion ND as [| n ns Nn Ns]; subst.
  cbn [filter find].
  destruct (String.eqb_spec (fst c) l) as [E | NEq].
  - exists (snd c). split; [reflexivity |].
    replace (filter (fun c0 => String.eqb (fst c0) l) cs) with
      (@nil (string * list A)).
    + destruct c as [n v]. cbn [fst snd] in *. subst n. reflexivity.
    + symmetry. clear IH ND Ns NE.
      induction cs as [| c' cs IHc]; [reflexivity |].
      cbn [filter]. destruct (String.eqb_spec (fst c') l) as [F | _].
      * exfalso. apply Nn. rewrite E, <- F. left. reflexivity.
      * apply IHc. intros I. apply Nn. right. exact I.
  - cbn [filter] in NE. apply IH; [exact Ns |].
    destruct (String.eqb (fst c) l) eqn:Q; [| exact NE].
    apply String.eqb_eq in Q. contradiction.
Qed.

(** The target is no feature.  When cell 16 ends well on a frame whose
    columns have distinct names, [X] holds the columns of the frame
    other than the target and the three dropped ones, in their order;
    [Y] holds the target column alone, with its values; and the training
    and test frames have the columns of [X] and of [Y]. *)
Theorem features_exclude_target `{Libraries} :
  forall (econ_df : DataFrame) (g g' : rng) tr (s : Split),
    NoDup (column_names econ_df) ->
    cell_16 econ_df g = (tr, Ok (s, g')) ->
    ~ In "gdp_growth"%string (column_names (X s)) /\
    column_names (X s) =
      filter (fun n => negb (mem n ["gdp_growth"; "birth_rate";
                                    "final_consum_growth";
                                    "gross_capital_formation"]%string))
             (column_names econ_df) /\
    (exists v, lookup "gdp_growth"%string econ_df = Some v /\
               columns (Y s) = [("gdp_growth"%string, v)]) /\
    column_names (X_train s) = column_names (X s) /\
    column_names (X_test s) = column_names (X s) /\
    column_names (y_train s) = ["gdp_growth"%string] /\
    column_names (y_test s) = ["gdp_growth"%string].
Proof.
  intros econ_df g g' tr s ND E.
  destruct (cell_16_frames _ _ _ _ _ E)
    as (after & train & test & used & D1 & D2 & GY & _ & -> & -> & -> & ->).
  pose proof (drop_drop _ _ _ _ _ D1 D2) as D.
  pose proof (column_names_drop _ _ _ D) as NX. cbn [app] in NX.
  apply getitem_one in GY. destruct GY as (NE & EY).
  rewrite (named_drop _ _ _ _ D1) in NE, EY
    by (simpl; intros [F | [F | [F | []]]]; discriminate F).
  destruct (named_lookup _ _ ND NE) as (v & L & EN). rewrite EN in EY.
  rewrite !take_column_names. rewrite EY.
  split; [rewrite NX; intros F; apply filter_In in F; destruct F as [_ F];
          discriminate F |].
  split; [exact NX |].
  split; [exists v; split; [exact L | reflexivity] |].
  repeat split.
Qed.

Lemma features_exclude_target_witness :
  exists tr s g',
    cell_16 (H := Demo.libraries) Demo.econ_df tt = (tr, Ok (s, g')) /\
    ~ In "gdp_growth"%string (column_names (X s)) /\
    column_names (X s) = ["pop_growth"%string] /\
    (exists v, lookup "gdp_growth"%string Demo.econ_df = Some v /\
               columns (Y s) = [("gdp_growth"%string, v)]) /\
    column_names (X_train s) = column_names (X s) /\
    column_names (X_test s) = column_names (X s) /\
    column_names (y_train s) = ["gdp_growth"%string] /\
    column_names (y_test s) = ["gdp_growth"%string].
Proof.
  destruct (cell_16 (H := Demo.libraries) Demo.econ_df tt)
    as [tr [[s g'] | e]] eqn:E.
  - exists tr, s, g'. split; [reflexivity |].
    destruct (features_exclude_target (H := Demo.libraries)
                Demo.econ_df tt g' tr s) as (A & B & C & D);
      [| exact E |].
    + repeat constructor; simpl; intuition discriminate.
    + split; [exact A |]. split; [rewrite B; reflexivity |].
      split; [exact C | exact D].
  - vm_compute in E. discriminate E.
Defined.

Lemma take_rows_all {A} (d : A) (l : list A) :
  take_rows d (seq 0 (length l)) l = l.
Proof.
  unfold take_rows. apply nth_ext with (d := d) (d' := d).
  - rewrite length_map, length_seq. reflexivity.
  - intros n Hn. rewrite length_map, length_seq in Hn.
    rewrite (nth_indep _ d (nth 0 l d))
      by (rewrite length_map, length_seq; exact Hn).
    rewrite (map_nth (fun i => nth i l d) (seq 0 (length l)) 0%nat n).
    rewrite seq_nth by exact Hn. reflexivity.
Qed.

Lemma take_rows_app {A} (d : A) (p q : list nat) (l : list A) :
  take_rows d (p ++ q) l = take_rows d p l ++ take_rows d q l.
Proof. unfold take_rows. apply map_app. Qed.

(** The split loses no row and repeats none.  When cell 16 ends well
    and the positions drawn for the two parts are, together, the
    positions of all the rows, each once: the training features and
    targets carry the same row labels, and so do the test features and
    targets; the labels of the two parts together are those of the
    cleaned frame; and if the years of that frame are distinct, no year
    is in both parts. *)
Theorem split_keeps_rows_aligned `{Libraries} :
  forall (econ_df : DataFrame) (g g' : rng) tr (s : Split)
         (train test : list nat) (used : rng),
    cell_16 econ_df g = (tr, Ok (s, g')) ->
    shuffle_split (RandomState 1) lit_0_20 (length (index econ_df))
      = (Ok (train, test), used) ->
    Permutation (train ++ test) (seq 0 (length (index econ_df))) ->
    index (X_train s) = index (y_train s) /\
    index (X_test s) = index (y_test s) /\
    Permutation (index (X_train s) ++ index (X_test s)) (index econ_df) /\
    (NoDup (index econ_df) ->
     forall label, In label (index (X_train s)) ->
                   ~ In label (index (X_test s))).
Proof.
  intros econ_df g g' tr s train test used E S0 P.
  destruct (cell_16_frames _ _ _ _ _ E)
    as (after & train' & test' & used' & D1 & D2 & GY & S & -> & -> & -> & ->).
  assert (IX : index (X s) = index econ_df)
    by (rewrite (drop_index _ _ _ D2); exact (drop_index _ _ _ D1)).
  assert (IY : index (Y s) = index econ_df)
    by (rewrite (getitem_index _ _ _ GY); exact (drop_index _ _ _ D1)).
  rewrite IX, S0 in S. inversion S; subst train' test' used'; clear S.
  unfold take. cbn [index]. rewrite IX, IY.
  assert (PL : Permutation
                 (take_rows (OStr EmptyString) train (index econ_df)
                  ++ take_rows (OStr EmptyString) test (index econ_df))
                 (index econ_df)).
  { rewrite <- take_rows_app.
    rewrite <- (take_rows_all (OStr EmptyString) (index econ_df)) at 2.
    unfold take_rows. apply Permutation_map. exact P. }
  split; [reflexivity |]. split; [reflexivity |]. split; [exact PL |].
  intros ND label I1 I2.
  assert (ND' : NoDup
                  (take_rows (OStr EmptyString) train (index econ_df)
                   ++ take_rows (OStr EmptyString) test (index econ_df)))
    by (apply (Permutation_NoDup (Permutation_sym PL)); exact ND).
  apply NoDup_app_remove_l in ND' as ND2.
  clear ND2. revert ND' I1 I2.
  generalize (take_rows (OStr EmptyString) train (index econ_df)) as l1.
  generalize (take_rows (OStr EmptyString) test (index econ_df)) as l2.
  intros l2 l1. induction l1 as [| a l1 IH]; intros ND' I1 I2; [contradiction |].
  simpl in ND'. inversion ND' as [| ? ? Na Nl]; subst.
  destruct I1 as [<- | I1].
  - apply Na. apply in_or_app. right. exact I2.
  - exact (IH Nl I1 I2).
Qed.

Lemma split_keeps_rows_aligned_witness :
  exists tr s g',
    cell_16 (H := Demo.libraries) Demo.econ_df tt = (tr, Ok (s, g')) /\
    index (X_train s) = index (y_train s) /\
    index (X_test s) = index (y_test s) /\
    Permutation (index (X_train s) ++ index (X_test s)) (index Demo.econ_df) /\
    (NoDup (index Demo.econ_df) ->
     forall label, In label (index (X_train s)) ->
                   ~ In label (index (X_test s))).
Proof.
  destruct (cell_16 (H := Demo.libraries) Demo.econ_df tt)
    as [tr [[s g'] | e]] eqn:E.
  - exists tr, s, g'. split; [reflexivity |].
    apply (split_keeps_rows_aligned (H := Demo.libraries) Demo.econ_df tt g'
             tr s [0; 1; 2; 3]%nat [4%nat] tt E).
    + reflexivity.
    + apply Permutation_refl.
  - vm_compute in E. discriminate E.
Defined.

(* ----------------------------------------------------------------- *)
(** ** Cell 44 against cell 16, and cell 9 against cell 23 *)

Lemma cell_44_frames `{Libraries} (econ_df : DataFrame) (g g' : rng) tr s :
  Refit.cell_44 econ_df g = (tr, Ok (s, g')) ->
  exists after train test used,
    drop ["birth_rate"; "final_consum_growth"; "gross_capital_formation";
          "broad_money_growth"; "unemployment"]%string econ_df = Ok after /\
    drop ["gdp_growth"%string] after = Ok (X s) /\
    getitem ["gdp_growth"%string] after = Ok (Y s) /\
    shuffle_split (RandomState 1) lit_0_20 (length (index (X s)))
      = (Ok (train, test), used) /\
    X_train s = take train (X s) /\ X_test s = take test (X s) /\
    y_train s = take train (Y s) /\ y_test s = take test (Y s).
Proof.
  intros E. unfold Refit.cell_44 in E. cell_steps.
  inversion E; subst; clear E.
  cbn [X Y X_train X_test y_train y_test].
  unfold train_test_split, check_random_state in *.
  match goal with
  | S : context [shuffle_split ?r ?t ?n] |- _ =>
      destruct (shuffle_split r t n) as [[[train test] | e] used] eqn:P;
      [| discriminate]; inversion S; subst; clear S
  end.
  eexists _, train, test, used.
  repeat (split; [eassumption || reflexivity |]). reflexivity.
Qed.

(** The second model is trained and tested on the rows of the first.
    When cells 16 and 44 both end well on the same cleaned frame, they
    bind the same target frame, the same training and test targets, and
    training and test features with the same row labels; the features
    of cell 44 are those of cell 16 without [broad_money_growth] and
    [unemployment], in the same order. *)
Theorem refit_uses_the_same_rows `{Libraries} :
  forall (econ_df : DataFrame) (g1 g1' g2 g2' : rng) tr1 tr2 (s1 s2 : Split),
    cell_16 econ_df g1 = (tr1, Ok (s1, g1')) ->
    Refit.cell_44 econ_df g2 = (tr2, Ok (s2, g2')) ->
    Y s2 = Y s1 /\
    y_train s2 = y_train s1 /\
    y_test s2 = y_test s1 /\
    index (X_train s2) = index (X_train s1) /\
    index (X_test s2) = index (X_test s1) /\
    column_names (X s2) =
      filter (fun n => negb (mem n ["broad_money_growth";
                                    "unemployment"]%string))
             (column_names (X s1)).
Proof.
  intros econ_df g1 g1' g2 g2' tr1 tr2 s1 s2 E1 E2.
  destruct (cell_16_frames _ _ _ _ _ E1)
    as (a1 & tr & te & u1 & D1 & DX1 & GY1 & S1 & -> & -> & -> & ->).
  destruct (cell_44_frames _ _ _ _ _ E2)
    as (a2 & tr' & te' & u2 & D2 & DX2 & GY2 & S2 & -> & -> & -> & ->).
  assert (IX1 : index (X s1) = index econ_df)
    by (rewrite (drop_index _ _ _ DX1); exact (drop_index _ _ _ D1)).
  assert (IX2 : index (X s2) = index econ_df)
    by (rewrite (drop_index _ _ _ DX2); exact (drop_index _ _ _ D2)).
  rewrite IX1 in S1. rewrite IX2, S1 in S2.
  inversion S2; subst tr' te' u2; clear S2.
  apply getitem_one in GY1. destruct GY1 as (_ & EY1).
  apply getitem_one in GY2. destruct GY2 as (_ & EY2).
  rewrite (named_drop _ _ _ _ D1) in EY1
    by (simpl; intros [F | [F | [F | []]]]; discriminate F).
  rewrite (named_drop _ _ _ _ D2) in EY2
    by (simpl; intros [F | [F | [F | [F | [F | []]]]]]; discriminate F).
  assert (EY : Y s2 = Y s1).
  { rewrite EY1, EY2, (drop_index _ _ _ D1), (drop_index _ _ _ D2).
    reflexivity. }
  split; [exact EY |]. rewrite EY.
  split; [reflexivity |]. split; [reflexivity |].
  split; [unfold take; cbn [index]; rewrite IX1, IX2; reflexivity |].
  split; [unfold take; cbn [index]; rewrite IX1, IX2; reflexivity |].
  pose proof (column_names_drop _ _ _ (drop_drop _ _ _ _ _ D1 DX1)) as N1.
  pose proof (column_names_drop _ _ _ (drop_drop _ _ _ _ _ D2 DX2)) as N2.
  rewrite N1, N2, filter_twice. apply filter_ext. intros n.
  cbn [app mem existsb].
  repeat match goal with
         | |- context [String.eqb n ?a] => destruct (String.eqb n a)
         end; reflexivity.
Qed.

Lemma refit_uses_the_same_rows_witness :
  exists tr1 tr2 s1 s2 g1' g2',
    cell_16 (H := Samples.libraries []) Samples.full tt = (tr1, Ok (s1, g1')) /\
    Refit.cell_44 (H := Samples.libraries []) Samples.full tt
      = (tr2, Ok (s2, g2')) /\
    Y s2 = Y s1 /\
    y_train s2 = y_train s1 /\
    y_test s2 = y_test s1 /\
    index (X_train s2) = index (X_train s1) /\
    index (X_test s2) = index (X_test s1) /\
    column_names (X s2) =
      filter (fun n => negb (mem n ["broad_money_growth";
                                    "unemployment"]%string))
             (column_names (X s1)).
Proof.
  destruct (cell_16 (H := Samples.libraries []) Samples.full tt)
    as [tr1 [[s1 g1'] | e]] eqn:E1; [| vm_compute in E1; discriminate E1].
  destruct (Refit.cell_44 (H := Samples.libraries []) Samples.full tt)
    as [tr2 [[s2 g2'] | e]] eqn:E2; [| vm_compute in E2; discriminate E2].
  exists tr1, tr2, s1, s2, g1', g2'.
  split; [reflexivity |]. split; [reflexivity |].
  exact (refit_uses_the_same_rows (H := Samples.libraries []) Samples.full
           tt g1' tt g2' tr1 tr2 s1 s2 E1 E2).
Defined.

Lemma cell_9_inv `{Libraries} (econ_df : DataFrame) tr before after :
  cell_9 econ_df = (tr, Ok (before, after)) ->
  exists econ_df_after t,
    drop ["gdp_growth"; "birth_rate"; "final_consum_growth";
          "gross_capital_formation"]%string econ_df = Ok econ_df_after /\
    (exists t0, vif_series (add_constant econ_df) = (t0, Ok before)) /\
    vif_series (add_constant econ_df_after) = (t, Ok after).
Proof.
  intros E. unfold cell_9 in E. cell_steps.
  inversion E; subst; clear E.
  eexists _, _. split; [eassumption |].
  split; [eexists; eassumption | eassumption].
Qed.

(** The factors that cell 9 displays under "DATA AFTER" are those of the
    design matrix of the statsmodels fit.  When cells 9, 16 and 23 end
    well on the same cleaned frame, the second series of cell 9 has one
    factor per column of [X2], under the name of the column, computed
    on the array [est.model.exog]. *)
Theorem screened_columns_are_the_design `{Libraries} :
  forall (econ_df : DataFrame) (g g' : rng) tr9 tr16 tr23
         (before after : list (string * float)) (s : Split)
         (X2 : DataFrame) (est : OLSResults),
    cell_9 econ_df = (tr9, Ok (before, after)) ->
    cell_16 econ_df g = (tr16, Ok (s, g')) ->
    cell_23 (X s) (Y s) = (tr23, Ok (X2, est)) ->
    map fst after = column_names X2 /\
    forall i name,
      nth_error (column_names X2) i = Some name ->
      exists v,
        variance_inflation_factor (exog (model est)) i = Ok v /\
        nth_error after i = Some (name, v).
Proof.
  intros econ_df g g' tr9 tr16 tr23 before after s X2 est E9 E16 E23.
  destruct (cell_9_inv _ _ _ _ E9) as (dropped & t9 & D & _ & A).
  apply vif_series_inv in A. destruct A as [Hn Hv].
  destruct (cell_16_frames _ _ _ _ _ E16)
    as (a1 & tr & te & u1 & D1 & DX1 & _).
  pose proof (drop_drop _ _ _ _ _ D1 DX1) as D'. cbn [app] in D'.
  rewrite D in D'. inversion D'; subst dropped; clear D'.
  apply cell_23_inv in E23. destruct E23 as (-> & M & _).
  unfold exog. rewrite M. cbn [exog_frame].
  split; [exact Hn | exact Hv].
Qed.

Lemma screened_columns_are_the_design_witness :
  exists tr9 tr16 tr23 before after s g' X2 est,
    cell_9 (H := Samples.libraries []) Samples.full
      = (tr9, Ok (before, after)) /\
    cell_16 (H := Samples.libraries []) Samples.full tt
      = (tr16, Ok (s, g')) /\
    cell_23 (H := Samples.libraries []) (X s) (Y s) = (tr23, Ok (X2, est)) /\
    map fst after = column_names X2 /\
    forall i name,
      nth_error (column_names X2) i = Some name ->
      exists v,
        variance_inflation_factor (Libraries := Samples.libraries [])
          (exog (model est)) i = Ok v /\
        nth_error after i = Some (name, v).
Proof.
  destruct (cell_9 (H := Samples.libraries []) Samples.full)
    as [tr9 [[before after] | e]] eqn:E9; [| vm_compute in E9; discriminate E9].
  destruct (cell_16 (H := Samples.libraries []) Samples.full tt)
    as [tr16 [[s g'] | e]] eqn:E16; [| vm_compute in E16; discriminate E16].
  destruct (cell_23 (H := Samples.libraries []) (X s) (Y s))
    as [tr23 [[X2 est] | e]] eqn:E23;
    [| unfold cell_23, fit in E23; simpl in E23; discriminate E23].
  exists tr9, tr16, tr23, before, after, s, g', X2, est.
  split; [reflexivity |]. split; [reflexivity |]. split; [exact E23 |].
  exact (screened_columns_are_the_design (H := Samples.libraries [])
           Samples.full tt g' tr9 tr16 tr23 before after s X2 est E9 E16 E23).
Defined.

(* ----------------------------------------------------------------- *)
(** ** Cells 25 and 29: what happens when a test does not answer *)

(** Cell 25 stops at the first test that raises.  When the White test
    raises, nothing is printed and the Breusch-Pagan test is not
    called; when the Breusch-Pagan test raises, the five lines of the
    White test have been printed and nothing of the second test; the
    cell ends well exactly when both tests return. *)
Theorem cell_25_stops_at_first_failure `{Libraries} :
  forall (est : OLSResults),
    let r := resid (estimates est) in
    let x := exog (model est) in
    (forall e, het_white r x = Raise e ->
       cell_25 est = ([EvHetWhite r x], Raise e)) /\
    (forall w e,
       het_white r x = Ok w -> het_breuschpagan r x = Raise e ->
       exists out,
         length out = 5%nat /\
         cell_25 est =
           (EvHetWhite r x :: map EvPrint out ++ [EvHetBreuschPagan r x],
            Raise e)) /\
    (outcome (cell_25 est) = Ok tt <->
       exists w b, het_white r x = Ok w /\ het_breuschpagan r x = Ok b).
Proof.
  intros est r x. subst r x. split; [| split].
  - intros e E. unfold cell_25, white_block, call, lift, bind.
    rewrite E. reflexivity.
  - intros [[[lm pval] fv] f_pval] e W B.
    unfold cell_25. rewrite (white_block_run est _ _ _ _ W).
    unfold breuschpagan_block, call, lift, bind. rewrite B.
    eexists [_; _; _; _; _]. split; reflexivity.
  - unfold cell_25.
    destruct (het_white (resid (estimates est)) (exog (model est)))
      as [[[[lm pval] fv] f_pval] | e] eqn:W.
    + rewrite (white_block_run est _ _ _ _ W).
      destruct (het_breuschpagan (resid (estimates est)) (exog (model est)))
        as [[[[lm' pval'] fv'] f_pval'] | e'] eqn:B.
      * rewrite (breuschpagan_block_run est _ _ _ _ B).
        split; [intros _; eexists _, _; split; reflexivity | reflexivity].
      * unfold breuschpagan_block, call, lift, bind. rewrite B.
        split; [discriminate |]. intros (w & b & _ & F). discriminate F.
    + unfold white_block, call, lift, bind. rewrite W.
      split; [discriminate |]. intros (w & b & F & _). discriminate F.
Qed.

(** Cell 29 prints a verdict only when the Ljung-Box test returned a
    p-value.  The cell ends well exactly when the library returned at
    least one p-value; with an empty sequence of p-values [min] raises
    [ValueError], and an exception of the library leaves the cell as it
    is; in both cases only the two opening lines were printed and the
    autocorrelation plot is not drawn. *)
Theorem cell_29_needs_a_p_value `{Libraries} :
  forall (X : DataFrame) (est : OLSResults),
    let lag := min2 10 (len X / 5) in
    let r := resid (estimates est) in
    let opening :=
      [EvPrint ("The number of lags will be " ++ str_int lag);
       EvPrint dashes; EvLjungBox r lag] in
    (outcome (cell_29 X est) = Ok tt <->
       exists stat p ps, acorr_ljungbox r lag = Ok (stat, p :: ps)) /\
    (forall stat, acorr_ljungbox r lag = Ok (stat, []) ->
       cell_29 X est =
         (opening, Raise (ValueError "min() arg is an empty sequence"))) /\
    (forall e, acorr_ljungbox r lag = Raise e ->
       cell_29 X est = (opening, Raise e)).
Proof.
  intros X est lag r opening. subst opening.
  unfold cell_29, call, lift, print, emit, bind, outcome. fold lag r.
  destruct (acorr_ljungbox r lag) as [[stat [| p ps]] | e] eqn:E;
    cbn [py_min fst snd app].
  - split; [split; [discriminate | intros (s & p & ps & F); discriminate F] |].
    split; [intros stat' _; reflexivity | intros e F; discriminate F].
  - split.
    + split; [intros _; eexists _, _, _; reflexivity |].
      intros _. destruct (gtb (min_from p ps) lit_0_05); reflexivity.
    + split; intros ? F; discriminate F.
  - split; [split; [discriminate | intros (s & p & ps & F); discriminate F] |].
    split; [intros stat F; discriminate F |].
    intros e' F. inversion F. reflexivity.
Qed.

(** The number of lags.  In every run, whatever the library answers,
    cell 29 calls the Ljung-Box test once, on the residuals of [est],
    with a number of lags between 0 and 10 that is at most a fifth of
    the number of rows: 10 from fifty rows on, 0 below five rows. *)
Theorem ljung_box_lags_in_range `{Libraries} :
  forall (X : DataFrame) (est : OLSResults),
    exists lag before after,
      trace (cell_29 X est)
        = before ++ EvLjungBox (resid (estimates est)) lag :: after /\
      (forall r l, ~ In (EvLjungBox r l) (before ++ after)) /\
      (0 <= lag <= 10)%Z /\
      (5 * lag <= len X)%Z /\
      (lag = 10 <-> 50 <= len X)%Z /\
      (lag = 0 <-> len X < 5)%Z /\
      (lag < 10 -> len X < 5 * lag + 5)%Z.
Proof.
  intros X est.
  assert (N : (0 <= len X)%Z) by (unfold len; lia).
  exists (min2 10 (len X / 5)).
  exists [EvPrint ("The number of lags will be "
                   ++ str_int (min2 10 (len X / 5))); EvPrint dashes].
  set (lag := min2 10 (len X / 5)).
  set (r := resid (estimates est)).
  assert (T : exists after,
            trace (cell_29 X est)
              = [EvPrint ("The number of lags will be " ++ str_int lag);
                 EvPrint dashes] ++ EvLjungBox r lag :: after /\
            forall r' l, ~ In (EvLjungBox r' l) after).
  { unfold cell_29, call, lift, print, emit, bind, trace. fold lag r.
    destruct (acorr_ljungbox r lag) as [[stat [| p ps]] | e];
      cbn [py_min fst snd app].
    - exists []. split; [reflexivity | intros ? ? []].
    - destruct (gtb (min_from p ps) lit_0_05); cbn [fst snd app];
        (eexists; split; [reflexivity |]);
        intros r' l I; simpl in I;
        repeat (destruct I as [I | I]; try discriminate I); exact I.
    - exists []. split; [reflexivity | intros ? ? []]. }
  destruct T as (after & T & NA). exists after.
  split; [exact T |].
  split.
  { intros r' l I. apply in_app_or in I. destruct I as [I | I].
    - simpl in I.
      repeat (destruct I as [I | I]; try discriminate I); exact I.
    - exact (NA r' l I). }
  subst lag. rewrite min2_spec.
  pose proof (Z.div_mod (len X) 5 ltac:(lia)) as D.
  pose proof (Z.mod_pos_bound (len X) 5 ltac:(lia)) as M.
  repeat split; lia.
Qed.

(* ----------------------------------------------------------------- *)
(** ** Cell 29: a p-value that is NaN *)

Lemma ltb_nan_l (x m : float) : is_nan x = true -> ltb x m = false.
Proof. destruct x; try discriminate. reflexivity. Qed.

Lemma ltb_nan_r (x m : float) : is_nan m = true -> ltb x m = false.
Proof. destruct m; try discriminate. destruct x; reflexivity. Qed.

Lemma min_from_nan (l : list float) (m : float) :
  is_nan m = true -> min_from m l = m.
Proof.
  intros N. induction l as [| x l IH]; [reflexivity |].
  cbn [min_from]. rewrite (ltb_nan_r x m N). exact IH.
Qed.

Lemma min_from_without_nan (l : list float) :
  forall m, min_from m l = min_from m (filter (fun x => negb (is_nan x)) l).
Proof.
  induction l as [| x l IH]; intros m; [reflexivity |].
  cbn [min_from filter]. destruct (is_nan x) eqn:N; cbn [negb].
  - rewrite (ltb_nan_l x m N). apply IH.
  - cbn [min_from]. apply IH.
Qed.

(** Python's [min] and a NaN among the p-values.  When the Ljung-Box
    test returned the p-values [p :: ps], the verdict that cell 29
    prints is the one for the first p-value and the later p-values
    that are not NaN: a NaN after the first place is passed over, and
    a NaN in the first place is the value that [min] returns, so that
    the cell prints the verdict of autocorrelation whatever the other
    p-values are. *)
Theorem nan_p_value_and_the_verdict `{Libraries} :
  forall (X : DataFrame) (est : OLSResults) stat (p : float) (ps : vector),
    acorr_ljungbox (resid (estimates est)) (min2 10 (len X / 5))
      = Ok (stat, p :: ps) ->
    let verdict := nth 3 (stdout (trace (cell_29 X est))) EmptyString in
    let others := filter (fun x => negb (is_nan x)) ps in
    verdict = (if gtb (min_from p others) lit_0_05 then lb_no else lb_yes) /\
    (is_nan p = true -> py_min (p :: ps) = Ok p /\ verdict = lb_yes).
Proof.
  intros X est stat p ps E verdict others. subst verdict others.
  rewrite min2_spec in E.
  rewrite (cell_29_run X est stat p ps E).
  cbn [trace fst stdout nth].
  split; [rewrite <- min_from_without_nan; reflexivity |].
  intros N. cbn [py_min]. rewrite (min_from_nan ps p N).
  split; [reflexivity |].
  unfold gtb. fold (ltb lit_0_05 p). rewrite (ltb_nan_r _ p N). reflexivity.
Qed.

Lemma nan_p_value_and_the_verdict_witness :
  acorr_ljungbox
    (Libraries := Samples.libraries [nan; Samples.f 1; nan; Samples.f 0])
    (resid (estimates Demo.est)) (min2 10 (len Samples.full / 5))
    = Ok ([], [nan; Samples.f 1; nan; Samples.f 0]) /\
  nth 3 (stdout (trace (cell_29
           (H := Samples.libraries [nan; Samples.f 1; nan; Samples.f 0])
           Samples.full Demo.est))) EmptyString
    = (if gtb (min_from nan [Samples.f 1; Samples.f 0]) lit_0_05
       then lb_no else lb_yes) /\
  (is_nan nan = true ->
   py_min [nan; Samples.f 1; nan; Samples.f 0] = Ok nan /\
   nth 3 (stdout (trace (cell_29
            (H := Samples.libraries [nan; Samples.f 1; nan; Samples.f 0])
            Samples.full Demo.est))) EmptyString = lb_yes).
Proof.
  split; [reflexivity |].
  exact (nan_p_value_and_the_verdict
           (H := Samples.libraries [nan; Samples.f 1; nan; Samples.f 0])
           Samples.full Demo.est []
           nan [Samples.f 1; nan; Samples.f 0] eq_refl).
Defined.

(* ----------------------------------------------------------------- *)
(** ** Cell 5: what stops the load, and what the load keeps *)

Lemma map_result_raises {A B} (f : A -> result B) (l : list A) (a : A) e :
  In a l -> f a = Raise e -> exists e', Loader.map_result f l = Raise e'.
Proof.
  intros I E. induction l as [| b l IH]; [destruct I |].
  cbn [Loader.map_result]. destruct (f b) as [v | e0] eqn:Fb.
  - destruct I as [-> | I]; [congruence |].
    destruct (IH I) as (e' & ->). exists e'. reflexivity.
  - exists e0. reflexivity.
Qed.

Lemma find_replace (a b name : string) (sheet : Loader.Sheet) :
  find (fun c => String.eqb (fst c) name) (Loader.replace a b sheet)
  = option_map
      (fun c => (fst c, map (Loader.replace_cell a b) (snd c)))
      (find (fun c => String.eqb (fst c) name) sheet).
Proof.
  unfold Loader.replace. induction sheet as [| c sheet IH]; [reflexivity |].
  cbn [map find fst]. destruct (String.eqb (fst c) name); [reflexivity | exact IH].
Qed.

Lemma set_index_inv (name : string) (sheet : Loader.Sheet) (t : Table obj) :
  Loader.set_index name sheet = Ok t ->
  exists c,
    find (fun c => String.eqb (fst c) name) sheet = Some c /\
    index t = snd c /\
    columns t = filter (fun c => negb (String.eqb (fst c) name)) sheet.
Proof.
  unfold Loader.set_index.
  destruct (find _ sheet) as [c |]; [| discriminate].
  intros E. inversion E. exists c. repeat split.
Qed.

Lemma set_index_missing (name : string) (sheet : Loader.Sheet) :
  ~ In name (map fst sheet) ->
  exists key, Loader.set_index name sheet = Raise (KeyError key).
Proof.
  intros N. unfold Loader.set_index.
  destruct (find _ sheet) as [c |] eqn:F; [| eexists; reflexivity].
  exfalso. apply find_some in F. destruct F as [I E].
  apply String.eqb_eq in E. apply N. rewrite <- E. apply in_map. exact I.
Qed.

Lemma astype_float_inv (parse_float : string -> option float)
    (t : Table obj) (d : DataFrame) :
  Loader.astype_float parse_float t = Ok d ->
  index d = index t /\
  Forall2 (fun c c' => fst c' = fst c /\
             Loader.map_result (Loader.to_float parse_float) (snd c)
               = Ok (snd c'))
          (columns t) (columns d).
Proof.
  unfold Loader.astype_float.
  destruct (Loader.map_result _ (columns t)) as [cs |] eqn:M; [| discriminate].
  intros E. inversion E. cbn [index columns]. split; [reflexivity |].
  apply map_result_inv in M.
  refine (Forall2_impl _ _ M). intros c c' R. cbn beta in R.
  destruct (Loader.map_result (Loader.to_float parse_float) (snd c));
    [| discriminate].
  inversion R. split; reflexivity.
Qed.

Lemma Forall2_In_left {A B} (P : A -> B -> Prop) (l : list A) (l' : list B) :
  Forall2 P l l' -> forall a, In a l -> exists b, In b l' /\ P a b.
Proof.
  induction 1 as [| x y l l' R _ IH]; intros a I; [destruct I |].
  destruct I as [<- | I].
  - exists y. split; [left; reflexivity | exact R].
  - destruct (IH a I) as (b & Ib & Pb). exists b. split; [right |]; assumption.
Qed.

Lemma nth_error_take_rows {A} (d : A) (pos : list nat) (l : list A) j i a :
  nth_error pos j = Some i -> nth_error l i = Some a ->
  nth_error (take_rows d pos l) j = Some a.
Proof.
  intros Pj Li. unfold take_rows. rewrite nth_error_map, Pj. cbn [option_map].
  f_equal. apply nth_error_nth. exact Li.
Qed.

(** The conversion to [float] comes before the rows are selected, so a
    cell that [float] rejects stops cell 5 wherever it stands.  A
    string other than [".."] and ["nan"] that is no numeral, in any
    row of any column but [Year], makes cell 5 raise before anything
    is displayed, in a row that the slice would drop as well. *)
Theorem stray_text_stops_the_load :
  forall (parse_float : string -> option float)
         (float_label : float -> string) (sheet : Loader.Sheet)
         (name : string) (cells : list obj) (s : string),
    In (name, cells) sheet ->
    name <> "Year"%string ->
    In (OStr s) cells ->
    s <> ".."%string -> s <> "nan"%string -> parse_float s = None ->
    exists e, Loader.cell_5 parse_float float_label sheet = ([], Raise e).
Proof.
  intros parse fl sheet name cells s Ic Hname Is Hdots Hnan Hparse.
  unfold Loader.cell_5.
  destruct (Loader.set_index "Year" (Loader.replace ".." "nan" sheet))
    as [t | e] eqn:Et; cbn [lift bind]; [| exists e; reflexivity].
  apply set_index_inv in Et. destruct Et as (yc & _ & _ & Ct).
  assert (Icol : In (name, map (Loader.replace_cell ".." "nan") cells)
                    (columns t)).
  { rewrite Ct. apply filter_In. split.
    - unfold Loader.replace.
      apply (in_map (fun c => (fst c, map (Loader.replace_cell ".." "nan")
                                          (snd c))) _ _ Ic).
    - cbn [fst]. apply negb_true_iff, String.eqb_neq. exact Hname. }
  assert (Icell : In (OStr s) (map (Loader.replace_cell ".." "nan") cells)).
  { apply in_map_iff. exists (OStr s). split; [| exact Is].
    cbn [Loader.replace_cell].
    destruct (String.eqb_spec s ".."); [contradiction | reflexivity]. }
  assert (Ef : Loader.to_float parse (OStr s)
               = Raise (ValueError "could not convert string to float")).
  { cbn [Loader.to_float]. unfold Loader.py_float.
    destruct (String.eqb_spec s "nan"); [contradiction |].
    rewrite Hparse. reflexivity. }
  destruct (map_result_raises _ _ _ _ Icell Ef) as (e1 & E1).
  assert (Ea : exists e, Loader.astype_float parse t = Raise e).
  { unfold Loader.astype_float.
    destruct (map_result_raises
                (fun c => match Loader.map_result (Loader.to_float parse)
                                  (snd c) with
                          | Ok v => Ok (fst c, v)
                          | Raise e => Raise e
                          end) (columns t) _ e1 Icol) as (e2 & ->).
    - cbn [snd]. rewrite E1. reflexivity.
    - exists e2. reflexivity. }
  destruct Ea as (e & ->). exists e. reflexivity.
Qed.

Lemma stray_text_stops_the_load_witness :
  exists e, Loader.cell_5 Demo.no_numeral Demo.no_float_label Samples.with_note = ([], Raise e).
Proof.
  apply (stray_text_stops_the_load Demo.no_numeral Demo.no_float_label Samples.with_note
           "GDP growth (annual %)"
           [OFloat (Samples.f 3); OFloat (Samples.f 4); OStr "n/a"] "n/a").
  - right. left. reflexivity.
  - discriminate.
  - right. right. left. reflexivity.
  - discriminate.
  - discriminate.
  - reflexivity.
Defined.

(** A sheet without a column [Year] stops cell 5 at [set_index], with
    a [KeyError] and nothing displayed. *)
Theorem cell_5_needs_year :
  forall (parse_float : string -> option float)
         (float_label : float -> string) (sheet : Loader.Sheet),
    ~ In "Year"%string (map fst sheet) ->
    exists key,
      Loader.cell_5 parse_float float_label sheet = ([], Raise (KeyError key)).
Proof.
  intros parse fl sheet N. unfold Loader.cell_5.
  destruct (set_index_missing "Year" (Loader.replace ".." "nan" sheet))
    as (key & K); [rewrite replace_names; exact N |].
  rewrite K. exists key. reflexivity.
Qed.

Lemma cell_5_needs_year_witness :
  exists key,
    Loader.cell_5 Demo.no_numeral Demo.no_float_label
      [("year"%string, [OInt 1969]);
       ("GDP growth (annual %)"%string, [OFloat (Samples.f 3)])]
    = ([], Raise (KeyError key)).
Proof.
  apply cell_5_needs_year. simpl.
  intros [F | [F | []]]; discriminate F.
Defined.

(** Cell 5 keeps every value with its year and its column.  In a run
    that ends well, the rows of the cleaned frame are the rows of the
    sheet at the positions [pos] of the slice, in that order: row [j]
    carries the label of the year of sheet row [pos_j], and in every
    column of the sheet but [Year], under its new name, the value
    [float] gives for the cell of that row, which is the cell itself
    where it is a float and NaN where it is [".."]. *)
Theorem cell_5_keeps_values_with_their_year :
  forall (parse_float : string -> option float)
         (float_label : float -> string) (sheet : Loader.Sheet)
         tr (econ_df : DataFrame),
    Loader.cell_5 parse_float float_label sheet = (tr, Ok econ_df) ->
    exists years pos,
      find (fun c => String.eqb (fst c) "Year") sheet = Some years /\
      Loader.slice_locs float_label (map (Loader.replace_cell ".." "nan") (snd years))
        "1969" "2016" = Ok pos /\
      length (index econ_df) = length pos /\
      (forall j i y,
         nth_error pos j = Some i -> nth_error (snd years) i = Some y ->
         nth_error (index econ_df) j
           = Some (Loader.replace_cell ".." "nan" y)) /\
      (forall name cells,
         In (name, cells) sheet -> name <> "Year"%string ->
         exists col,
           In (rename_one Loader.column_names name, col) (columns econ_df) /\
           length col = length pos /\
           forall j i c,
             nth_error pos j = Some i -> nth_error cells i = Some c ->
             exists v,
               nth_error col j = Some v /\
               Loader.to_float parse_float (Loader.replace_cell ".." "nan" c)
                 = Ok v /\
               (forall x, c = OFloat x -> v = x) /\
               (forall z, c = OInt z -> v = of_Z z) /\
               (c = OStr ".." -> v = nan)).
Proof.
  intros parse fl sheet tr econ_df E. apply cell_5_inv in E.
  destruct E as (t & d & pos & Et & Ed & Ep & -> & _).
  apply set_index_inv in Et. destruct Et as (yc & Fy & It & Ct).
  rewrite find_replace in Fy.
  destruct (find (fun c => String.eqb (fst c) "Year") sheet) as [years |] eqn:Fs;
    [| discriminate].
  cbn [option_map] in Fy. inversion Fy; subst yc; clear Fy. cbn [snd] in It.
  apply astype_float_inv in Ed. destruct Ed as [Id Cd].
  rewrite Id, It in Ep.
  exists years, pos. split; [reflexivity |]. split; [exact Ep |].
  unfold rename, take. cbn [index columns].
  split; [unfold take_rows; apply length_map |].
  split.
  { intros j i y Pj Yi. rewrite Id, It.
    apply (nth_error_take_rows _ _ _ _ _ _ Pj).
    rewrite nth_error_map, Yi. reflexivity. }
  intros name cells Ic Hname.
  assert (Icol : In (name, map (Loader.replace_cell ".." "nan") cells)
                    (columns t)).
  { rewrite Ct. apply filter_In. split.
    - unfold Loader.replace.
      apply (in_map (fun c => (fst c, map (Loader.replace_cell ".." "nan")
                                          (snd c))) _ _ Ic).
    - cbn [fst]. apply negb_true_iff, String.eqb_neq. exact Hname. }
  destruct (Forall2_In_left _ _ _ Cd _ Icol) as ([n' col] & Id' & Hn & Hc).
  cbn [fst snd] in Hn, Hc. subst n'.
  exists (take_rows nan pos col). split.
  { rewrite map_map.
    apply (in_map (fun c => (rename_one Loader.column_names (fst c),
                             take_rows nan pos (snd c))) _ _ Id'). }
  split; [unfold take_rows; apply length_map |].
  intros j i c Pj Ci.
  apply map_result_inv in Hc.
  destruct (Forall2_nth_error _ _ _ Hc i (Loader.replace_cell ".." "nan" c))
    as (v & Ev & Tv).
  { rewrite nth_error_map, Ci. reflexivity. }
  exists v. split; [exact (nth_error_take_rows _ _ _ _ _ _ Pj Ev) |].
  split; [exact Tv |]. split; [| split].
  - intros x ->. cbn in Tv. congruence.
  - intros z ->. cbn [Loader.replace_cell Loader.to_float] in Tv.
    destruct (is_finite (of_Z z)); congruence.
  - intros ->. cbn in Tv. congruence.
Qed.

Lemma cell_5_keeps_values_with_their_year_witness :
  exists tr econ_df years pos,
    Loader.cell_5 Demo.no_numeral Demo.no_float_label Samples.workbook
      = (tr, Ok econ_df) /\
    index econ_df = [OInt 1969; OInt 1970; OInt 1971] /\
    find (fun c => String.eqb (fst c) "Year") Samples.workbook = Some years /\
    Loader.slice_locs Demo.no_float_label
      (map (Loader.replace_cell ".." "nan") (snd years)) "1969" "2016"
      = Ok pos /\
    length (index econ_df) = length pos /\
    (forall j i y,
       nth_error pos j = Some i -> nth_error (snd years) i = Some y ->
       nth_error (index econ_df) j
         = Some (Loader.replace_cell ".." "nan" y)) /\
    (forall name cells,
       In (name, cells) Samples.workbook -> name <> "Year"%string ->
       exists col,
         In (rename_one Loader.column_names name, col) (columns econ_df) /\
         length col = length pos /\
         forall j i c,
           nth_error pos j = Some i -> nth_error cells i = Some c ->
           exists v,
             nth_error col j = Some v /\
             Loader.to_float Demo.no_numeral
               (Loader.replace_cell ".." "nan" c) = Ok v /\
             (forall x, c = OFloat x -> v = x) /\
             (forall z, c = OInt z -> v = of_Z z) /\
             (c = OStr ".." -> v = nan)).
Proof.
  destruct (Loader.cell_5 Demo.no_numeral Demo.no_float_label Samples.workbook)
    as [tr [econ_df | e]] eqn:E; [| vm_compute in E; discriminate E].
  destruct (cell_5_keeps_values_with_their_year Demo.no_numeral
              Demo.no_float_label Samples.workbook tr econ_df E)
    as (years & pos & K).
  exists tr, econ_df, years, pos. split; [reflexivity |].
  split; [vm_compute in E; inversion E; reflexivity | exact K].
Defined.

(* ----------------------------------------------------------------- *)
(** ** Cell 5: a sheet with the newest year first *)

Lemma desc_head (x : string) (l : list string) :
  Loader.is_monotonic_decreasing (x :: l) = true ->
  forall y, In y l -> String.leb y x = true.
Proof.
  unfold Loader.is_monotonic_decreasing.
  revert x. induction l as [| z l IH]; intros x H y Hy; [contradiction |].
  cbn [Loader.monotonic] in H. apply andb_prop in H. destruct H as [Hxz Hs].
  destruct Hy as [<- | Hy]; [exact Hxz |].
  apply str_leb_trans with z; [exact (IH z Hs y Hy) | exact Hxz].
Qed.

Lemma leb_not_above (y a : string) :
  String.leb y a = true -> String.ltb a y = false.
Proof.
  intros L.
  destruct (str_cases y a)
    as [(_ & _ & _ & _ & F) | [(_ & _ & _ & _ & F) | (_ & _ & F & _)]];
    congruence.
Qed.

Lemma ltb_not_eqb (y a : string) :
  String.ltb y a = true -> String.eqb y a = false.
Proof.
  intros L.
  destruct (str_cases y a)
    as [(_ & _ & _ & F & _) | [(_ & F & _) | (_ & F & _)]]; congruence.
Qed.

(** In an index in decreasing order the occurrences of a label stand
    together, after the labels above it. *)
Lemma occurrences_desc (a : string) (l : list string) :
  Loader.is_monotonic_decreasing l = true ->
  forall k,
    Loader.occurrences a l k =
      seq (k + Loader.count (fun x => String.ltb a x) l)
          (Loader.count (fun x => String.eqb x a) l).
Proof.
  induction l as [| x l IH]; intros Hs k.
  - simpl. reflexivity.
  - specialize (IH (monotonic_tail _ _ _ Hs)).
    pose proof (desc_head x l Hs) as Hd.
    unfold Loader.count in *. cbn [Loader.occurrences filter].
    destruct (str_cases x a)
      as [(_ & L & _ & E & G) | [(-> & L & _ & E & G) | (_ & L & _ & E & G)]];
      rewrite E, G.
    + assert (A1 : forall y, In y l -> String.ltb a y = false).
      { intros y Hy. apply leb_not_above.
        destruct (str_cases y a) as [(_ & _ & F & _) | [(_ & _ & F & _) | _]];
          try exact F.
        pose proof (str_leb_ltb_trans _ _ _ (Hd y Hy) L) as T.
        destruct (str_cases y a)
          as [(_ & _ & F & _) | [(_ & F & _) | (_ & F & _)]]; congruence. }
      assert (A2 : forall y, In y l -> String.eqb y a = false).
      { intros y Hy. apply ltb_not_eqb.
        exact (str_leb_ltb_trans _ _ _ (Hd y Hy) L). }
      pose proof (count_none (fun x => String.ltb a x) l A1) as C1.
      pose proof (count_none (fun x => String.eqb x a) l A2) as C2.
      unfold Loader.count in C1, C2. rewrite IH, C1, C2. reflexivity.
    + assert (A : forall y, In y l -> String.ltb a y = false)
        by (intros y Hy; apply leb_not_above; exact (Hd y Hy)).
      pose proof (count_none (fun x => String.ltb a x) l A) as C.
      unfold Loader.count in C.
      rewrite IH, C. cbn [length seq]. rewrite !Nat.add_0_r. reflexivity.
    + rewrite IH. cbn [length]. f_equal. lia.
Qed.

Lemma get_slice_bound_desc (l : list string) (label : string) (s : Loader.side) :
  Loader.is_monotonic_decreasing l = true ->
  Loader.is_monotonic_increasing l = false ->
  Loader.get_slice_bound l label s =
    Ok (match s with
        | Loader.left_side => Loader.count (fun x => String.ltb label x) l
        | Loader.right_side =>
            (Loader.count (fun x => String.ltb label x) l
             + Loader.count (fun x => String.eqb x label) l)%nat
        end).
Proof.
  intros Hd Hi. unfold Loader.get_slice_bound.
  rewrite (occurrences_desc label l Hd 0). cbn [Nat.add].
  set (i := Loader.count (fun x => String.ltb label x) l).
  set (m := Loader.count (fun x => String.eqb x label) l).
  destruct m as [| m].
  - cbn [seq]. rewrite Hi, Hd. destruct s; f_equal; lia.
  - cbn [seq].
    assert (Q : last (seq (S i) m) i = (i + m)%nat).
    { destruct m as [| m']; [simpl; lia |]. rewrite last_seq. lia. }
    rewrite Q, length_seq.
    replace (S (i + m) - i)%nat with (S m) by lia.
    rewrite Nat.eqb_refl. destruct s; f_equal; lia.
Qed.

Lemma count_above_split (start stop : string) (l : list string) :
  String.ltb start stop = true ->
  (Loader.count (fun x => String.ltb stop x) l
   + Loader.count (fun x => String.eqb x stop) l
   <= Loader.count (fun x => String.ltb start x) l)%nat.
Proof.
  intros L. unfold Loader.count. induction l as [| x l IH]; [simpl; lia |].
  cbn [filter].
  destruct (str_cases x stop)
    as [(_ & _ & _ & E & G) | [(-> & _ & _ & E & G) | (_ & _ & LE & E & G)]];
    rewrite E, G.
  - destruct (String.ltb start x); cbn [length]; lia.
  - rewrite L. cbn [length]. lia.
  - assert (T : String.ltb start x = true).
    { destruct (str_cases start stop)
        as [(C1 & _) | [(_ & F & _) | (_ & F & _)]]; try congruence.
      destruct (str_cases stop x)
        as [(C2 & _) | [(_ & F & _) | (_ & F & _)]]; try congruence.
      unfold String.ltb. rewrite (str_compare_trans _ _ _ C1 C2).
      reflexivity. }
    rewrite T. cbn [length]. lia.
Qed.

(** A sheet sorted with the newest year first loses every row.  When
    the labels of [Year] stand in decreasing order (and not all the
    same), the slice from ['1969'] to ['2016'] is empty whatever the
    years are: cell 5 then ends without an exception and binds a frame
    with all the columns and no row. *)
Theorem newest_first_sheet_gives_no_rows :
  forall (parse_float : string -> option float)
         (float_label : float -> string) (sheet : Loader.Sheet)
         (t : Table obj) (d : DataFrame) (labels : list string),
    Loader.set_index "Year" (Loader.replace ".." "nan" sheet) = Ok t ->
    index t = map OStr labels ->
    Loader.astype_float parse_float t = Ok d ->
    Loader.is_monotonic_decreasing labels = true ->
    Loader.is_monotonic_increasing labels = false ->
    exists tr econ_df,
      Loader.cell_5 parse_float float_label sheet = (tr, Ok econ_df) /\
      index econ_df = [] /\
      column_names econ_df
        = map (rename_one Loader.column_names) (column_names t) /\
      forall c, In c (columns econ_df) -> snd c = [].
Proof.
  intros parse fl sheet t d labels Et It Ed Hd Hi.
  pose proof (astype_float_names _ _ _ Ed) as [Id Nd].
  assert (P : Loader.slice_locs fl (index d) "1969" "2016" = Ok []).
  { rewrite Id, It. unfold Loader.slice_locs.
    rewrite !slice_bound_strings.
    rewrite !(get_slice_bound_desc labels _ _ Hd Hi).
    pose proof (count_above_split "1969" "2016" labels eq_refl) as C.
    replace (_ + _ - _)%nat with 0%nat by lia. reflexivity. }
  unfold Loader.cell_5. rewrite Et. cbn [lift bind]. rewrite Ed. cbn [bind].
  unfold Loader.loc_slice. rewrite P.
  eexists _, _. split; [reflexivity |].
  split; [reflexivity |]. split.
  - rewrite <- Nd. unfold column_names, rename, take. cbn [columns].
    rewrite !map_map. reflexivity.
  - intros c I. unfold rename, take in I. cbn [columns] in I.
    rewrite map_map in I. apply in_map_iff in I.
    destruct I as (c0 & <- & _). reflexivity.
Qed.

Lemma newest_first_sheet_gives_no_rows_witness :
  exists tr econ_df,
    Loader.cell_5 Demo.no_numeral Demo.no_float_label Samples.newest_first
      = (tr, Ok econ_df) /\
    index econ_df = [] /\
    column_names econ_df = ["gdp_growth"%string] /\
    forall c, In c (columns econ_df) -> snd c = [].
Proof.
  exact (newest_first_sheet_gives_no_rows Demo.no_numeral Demo.no_float_label
           Samples.newest_first
           (mkTable [OStr "1971"; OStr "1970"; OStr "1969"]
              [("GDP growth (annual %)"%string,
                [OFloat (Samples.f 5); OFloat (Samples.f 4);
                 OFloat (Samples.f 3)])])
           (mkTable [OStr "1971"; OStr "1970"; OStr "1969"]
              [("GDP growth (annual %)"%string,
                [Samples.f 5; Samples.f 4; Samples.f 3])])
           ["1971"; "1970"; "1969"]%string
           eq_refl eq_refl eq_refl eq_refl eq_refl).
Defined.
